(** * CBC.Solve FSI sandbox: coupling and adaptivity orchestration

    A shallow embedding of
      - [sandbox/fsi/fsisolver.py]    ([FSISolver.solve], the adaptive loop),
      - [sandbox/fsi/primalsolver.py] ([solve_primal], time stepping and the
        fixed-point iteration over the three subproblems),
      - [sandbox/fsi/subproblems.py]  ([FluidProblem.update_mesh_displacement]
        and [FluidProblem.update_extra]).

    Python floats are idealised as rationals ([Q], compared with [==]),
    with two exceptions.  The listing computes two thresholds and then
    compares against them, [w_h * tolerance] (fsisolver.py, line 86) and
    [T - DOLFIN_EPS] (primalsolver.py, line 197), and for both the
    rounding of that one operation decides the branch even on exact
    data: [DOLFIN_EPS] lies below the spacing of the doubles around any
    [T > 4].  These two go through the rounding [Float.fl].  Everything
    else is exact: sums and differences of times, the trapezoidal rule,
    norms.  Everything imported from DOLFIN, cbc or the modules
    [adaptivity], [storage] and [dualsolver] is a collaborator: it
    enters as a field of an interface record, and calls to it are
    recorded in a trace so that "is (not) invoked" can be stated. *)

From Stdlib Require Import QArith Qminmax Qabs Qpower Qround Lqa Lia List ZArith Bool.
From stdpp Require Import base list option.
Import ListNotations.
Local Open Scope Q_scope.

(* ================================================================== *)
(** * Part I: the programs *)
(* ================================================================== *)

(** ** Python's floats *)

Module Float.

(** [fl x] is the double nearest to the real [x].  What the properties
    below need of it is that rounding keeps the order. *)
Record Rounding := mkRounding {
  fl : Q -> Q;
  fl_monotone : forall x y : Q, x <= y -> fl x <= fl y
}.

(** No rounding at all: the idealisation in which every real is a
    double. *)
Definition exact : Rounding := mkRounding (fun x => x) (fun _ _ H => H).

(** The significand of a double has 53 bits. *)
Definition precision : Z := 53.

(** The integer nearest to [m]; of two that are equally near, the even
    one. *)
Definition round_half_even (m : Q) : Z :=
  let k := Qfloor m in
  match Qcompare (m - inject_Z k) (1 # 2) with
  | Lt => k
  | Gt => (k + 1)%Z
  | Eq => if Z.even k then k else (k + 1)%Z
  end.

(** For [x > 0], the [e] with [2 ^ e <= x < 2 ^ (e + 1)]. *)
Definition binade (x : Q) : Z :=
  let e := (Z.log2 (Qnum x) - Z.log2 (Zpos (Qden x)))%Z in
  if Qle_bool (2 ^ e) x then e else (e - 1)%Z.

(** The distance between neighbouring doubles in the binade of [x]. *)
Definition spacing (x : Q) : Q := 2 ^ (binade x - (precision - 1)).

(** Round to nearest, ties to even, for [x > 0]. *)
Definition round_positive (x : Q) : Q :=
  inject_Z (round_half_even (x / spacing x)) * spacing x.

(** The double nearest to [x].  The exponent is not bounded: there is
    no overflow to infinity and there are no subnormal numbers, neither
    of which the thresholds rounded in this development come near. *)
Definition round (x : Q) : Q :=
  match Qnum x with
  | Z0 => 0
  | Zpos _ => round_positive x
  | Zneg _ => - round_positive (- x)
  end.

(** Rounding keeps the order: within a binade because rounding to the
    nearest integer does, across binades because a power of two lies
    between the two values. *)
Lemma two_pow_pos (e : Z) : 0 < 2 ^ e.
Proof. apply Qpower_0_lt. reflexivity. Qed.

Lemma two_pow_succ (e : Z) : 2 ^ (e + 1) == 2 * 2 ^ e.
Proof. rewrite Qpower_plus by discriminate. rewrite Qpower_1_r. ring. Qed.

Lemma two_pow_le (a b : Z) : (a <= b)%Z -> 2 ^ a <= 2 ^ b.
Proof. intros H. apply Qpower_le_compat_l; [exact H|]. discriminate. Qed.

Lemma log2_bounds (n : Z) :
  (0 < n)%Z -> 2 ^ Z.log2 n <= inject_Z n /\ inject_Z n < 2 * 2 ^ Z.log2 n.
Proof.
  intros Hn. destruct (Z.log2_spec n Hn) as [Hlo Hhi].
  pose proof (Z.log2_nonneg n) as H0.
  assert (E : inject_Z (2 ^ Z.log2 n) == 2 ^ Z.log2 n) by (apply Zpower_Qpower; exact H0).
  split.
  - rewrite <- E. rewrite <- Zle_Qle. exact Hlo.
  - rewrite <- E. change 2 with (inject_Z 2) at 1. rewrite <- inject_Z_mult, <- Zlt_Qlt.
    rewrite Z.pow_succ_r in Hhi by exact H0. exact Hhi.
Qed.

Lemma binade_spec (x : Q) : 0 < x -> 2 ^ binade x <= x /\ x < 2 * 2 ^ binade x.
Proof.
  intros Hx. unfold binade.
  set (a := Z.log2 (Qnum x)). set (b := Z.log2 (Zpos (Qden x))).
  assert (Hn : (0 < Qnum x)%Z).
  { unfold Qlt in Hx. cbn in Hx. lia. }
  destruct (log2_bounds (Qnum x) Hn) as [Na Nb]. fold a in Na, Nb.
  destruct (log2_bounds (Zpos (Qden x)) eq_refl) as [Da Db]. fold b in Da, Db.
  assert (Hd : 0 < inject_Z (Zpos (Qden x))) by reflexivity.
  assert (Hxd : x * inject_Z (Zpos (Qden x)) == inject_Z (Qnum x)).
  { destruct x as [n d]. unfold Qeq, inject_Z. cbn. lia. }
  pose proof (two_pow_pos a) as Pa. pose proof (two_pow_pos b) as Pb.
  assert (Eab : 2 ^ (a - b) * 2 ^ b == 2 ^ a).
  { rewrite <- Qpower_plus by discriminate. replace (a - b + b)%Z with a by lia. reflexivity. }
  pose proof (two_pow_pos (a - b)) as Pab.
  set (D := inject_Z (Zpos (Qden x))) in *. set (N := inject_Z (Qnum x)) in *.
  set (A := 2 ^ a) in *. set (B := 2 ^ b) in *. set (E := 2 ^ (a - b)) in *.
  assert (Hhi : x < 2 * E).
  { (* x * D = N < 2 A = 2 E B <= 2 E D *)
    apply Qnot_le_lt. intros Hc.
    assert (2 * E * D <= x * D) by nra.
    assert (2 * E * B <= 2 * E * D) by nra.
    nra. }
  destruct (Qle_bool E x) eqn:Hle.
  - apply Qle_bool_iff in Hle. split; assumption.
  - assert (Hlt : x < E).
    { apply Qnot_le_lt. intros Hc. apply Qle_bool_iff in Hc. congruence. }
    assert (E2 : 2 * 2 ^ (a - b - 1) == E).
    { rewrite <- two_pow_succ. replace (a - b - 1 + 1)%Z with (a - b)%Z by lia. reflexivity. }
    set (E' := 2 ^ (a - b - 1)) in *.
    split; [|rewrite E2; exact Hlt].
    (* E' <= x : x * D = N >= A = E B; D < 2 B; so x * 2B > x D >= E B, x > E/2 *)
    apply Qnot_lt_le. intros Hc.
    assert (x * D < E' * D) by nra.
    assert (E' * D < E' * (2 * B)).
    { pose proof (two_pow_pos (a - b - 1)). fold E' in H0. nra. }
    nra.
Qed.

Lemma binade_mono (x y : Q) : 0 < x -> x <= y -> (binade x <= binade y)%Z.
Proof.
  intros Hx Hxy.
  destruct (binade_spec x Hx) as [Lx Ux].
  destruct (binade_spec y ltac:(lra)) as [Ly Uy].
  destruct (Z_le_gt_dec (binade x) (binade y)) as [H|H]; [exact H|exfalso].
  assert (2 ^ (binade y + 1) <= 2 ^ binade x) by (apply two_pow_le; lia).
  rewrite two_pow_succ in H0. lra.
Qed.

Lemma floor_bounds (m : Q) : inject_Z (Qfloor m) <= m /\ m < inject_Z (Qfloor m) + 1.
Proof.
  split; [apply Qfloor_le|].
  pose proof (Qlt_floor m) as H. rewrite inject_Z_plus in H. exact H.
Qed.

Lemma round_half_even_range (m : Q) :
  (Qfloor m <= round_half_even m <= Qfloor m + 1)%Z.
Proof.
  unfold round_half_even. destruct (Qcompare _ _); [destruct (Z.even _)| |]; lia.
Qed.

Lemma round_half_even_integer (N : Z) (m : Q) :
  (inject_Z N <= m -> (N <= round_half_even m)%Z)
  /\ (m <= inject_Z N -> (round_half_even m <= N)%Z).
Proof.
  destruct (floor_bounds m) as [Fl Fu].
  pose proof (round_half_even_range m) as [Rl Ru].
  split; intros H.
  - assert ((N <= Qfloor m)%Z); [|lia].
    apply Qfloor_resp_le in H. rewrite Qfloor_Z in H. exact H.
  - destruct (Z_le_gt_dec (Qfloor m + 1) N) as [Hle|Hgt]; [lia|].
    (* N <= floor m <= m <= N: m = N *)
    assert (HN : (N <= Qfloor m)%Z) by lia.
    assert (Em : m == inject_Z (Qfloor m)).
    { rewrite Zle_Qle in HN. lra. }
    unfold round_half_even.
    assert (Hc : Qcompare (m - inject_Z (Qfloor m)) (1 # 2) = Lt).
    { rewrite <- Qlt_alt. lra. }
    rewrite Hc. rewrite Zle_Qle. lra.
Qed.

Lemma round_half_even_mono (m m' : Q) :
  m <= m' -> (round_half_even m <= round_half_even m')%Z.
Proof.
  intros H.
  pose proof (Qfloor_resp_le _ _ H) as Hk.
  pose proof (round_half_even_range m) as [Rl Ru].
  pose proof (round_half_even_range m') as [Rl' Ru'].
  destruct (Z_lt_le_dec (Qfloor m) (Qfloor m')) as [Hlt|Hge]; [lia|].
  assert (E : Qfloor m' = Qfloor m) by lia.
  unfold round_half_even. rewrite E.
  destruct (Qcompare (m - inject_Z (Qfloor m)) (1 # 2)) eqn:C1;
    destruct (Qcompare (m' - inject_Z (Qfloor m)) (1 # 2)) eqn:C2;
    try (destruct (Z.even (Qfloor m))); try lia; exfalso;
    try (apply Qeq_alt in C1); try (apply Qeq_alt in C2);
    try (rewrite <- Qlt_alt in C1); try (rewrite <- Qlt_alt in C2);
    try (rewrite <- Qgt_alt in C1); try (rewrite <- Qgt_alt in C2); lra.
Qed.

Lemma spacing_pos (x : Q) : 0 < spacing x.
Proof. apply two_pow_pos. Qed.

Lemma spacing_binade (x : Q) :
  inject_Z (2 ^ (precision - 1)) * spacing x == 2 ^ binade x.
Proof.
  unfold spacing. rewrite Zpower_Qpower by (unfold precision; lia).
  change (inject_Z 2) with 2. rewrite <- Qpower_plus by discriminate.
  replace (precision - 1 + (binade x - (precision - 1)))%Z with (binade x) by lia.
  reflexivity.
Qed.

Lemma round_positive_bounds (x : Q) :
  0 < x -> 2 ^ binade x <= round_positive x /\ round_positive x <= 2 * 2 ^ binade x.
Proof.
  intros Hx. destruct (binade_spec x Hx) as [Lx Ux].
  pose proof (spacing_pos x) as Hq. pose proof (spacing_binade x) as Hs.
  unfold round_positive.
  set (q := spacing x) in *. set (P := (2 ^ (precision - 1))%Z) in *.
  assert (Em : x / q * q == x) by (field; lra).
  destruct (round_half_even_integer P (x / q)) as [Hlo _].
  destruct (round_half_even_integer (2 * P) (x / q)) as [_ Hhi].
  assert (H1 : inject_Z P <= x / q).
  { apply Qnot_lt_le. intros Hc. assert (x / q * q < inject_Z P * q) by nra. lra. }
  assert (H2 : x / q <= inject_Z (2 * P)).
  { rewrite inject_Z_mult. change (inject_Z 2) with 2.
    apply Qnot_lt_le. intros Hc. assert (2 * inject_Z P * q < x / q * q) by nra. lra. }
  specialize (Hlo H1). specialize (Hhi H2).
  rewrite Zle_Qle in Hlo, Hhi. rewrite inject_Z_mult in Hhi. change (inject_Z 2) with 2 in Hhi.
  set (r := inject_Z (round_half_even (x / q))) in *.
  split; nra.
Qed.

Lemma round_positive_mono (x y : Q) :
  0 < x -> x <= y -> round_positive x <= round_positive y.
Proof.
  intros Hx Hxy. assert (Hy : 0 < y) by lra.
  pose proof (binade_mono x y Hx Hxy) as Hb.
  destruct (Z_lt_le_dec (binade x) (binade y)) as [Hlt|Hge].
  - destruct (round_positive_bounds x Hx) as [_ Ux].
    destruct (round_positive_bounds y Hy) as [Ly _].
    assert (2 ^ (binade x + 1) <= 2 ^ binade y) by (apply two_pow_le; lia).
    rewrite two_pow_succ in H. lra.
  - assert (E : binade y = binade x) by lia.
    unfold round_positive, spacing. rewrite E.
    pose proof (two_pow_pos (binade x - (precision - 1))) as Hq.
    set (q := 2 ^ (binade x - (precision - 1))) in *.
    assert (Hm : x / q <= y / q).
    { apply Qnot_lt_le. intros Hc.
      assert (Ex : x / q * q == x) by (field; lra).
      assert (Ey : y / q * q == y) by (field; lra).
      assert (y / q * q < x / q * q) by nra. lra. }
    apply round_half_even_mono in Hm. rewrite Zle_Qle in Hm.
    nra.
Qed.

Lemma round_positive_pos (x : Q) : 0 < x -> 0 < round_positive x.
Proof.
  intros Hx. destruct (round_positive_bounds x Hx) as [L _].
  pose proof (two_pow_pos (binade x)). lra.
Qed.

Lemma round_mono (x y : Q) : x <= y -> round x <= round y.
Proof.
  intros H. unfold round.
  destruct x as [nx dx], y as [ny dy]. cbn [Qnum].
  destruct nx as [|px|px], ny as [|py|py]; try lra.
  - pose proof (round_positive_pos (Zpos py # dy) eq_refl). lra.
  - exfalso. unfold Qle in H. cbn in H. lia.
  - exfalso. unfold Qle in H. cbn in H. lia.
  - apply round_positive_mono; [reflexivity|exact H].
  - exfalso. unfold Qle in H. cbn in H. lia.
  - pose proof (round_positive_pos (- (Zneg px # dx)) eq_refl). lra.
  - pose proof (round_positive_pos (- (Zneg px # dx)) eq_refl).
    pose proof (round_positive_pos (Zpos py # dy) eq_refl). lra.
  - assert (round_positive (- (Zneg py # dy)) <= round_positive (- (Zneg px # dx))).
    { apply round_positive_mono; [reflexivity|lra]. }
    lra.
Qed.

(** IEEE 754 binary64, the [float] of Python. *)
Definition binary64 : Rounding := mkRounding round round_mono.

End Float.

(** ** fsisolver.py *)

Module FSISolver.

(** The entries of [parameters] read by [FSISolver.solve]. *)
Record Parameters := mkParameters {
  tolerance : Q;                  (* parameters["tolerance"] *)
  w_h : Q;                        (* parameters["w_h"] *)
  solve_primal_enabled : bool;    (* parameters["solve_primal"] *)
  solve_dual_enabled : bool;      (* parameters["solve_dual"] *)
  estimate_error_enabled : bool   (* parameters["estimate_error"] *)
}.

(** The logging functions of DOLFIN used by [solve]; none of them raises. *)
Inductive LogLevel := info | info_green | info_red | info_blue.

Inductive Message :=
| NotSolvingPrimal
| NotSolvingDual
| NotEstimatingError
| AdaptiveSolverConverged (error tol : Q)
| ErrorTooLarge (error tol : Q)
| FreezingCurrentMesh (E_h tol_h : Q)
| RefiningMesh.

(** Reading a local variable that no assignment has reached. *)
Inductive LocalName := name_E_h | name_indicators.

Inductive Exn := UnboundLocalError (x : LocalName).

Section Solve.

Context {Problem Mesh Indicators : Type}.

(** What [solve] calls on the problem and imports from [primalsolver],
    [dualsolver], [adaptivity] and DOLFIN, and the float arithmetic it
    runs on.  A call that takes the problem may change it, so it returns
    the problem as well.  [solve] has no [try]: an exception raised
    inside a collaborator unwinds through it, and the embedding follows
    the calls that return. *)
Record Collaborators := mkCollaborators {
  solve_primal : Problem -> Parameters -> Q -> Problem * Q;
  solve_dual : Problem -> Parameters -> Problem;
  estimate_error : Problem -> Parameters -> Problem * (Q * Indicators * Q * Q);
  problem_mesh : Problem -> Mesh;                      (* problem.mesh() *)
  convergence_test : Problem -> bool;                  (* problem.convergence_test() *)
  problem_estimate_error : Problem -> bool;            (* problem.estimate_error() *)
  refine : Mesh -> Mesh;                               (* dolfin.refine *)
  refine_mesh : Problem -> Mesh -> Indicators -> Mesh; (* adaptivity.refine_mesh *)
  init_meshes : Problem -> Mesh -> Problem;            (* problem.init_meshes(mesh) *)
  float : Float.Rounding                               (* the doubles *)
}.

(** One entry of the trace per collaborator call and per log line. *)
Inductive Event :=
| CallSolvePrimal (ST : Q)
| CallSolveDual
| CallEstimateError
| CallRefine (m : Mesh)
| CallRefineMesh (m : Mesh) (ind : Indicators)
| CallInitMeshes (m : Mesh)
| CallSaveMesh (m : Mesh)
| Log (lvl : LogLevel) (msg : Message).

(** The local variables of [solve] that live across iterations.  [None]
    in [goal_functional] is Python's [None]; [None] in [E_h] and
    [indicators] means that the name is still unbound. *)
Record Locals := mkLocals {
  goal_functional : option Q;
  ST : Q;
  E_h : option Q;
  indicators : option Indicators
}.

(** The problem object, the meshes persisted by [save_mesh] (oldest
    first) and the trace (oldest first). *)
Record State := mkState {
  problem : Problem;
  saved : list Mesh;
  trace : list Event
}.

Definition record (e : Event) (s : State) : State :=
  mkState (problem s) (saved s) (trace s ++ [e]).

Definition with_problem (pb : Problem) (s : State) : State :=
  mkState pb (saved s) (trace s).

(** Modelled from the spec: [adaptivity.save_mesh] is not under src/;
    section 6 has it "persist a mesh snapshot keyed by refinement level",
    which is an append to the stored snapshots. *)
Definition save_mesh (m : Mesh) (s : State) : State :=
  mkState (problem s) (saved s ++ [m]) (trace s ++ [CallSaveMesh m]).

Inductive Step :=
| Break (l : Locals) (s : State)
| Continue (l : Locals) (s : State)
| Raise (e : Exn) (s : State).

Variable C : Collaborators.
Variable parameters : Parameters.

(** Lines 50-56. *)
Definition primal_block (l : Locals) (s : State) : Locals * State :=
  if solve_primal_enabled parameters then
    let '(pb, gf) := solve_primal C (problem s) parameters (ST l) in
    (mkLocals (Some gf) (ST l) (E_h l) (indicators l),
     record (CallSolvePrimal (ST l)) (with_problem pb s))
  else
    (l, record (Log info NotSolvingPrimal) s).

(** Lines 58-64. *)
Definition dual_block (s : State) : State :=
  if solve_dual_enabled parameters then
    record CallSolveDual (with_problem (solve_dual C (problem s) parameters) s)
  else
    record (Log info NotSolvingDual) s.

(** Lines 66-73; the third component is the local [error]. *)
Definition estimate_block (l : Locals) (s : State) : Locals * State * Q :=
  if estimate_error_enabled parameters then
    let '(pb, (error, ind, st, eh)) := estimate_error C (problem s) parameters in
    (mkLocals (goal_functional l) st (Some eh) (Some ind),
     record CallEstimateError (with_problem pb s), error)
  else
    (l, record (Log info NotEstimatingError) s, 0).

(** Lines 105-107: [mesh = refined_mesh; save_mesh(mesh)]. *)
Definition update_and_save (refined_mesh : Mesh) (l : Locals) (s : State) : Step :=
  Continue l (save_mesh refined_mesh s).

(** Lines 84-107.  Line 86 rounds the product, and line 87 compares two
    doubles: [E_h] is one as the estimator returned it ([fl eh] is [eh]
    then), [mesh_tolerance] the rounded product. *)
Definition mesh_block (l : Locals) (s : State) : Step :=
  let mesh_tolerance := Float.fl (float C) (w_h parameters * tolerance parameters) in
  match E_h l with
  | None => Raise (UnboundLocalError name_E_h) s
  | Some eh =>
    if Qle_bool (Float.fl (float C) eh) mesh_tolerance then
      let s := record (Log info_blue (FreezingCurrentMesh eh mesh_tolerance)) s in
      let refined_mesh := problem_mesh C (problem s) in
      update_and_save refined_mesh l s
    else
      let s := record (Log info_red RefiningMesh) s in
      if convergence_test C (problem s) && negb (problem_estimate_error C (problem s)) then
        let refined_mesh := refine C (problem_mesh C (problem s)) in
        let s := record (CallRefine (problem_mesh C (problem s))) s in
        let s := record (CallInitMeshes refined_mesh)
                   (with_problem (init_meshes C (problem s) refined_mesh) s) in
        update_and_save refined_mesh l s
      else
        match indicators l with
        | None => Raise (UnboundLocalError name_indicators) s
        | Some ind =>
          let m := problem_mesh C (problem s) in
          let refined_mesh := refine_mesh C (problem s) m ind in
          let s := record (CallRefineMesh m ind) s in
          let s := record (CallInitMeshes refined_mesh)
                     (with_problem (init_meshes C (problem s) refined_mesh) s) in
          update_and_save refined_mesh l s
        end
  end.

(** Lines 75-82, followed by the mesh block. *)
Definition check_error (error : Q) (l : Locals) (s : State) : Step :=
  if Qle_bool error (tolerance parameters) then
    Break l (record (Log info_green
                       (AdaptiveSolverConverged error (tolerance parameters))) s)
  else
    mesh_block l (record (Log info_red
                            (ErrorTooLarge error (tolerance parameters))) s).

(** Lines 50-73: the state at the error check and the value of [error]. *)
Definition solves (l : Locals) (s : State) : Locals * State * Q :=
  let '(l1, s1) := primal_block l s in
  estimate_block l1 (dual_block s1).

(** The body of [while True]. *)
Definition iteration (l : Locals) (s : State) : Step :=
  let '(l1, s1, error) := solves l s in
  check_error error l1 s1.

Inductive Outcome :=
| Returned (gf : option Q) (s : State)
| Raised (e : Exn) (s : State)
| OutOfFuel (l : Locals) (s : State).

(** [while True], at most [fuel] iterations; [break] leads to
    [return goal_functional]. *)
Fixpoint adaptive_loop (fuel : nat) (l : Locals) (s : State) : Outcome :=
  match fuel with
  | O => OutOfFuel l s
  | S fuel' =>
    match iteration l s with
    | Break l' s' => Returned (goal_functional l') s'
    | Continue l' s' => adaptive_loop fuel' l' s'
    | Raise e s' => Raised e s'
    end
  end.

(** Lines 39-47: [ST = 1.0], [goal_functional = None]; [E_h] and
    [indicators] are not yet bound. *)
Definition initial_locals : Locals := mkLocals None 1 None None.

Definition initial_state (pb : Problem) : State := mkState pb [] [].

Definition solve (fuel : nat) (pb : Problem) : Outcome :=
  adaptive_loop fuel initial_locals (initial_state pb).

(** Observations on traces. *)
Definition is_primal_solve (e : Event) : bool :=
  match e with CallSolvePrimal _ => true | _ => false end.

Definition is_refinement (e : Event) : bool :=
  match e with CallRefine _ | CallRefineMesh _ _ => true | _ => false end.

Definition is_init_meshes (e : Event) : bool :=
  match e with CallInitMeshes _ => true | _ => false end.

Definition is_save_mesh (e : Event) : bool :=
  match e with CallSaveMesh _ => true | _ => false end.

Definition touches_mesh (e : Event) : bool :=
  is_refinement e || is_init_meshes e || is_save_mesh e.

(** Anything that lines 84-107 (freeze or refine, then save) leave in the
    trace. *)
Definition in_mesh_block (e : Event) : bool :=
  match e with
  | Log _ (FreezingCurrentMesh _ _) | Log _ RefiningMesh => true
  | _ => touches_mesh e
  end.

Definition is_estimate_error (e : Event) : bool :=
  match e with CallEstimateError => true | _ => false end.

Definition count (p : Event -> bool) (t : list Event) : nat :=
  length (List.filter p t).

Definition none_of (p : Event -> bool) (t : list Event) : Prop :=
  Forall (fun e => p e = false) t.

Definition outcome_state (o : Outcome) : State :=
  match o with Returned _ s | Raised _ s | OutOfFuel _ s => s end.

End Solve.

Arguments Collaborators : clear implicits.
Arguments Event : clear implicits.
Arguments Locals : clear implicits.
Arguments State : clear implicits.
Arguments Step : clear implicits.
Arguments Outcome : clear implicits.

End FSISolver.

(** ** primalsolver.py *)

Module PrimalSolver.

(** The entries of [parameters] read by [solve_primal].  [save_solution]
    and [plot_solution] only switch VTK output and plotting on, which
    nothing in the loop reads back; they are left out. *)
Record Parameters := mkParameters {
  tolerance : Q;              (* TOL = parameters["tolerance"] *)
  w_k : Q;
  w_c : Q;
  uniform_timestep : bool;
  maximum_iterations : Z;     (* maxiter *)
  num_smoothings : Z
}.

Inductive Exn :=
| RuntimeError (maxiter : Z)   (* "FSI iteration failed to converge after %d iterations." *)
| UnboundLocalError            (* [goal_functional] read before any assignment *)
| TypeError.                   (* a constructor called without an argument it requires *)

(** [t1 > T - DOLFIN_EPS] and friends. *)
Definition Qltb (a b : Q) : bool := negb (Qle_bool b a).

(** Python's [min(a, b)]: the first argument unless the second is smaller. *)
Definition py_min (a b : Q) : Q := if Qltb b a then b else a.

(** [y.axpy(a, x)]: [y += a*x], entry by entry (DOLFIN requires equal sizes). *)
Definition axpy (a : Q) (x y : list Q) : list Q :=
  zip_with (fun yi xi => yi + a * xi) y x.

(** [for i in range(n)] over [Z]: empty when [n <= 0]. *)
Definition range (n : Z) : list Z := map Z.of_nat (seq 0 (Z.to_nat n)).

(** [iter, iter + 1, ..., iter + k - 1]. *)
Definition zseq (iter : Z) (k : nat) : list Z :=
  map (fun j => (iter + Z.of_nat j)%Z) (seq 0 k).

Section SolvePrimal.

(** [Phys] is everything the collaborators keep: the problem, the three
    subproblems F, S and M once lines 53-55 have constructed them, and
    the time series.  [Field] is a DOLFIN [Function] or expression. *)
Context {Phys Field : Type}.

Record Collaborators := mkCollaborators {
  end_time : Phys -> Q;                                  (* problem.end_time() *)
  initial_timestep : Phys -> Parameters -> Q;            (* adaptivity *)
  V_S_dim : Phys -> nat;                                 (* size of Function(V_S).vector() *)
  vector : Field -> list Q;                              (* Function.vector() *)
  norm : list Q -> Q;                                    (* dolfin.norm *)
  DOLFIN_EPS : Q;
  compute_itertol : Phys -> Q -> Q -> Q -> Q -> Parameters -> Q;
  F_step : Q -> Phys -> Phys * (Field * Field);
  F_compute_fluid_stress : Field -> Field -> Field -> Phys -> Phys * Field;
  S_update_fluid_stress : Field -> Phys -> Phys;
  S_step : Q -> Phys -> Phys * (Field * Field);
  M_update_structure_displacement : Field -> Phys -> Phys;
  M_step : Q -> Phys -> Phys * Field;
  F_update_mesh_displacement : Field -> Q -> Z -> Phys -> Phys;
  evaluate_functional :
    Field -> Field -> Field -> Field -> Field -> Q -> Q -> Phys -> Q;
  F_update : Q -> Phys -> Phys;
  S_update : Phys -> Phys;
  M_update : Q -> Phys -> Phys * Field;
  F_update_extra : Phys -> Phys;
  compute_time_residual : Phys -> Q -> Q -> Q;
  compute_time_step :
    Phys -> Q -> Q -> Q -> Q -> Q -> Q -> Q -> Parameters -> Q * bool;
  (* The classes that [from subproblems import *] binds, called with
     [problem] alone as on lines 53-55; [None] is the [TypeError] of a
     constructor that requires more than that. *)
  FluidProblem_new : Phys -> option Phys;                (* FluidProblem(problem) *)
  StructureProblem_new : Phys -> option Phys;            (* StructureProblem(problem) *)
  MeshProblem_new : Phys -> option Phys;                 (* MeshProblem(problem) *)
  float : Float.Rounding                                 (* the doubles *)
}.

(** Log lines and calls to [storage] that the properties observe. *)
Inductive Event :=
| StartTimeStep (t0 t1 dt : Q) (at_end : bool)  (* line 87; [t0], [at_end] as they stand *)
| StartIteration (iter : Z)                     (* line 97 *)
| LogIncrement (increment itertol : Q) (n : Z)  (* line 165 *)
| LogConverged (increment itertol : Q) (n : Z)  (* line 141 *)
| SaveNoFSIIter (t1 : Q) (n : Z)                (* line 146 *)
| SaveGoalFunctional (t1 gf integrated : Q)     (* line 156 *)
| WritePrimalData (t : Q)                       (* lines 70, 171 *)
| SaveDofs (timestep_counter : nat)             (* line 188 *)
| SaveGoalFunctionalFinal (gf integrated : Q).  (* line 207 *)

(** The variables of [solve_primal] that live across iterations. *)
Record State := mkState {
  phys : Phys;
  U_M : Field;
  U_S0 : list Q;                      (* U_S0.vector() *)
  t0 : Q;
  t1 : Q;
  dt : Q;
  at_end : bool;
  integrated_goal_functional : Q;
  old_goal_functional : Q;
  goal_functional : option Q;         (* [None]: not yet bound *)
  timestep_counter : nat;
  trace : list Event                  (* oldest first *)
}.

Definition record (e : Event) (s : State) : State :=
  mkState (phys s) (U_M s) (U_S0 s) (t0 s) (t1 s) (dt s) (at_end s)
          (integrated_goal_functional s) (old_goal_functional s)
          (goal_functional s) (timestep_counter s) (trace s ++ [e]).

Definition with_phys (ph : Phys) (s : State) : State :=
  mkState ph (U_M s) (U_S0 s) (t0 s) (t1 s) (dt s) (at_end s)
          (integrated_goal_functional s) (old_goal_functional s)
          (goal_functional s) (timestep_counter s) (trace s).

Variable C : Collaborators.
Variable parameters : Parameters.

(** What one pass through lines 99-133 leaves behind: the fields computed
    in this pass and the increment. *)
Record Pass := mkPass {
  pass_state : State;
  u_F : Field;
  p_F : Field;
  U_S : Field;
  P_S : Field;
  increment : Q
}.

(** Lines 97-133: F, F->S, S, S->M, M, M->F, then the increment of the
    structure displacement against the snapshot [U_S0]. *)
Definition fsi_pass (iter : Z) (s : State) : Pass :=
  let s := record (StartIteration iter) s in
  let '(ph, (u_F, p_F)) := F_step C (dt s) (phys s) in
  let '(ph, Sigma_F) := F_compute_fluid_stress C u_F p_F (U_M s) ph in
  let ph := S_update_fluid_stress C Sigma_F ph in
  let '(ph, (U_S, P_S)) := S_step C (dt s) ph in
  let ph := M_update_structure_displacement C U_S ph in
  let '(ph, U_M') := M_step C (dt s) ph in
  let ph := F_update_mesh_displacement C U_M' (dt s) (num_smoothings parameters) ph in
  let increment := norm C (axpy (-1) (vector C U_S) (U_S0 s)) in
  mkPass
    (mkState ph U_M' (vector C U_S) (t0 s) (t1 s) (dt s) (at_end s)
             (integrated_goal_functional s) (old_goal_functional s)
             (goal_functional s) (timestep_counter s) (trace s))
    u_F p_F U_S P_S increment.

Inductive Control :=
| Next (s : State)
| Break (s : State)
| Raise (e : Exn) (s : State).

(** Lines 139-157: the branch taken on convergence. *)
Definition converged (iter : Z) (itertol : Q) (p : Pass) : State :=
  let s := pass_state p in
  let s := record (LogConverged (increment p) itertol (iter + 1)) s in
  let s := record (SaveNoFSIIter (t1 s) (iter + 1)) s in
  let gf := evaluate_functional C (u_F p) (p_F p) (U_S p) (P_S p) (U_M s)
                                (t0 s) (t1 s) (phys s) in
  let integrated :=
    integrated_goal_functional s + (1 # 2) * dt s * (old_goal_functional s + gf) in
  record (SaveGoalFunctional (t1 s) gf integrated)
    (mkState (phys s) (U_M s) (U_S0 s) (t0 s) (t1 s) (dt s) (at_end s)
             integrated gf (Some gf) (timestep_counter s) (trace s)).

(** The body of [for iter in range(maxiter)], lines 96-166. *)
Definition fsi_iteration (itertol : Q) (iter : Z) (s : State) : Control :=
  let p := fsi_pass iter s in
  if Qltb (increment p) itertol then
    Break (converged iter itertol p)
  else if (iter =? maximum_iterations parameters - 1)%Z then
    Raise (RuntimeError (maximum_iterations parameters)) (pass_state p)
  else
    Next (record (LogIncrement (increment p) itertol (iter + 1)) (pass_state p)).

(** How a [for] loop ends. *)
Inductive LoopEnd :=
| Exhausted (s : State)             (* the range ran out: no [break], no [raise] *)
| Broke (s : State)
| Failed (e : Exn) (s : State).

Fixpoint for_each (its : list Z) (body : Z -> State -> Control) (s : State) : LoopEnd :=
  match its with
  | [] => Exhausted s
  | i :: rest =>
    match body i s with
    | Next s' => for_each rest body s'
    | Break s' => Broke s'
    | Raise e s' => Failed e s'
    end
  end.

(** Lines 90-166: the fixed-point iteration of one time step. *)
Definition fsi_loop (s : State) : LoopEnd :=
  let itertol :=
    compute_itertol C (phys s) (w_c parameters) (tolerance parameters)
                    (dt s) (t1 s) parameters in
  for_each (range (maximum_iterations parameters)) (fsi_iteration itertol) s.

(** Lines 168-182: store the step and move the three subproblems on. *)
Definition commit (s : State) : State :=
  let s := record (WritePrimalData (t1 s)) s in
  let ph := F_update C (t1 s) (phys s) in
  let ph := S_update C ph in
  let ph := fst (M_update C (t1 s) ph) in
  let ph := F_update_extra C ph in
  mkState ph (U_M s) (U_S0 s) (t0 s) (t1 s) (dt s) (at_end s)
          (integrated_goal_functional s) (old_goal_functional s)
          (goal_functional s) (S (timestep_counter s)) (trace s).

(** Line 197: the double that [T - DOLFIN_EPS] evaluates to.  It is
    [T] itself wherever [DOLFIN_EPS] is less than half the spacing of
    the doubles below [T]. *)
Definition end_threshold (T : Q) : Q := Float.fl (float C) (T - DOLFIN_EPS C).

(** Lines 192-204: the next time interval.  [T] and [ST] are fixed for
    the whole of [solve_primal]. *)
Definition next_interval (T ST : Q) (s : State) : State :=
  if uniform_timestep parameters then
    let t0' := t1 s in
    let t1' := py_min (t1 s + dt s) T in
    let dt' := t1' - t0' in
    let at_end' := Qltb (end_threshold T) t1' in
    mkState (phys s) (U_M s) (U_S0 s) t0' t1' dt' at_end'
            (integrated_goal_functional s) (old_goal_functional s)
            (goal_functional s) (timestep_counter s) (trace s)
  else
    let Rk := compute_time_residual C (phys s) (t0 s) (t1 s) in
    let '(dt', at_end') :=
      compute_time_step C (phys s) Rk ST (tolerance parameters) (dt s) (t1 s) T
                        (w_k parameters) parameters in
    let t0' := t1 s in
    let t1' := t1 s + dt' in
    mkState (phys s) (U_M s) (U_S0 s) t0' t1' dt' at_end'
            (integrated_goal_functional s) (old_goal_functional s)
            (goal_functional s) (timestep_counter s) (trace s).

Inductive Outcome :=
| Returned (gf : Q) (s : State)
| Raised (e : Exn) (s : State)
| OutOfFuel (s : State).

(** Lines 206-214, reached by the [break] of line 190. *)
Definition finish (s : State) : Outcome :=
  match goal_functional s with
  | None => Raised UnboundLocalError s
  | Some gf =>
    Returned gf (record (SaveGoalFunctionalFinal gf (integrated_goal_functional s)) s)
  end.

(** The time-stepping loop, lines 82-204, at most [fuel] time steps.  A
    [for] loop that runs out without [break] falls through to line 168
    like one that broke. *)
Fixpoint time_loop (fuel : nat) (T ST : Q) (s : State) : Outcome :=
  match fuel with
  | O => OutOfFuel s
  | S fuel' =>
    let s := record (StartTimeStep (t0 s) (t1 s) (dt s) (at_end s)) s in
    match fsi_loop s with
    | Failed e s' => Raised e s'
    | Broke s' | Exhausted s' =>
      let s' := commit s' in
      if at_end s' then finish (record (SaveDofs (timestep_counter s')) s')
      else time_loop fuel' T ST (next_interval T ST s')
    end
  end.

(** Lines 60-79: the state in which the time-stepping loop is entered
    with the time step [dt] of line 24 and the subproblems in [ph]. *)
Definition entry_state (dt : Q) (ph : Phys) : State :=
  let '(ph', U_M) := M_update C 0 ph in
  mkState ph' U_M (repeat 0 (V_S_dim C ph')) 0 dt dt false 0 0 None 0%nat
          [WritePrimalData 0].

Definition initial_state (ph : Phys) : State :=
  entry_state (initial_timestep C ph parameters) ph.

(** Lines 53-55, in this order; the first constructor that refuses
    [problem] alone ends them. *)
Definition construct_subproblems (ph : Phys) : option Phys :=
  ph ← FluidProblem_new C ph;
  ph ← StructureProblem_new C ph;
  MeshProblem_new C ph.

(** The state in which a [TypeError] of lines 53-55 leaves
    [solve_primal]: nothing stored, nothing logged, no time step made.
    The locals that are not bound yet at that point are given the values
    of [initial_state]; nothing reads them on this path. *)
Definition unstarted (ph : Phys) : State :=
  let s := initial_state ph in
  mkState ph (U_M s) (U_S0 s) (t0 s) (t1 s) (dt s) (at_end s)
          (integrated_goal_functional s) (old_goal_functional s)
          (goal_functional s) (timestep_counter s) [].

(** [T] and [dt] are read off the problem on lines 23-24, before the
    subproblems exist. *)
Definition solve_primal (fuel : nat) (ph : Phys) (ST : Q) : Outcome :=
  match construct_subproblems ph with
  | Some ph' =>
    time_loop fuel (end_time C ph) ST
      (entry_state (initial_timestep C ph parameters) ph')
  | None => Raised TypeError (unstarted ph)
  end.

Definition outcome_state (o : Outcome) : State :=
  match o with Returned _ s | Raised _ s | OutOfFuel s => s end.

(** The time steps a trace went through, as [(t0, t1, dt, at_end)]. *)
Record TimeStepRecord := mkTimeStepRecord {
  r_t0 : Q;
  r_t1 : Q;
  r_dt : Q;
  r_at_end : bool
}.

Definition time_step_of (e : Event) : list TimeStepRecord :=
  match e with
  | StartTimeStep a b d f => [mkTimeStepRecord a b d f]
  | _ => []
  end.

Definition time_steps (t : list Event) : list TimeStepRecord :=
  flat_map time_step_of t.

(** The iteration counts stored by [save_no_FSI_iter], one per converged
    time step. *)
Definition fsi_iterations_of (e : Event) : list Z :=
  match e with SaveNoFSIIter _ n => [n] | _ => [] end.

Definition fsi_iterations (t : list Event) : list Z :=
  flat_map fsi_iterations_of t.

(** The passes through the body of the [for] loop. *)
Definition passes_of (e : Event) : list Z :=
  match e with StartIteration i => [i] | _ => [] end.

Definition passes (t : list Event) : list Z := flat_map passes_of t.

(** The state after [k] passes none of which converged or raised, the
    first of them numbered [iter]. *)
Fixpoint unconverged (itertol : Q) (k : nat) (iter : Z) (s : State) : State :=
  match k with
  | O => s
  | S k' =>
    let p := fsi_pass iter s in
    unconverged itertol k' (iter + 1)
      (record (LogIncrement (increment p) itertol (iter + 1)) (pass_state p))
  end.

(** What the fixed-point iteration of a time step never changes: the
    clock and the step counter. *)
Definition same_clock (s s' : State) : Prop :=
  t0 s' = t0 s /\ t1 s' = t1 s /\ dt s' = dt s /\ at_end s' = at_end s /\
  timestep_counter s' = timestep_counter s.

(** What it changes only when it converges: the accumulated goal
    functional. *)
Definition same_goal (s s' : State) : Prop :=
  integrated_goal_functional s' = integrated_goal_functional s /\
  old_goal_functional s' = old_goal_functional s /\
  goal_functional s' = goal_functional s.

(** The time step a state is about to start. *)
Definition record_of (s : State) : TimeStepRecord :=
  mkTimeStepRecord (t0 s) (t1 s) (dt s) (at_end s).


End SolvePrimal.

Arguments Collaborators : clear implicits.
Arguments Event : clear implicits.
Arguments State : clear implicits.
Arguments Pass : clear implicits.
Arguments Control : clear implicits.
Arguments LoopEnd : clear implicits.
Arguments Outcome : clear implicits.



End PrimalSolver.

(** ** subproblems.py: the constructors and the Mesh -> Fluid transfer *)

Module Subproblems.

(** The parameters of the three [__init__] besides [self]; none has a
    default value, and none of the signatures has [*args]. *)
Inductive Argument := arg_problem | arg_parameters.

Definition FluidProblem_init : list Argument := [arg_problem].                      (* line 26 *)
Definition StructureProblem_init : list Argument := [arg_problem; arg_parameters].  (* line 152 *)
Definition MeshProblem_init : list Argument := [arg_problem; arg_parameters].       (* line 278 *)

(** Python binds positional arguments to parameters one by one and
    raises [TypeError] unless there are as many of the one as of the
    other. *)
Definition accepts (signature : list Argument) (given : nat) : bool :=
  (length signature =? given)%nat.

(** [mesh.coordinates()]: one row per vertex, one column per space
    dimension.  DOLFIN hands out the array of the mesh itself, so writing
    into it moves the mesh. *)
Definition Coordinates := list (list Q).

(** Calls that leave [FluidProblem] for DOLFIN or the flow solver. *)
Inductive Call :=
| MeshSmooth (num_smoothings : Z)   (* self.omega_F1.smooth(num_smoothings) *)
| SolverReassemble.                 (* self.solver.reassemble() *)

(** The attributes of [FluidProblem] that the transfer touches. *)
Record FluidProblem := mkFluidProblem {
  Omega_F : Coordinates;      (* reference mesh *)
  omega_F0 : Coordinates;     (* mesh at the last committed step *)
  omega_F1 : Coordinates;     (* current mesh *)
  dim : nat;                  (* self.omega_F1.geometry().dim() *)
  w : list Q;                 (* self.w.vector() *)
  calls : list Call           (* oldest first *)
}.

(** [x[i][j]]; [None] is an [IndexError]. *)
Definition get2 (x : list (list Q)) (i j : nat) : option Q :=
  row ← x !! i; row !! j.

(** [x[i][j] = v]. *)
Definition set2 (x : list (list Q)) (i j : nat) (v : Q) : option Coordinates :=
  row ← x !! i; _ ← row !! j; Some (<[i := <[j := v]> row]> x).

(** [l[k] = v]. *)
Definition set1 (l : list Q) (k : nat) (v : Q) : option (list Q) :=
  _ ← l !! k; Some (<[k := v]> l).

(** [for i in its: a = body(i, a)], stopping at the first exception. *)
Fixpoint for_range {A : Type} (its : list nat) (body : nat -> A -> option A) (a : A)
  : option A :=
  match its with
  | [] => Some a
  | i :: rest => a' ← body i a; for_range rest body a'
  end.

Section Fluid.

(** [Mesh.smooth(n)] of DOLFIN, on the coordinate array. *)
Variable smooth : Z -> Coordinates -> Coordinates.

(** Lines 121-124. *)
Definition deform (X : Coordinates) (dofs : list Q) (N d : nat) (x1 : Coordinates)
  : option Coordinates :=
  for_range (seq 0 N) (fun i x1 =>
    for_range (seq 0 d) (fun j x1 =>
      a ← get2 X i j;
      u ← dofs !! (j * N + i)%nat;
      set2 x1 i j (a + u)) x1) x1.

(** Lines 129-133, on the copy [wx] of the velocity vector. *)
Definition mesh_velocity_values (x0 x1 : Coordinates) (dt : Q) (N d : nat) (wx : list Q)
  : option (list Q) :=
  for_range (seq 0 N) (fun i wx =>
    for_range (seq 0 d) (fun j wx =>
      a ← get2 x1 i j;
      b ← get2 x0 i j;
      set1 wx (j * N + i)%nat ((a - b) / dt)) wx) wx.

(** [FluidProblem.update_mesh_displacement(U_M, dt, num_smoothings)];
    [dofs] is [U_M.vector().array()].  Division by [dt = 0] gives
    inf or nan in numpy and is outside the embedding. *)
Definition update_mesh_displacement
  (dofs : list Q) (dt : Q) (num_smoothings : Z) (fp : FluidProblem)
  : option FluidProblem :=
  let X := Omega_F fp in
  let x0 := omega_F0 fp in
  let d := dim fp in
  let N := length (omega_F1 fp) in
  x1 ← deform X dofs N d (omega_F1 fp);
  let x1 := smooth num_smoothings x1 in
  wx ← mesh_velocity_values x0 x1 dt N d (w fp);
  Some (mkFluidProblem X x0 x1 d wx
          (calls fp ++ [MeshSmooth num_smoothings; SolverReassemble])).

(** [FluidProblem.update_extra()]: copy the current coordinates. *)
Definition update_extra (fp : FluidProblem) : FluidProblem :=
  mkFluidProblem (Omega_F fp) (omega_F1 fp) (omega_F1 fp) (dim fp) (w fp) (calls fp).

End Fluid.

(** The value lines 121-124 write into [x1[i][j]]. *)
Definition displaced (X : list (list Q)) (dofs : list Q) (N : nat) (i j : nat) : option Q :=
  a ← get2 X i j; u ← dofs !! (j * N + i)%nat; Some (a + u).

(** The value lines 129-133 write into [wx[j*N + i]]. *)
Definition velocity (x0 x1 : list (list Q)) (dt : Q) (i j : nat) : option Q :=
  a ← get2 x1 i j; b ← get2 x0 i j; Some ((a - b) / dt).

(** One row of a doubly nested loop that writes [val i j] into cell
    [(i, j)] of a store; both loops of the transfer have this form. *)
Definition fill_row {Store : Type} (set : nat -> nat -> Q -> Store -> option Store)
  (val : nat -> nat -> option Q) (d : nat) (i : nat) (s : Store) : option Store :=
  for_range (seq 0 d) (fun j s => v ← val i j; set i j v s) s.

(** [x] has [N] rows of [d] entries. *)
Definition shaped (N d : nat) (x : Coordinates) : Prop :=
  length x = N /\ Forall (fun row => length row = d) x.

End Subproblems.

(** ** Test doubles

    Small collaborators with which the programs above run to a value. *)

Module Doubles.

(** An adaptive loop over numbered meshes: the problem is its mesh
    number, refinement moves to the next number, and the estimator reads
    the error and its spatial part off two tables. *)
Definition numbered_meshes (err eh : nat -> Q) (pure_convergence_test : bool)
  : FSISolver.Collaborators nat nat unit :=
  FSISolver.mkCollaborators
    (fun pb _ ST => (pb, inject_Z (Z.of_nat pb) + ST))
    (fun pb _ => pb)
    (fun pb _ => (pb, (err pb, tt, 2, eh pb)))
    (fun pb => pb)
    (fun _ => pure_convergence_test)
    (fun _ => negb pure_convergence_test)
    S
    (fun _ m _ => S m)
    (fun _ m => m)
    Float.exact.

(** The error halves with every refinement: 1, 1/2, 1/4, ... *)
Definition halving (level : nat) : Q := 1 # Pos.of_nat (2 ^ level).

Definition constantly (q : Q) (level : nat) : Q := q.

(** Error and spatial error both halve with the level. *)
Definition refining : FSISolver.Collaborators nat nat unit :=
  numbered_meshes halving halving false.

(** The error stays at 1 although the spatial error is 0. *)
Definition stagnating : FSISolver.Collaborators nat nat unit :=
  numbered_meshes (constantly 1) (constantly 0) false.

(** Everything enabled, tolerance [tol], [w_h = 1/2]. *)
Definition all_enabled (tol : Q) : FSISolver.Parameters :=
  FSISolver.mkParameters tol (1 # 2) true true true.

(** Neither primal nor dual solve nor error estimation; tolerance 1. *)
Definition nothing_enabled : FSISolver.Parameters :=
  FSISolver.mkParameters 1 (1 # 2) false false false.


(** The l1 norm; on vectors with one entry it is the l2 norm of DOLFIN. *)
Definition norm1 (v : list Q) : Q := fold_right (fun x acc => Qabs x + acc) 0 v.

(** DOLFIN_EPS = 3.0e-16. *)
Definition dolfin_eps : Q := 3 # 10000000000000000.

(** Subproblem solvers that ignore their input.  The state counts the
    structure solves, and the [k]-th of them returns the displacement
    [disp k]; the functional is [v] everywhere, the end time is [T], the
    initial time step [dt0], and every coupling tolerance is [itertol].
    The three constructors accept [problem] alone, and nothing is
    rounded. *)
Definition scripted (disp : nat -> list Q) (v T dt0 itertol : Q)
  : PrimalSolver.Collaborators nat (list Q) :=
  PrimalSolver.mkCollaborators
    (fun _ => T)
    (fun _ _ => dt0)
    (fun _ => 1%nat)
    (fun f => f)
    norm1
    dolfin_eps
    (fun _ _ _ _ _ _ => itertol)
    (fun _ ph => (ph, ([], [])))
    (fun _ _ _ ph => (ph, []))
    (fun _ ph => ph)
    (fun _ ph => (S ph, (disp ph, [])))
    (fun _ ph => ph)
    (fun _ ph => (ph, []))
    (fun _ _ _ ph => ph)
    (fun _ _ _ _ _ _ _ _ => v)
    (fun _ ph => ph)
    (fun ph => ph)
    (fun _ ph => (ph, []))
    (fun ph => ph)
    (fun _ _ _ => 0)
    (fun _ _ _ _ dt _ _ _ _ => (dt, true))
    Some
    Some
    Some
    Float.exact.

(** The structure displacement alternates between [1] and [2]. *)
Definition oscillating (k : nat) : list Q := if Nat.even k then [1] else [2].

(** The structure solver returns [c] whatever it is given. *)
Definition steady (c : Q) (k : nat) : list Q := [c].

Definition primal_parameters (maxiter : Z) : PrimalSolver.Parameters :=
  PrimalSolver.mkParameters 1 (1 # 2) (1 # 2) true maxiter 1.

(** A fluid mesh of two vertices in the plane, at rest in its reference
    position, with a zero mesh velocity. *)
Definition two_vertices : Subproblems.FluidProblem :=
  Subproblems.mkFluidProblem
    [[0; 0]; [1; 0]] [[0; 0]; [1; 0]] [[0; 0]; [1; 0]] 2 [0; 0; 0; 0] [].

(** Primal and dual solve without error estimation; tolerance -1. *)
Definition negative_tolerance : FSISolver.Parameters :=
  FSISolver.mkParameters (-1) (1 # 2) true true false.

(** A smoother that leaves the coordinates where they are. *)
Definition no_smoothing (n : Z) (x : Subproblems.Coordinates) : Subproblems.Coordinates := x.

(** The structure rests in the first solve and oscillates from then on. *)
Definition late_oscillation (k : nat) : list Q :=
  match k with O => [0] | S _ => oscillating k end.

(** A constructor with the signature [signature], called with one
    argument. *)
Definition constructor_of {A : Type} (signature : list Subproblems.Argument) (a : A)
  : option A :=
  if Subproblems.accepts signature 1 then Some a else None.

(** [C] with the constructors of subproblems.py in place of its own. *)
Definition with_listed_subproblems {Phys Field : Type}
  (C : PrimalSolver.Collaborators Phys Field) : PrimalSolver.Collaborators Phys Field :=
  PrimalSolver.mkCollaborators
    (PrimalSolver.end_time C) (PrimalSolver.initial_timestep C) (PrimalSolver.V_S_dim C)
    (PrimalSolver.vector C) (PrimalSolver.norm C) (PrimalSolver.DOLFIN_EPS C)
    (PrimalSolver.compute_itertol C) (PrimalSolver.F_step C)
    (PrimalSolver.F_compute_fluid_stress C) (PrimalSolver.S_update_fluid_stress C)
    (PrimalSolver.S_step C) (PrimalSolver.M_update_structure_displacement C)
    (PrimalSolver.M_step C) (PrimalSolver.F_update_mesh_displacement C)
    (PrimalSolver.evaluate_functional C) (PrimalSolver.F_update C)
    (PrimalSolver.S_update C) (PrimalSolver.M_update C) (PrimalSolver.F_update_extra C)
    (PrimalSolver.compute_time_residual C) (PrimalSolver.compute_time_step C)
    (constructor_of Subproblems.FluidProblem_init)
    (constructor_of Subproblems.StructureProblem_init)
    (constructor_of Subproblems.MeshProblem_init)
    (PrimalSolver.float C).

(** [C] with its thresholds rounded as the doubles round them. *)
Definition primal_in_binary64 {Phys Field : Type}
  (C : PrimalSolver.Collaborators Phys Field) : PrimalSolver.Collaborators Phys Field :=
  PrimalSolver.mkCollaborators
    (PrimalSolver.end_time C) (PrimalSolver.initial_timestep C) (PrimalSolver.V_S_dim C)
    (PrimalSolver.vector C) (PrimalSolver.norm C) (PrimalSolver.DOLFIN_EPS C)
    (PrimalSolver.compute_itertol C) (PrimalSolver.F_step C)
    (PrimalSolver.F_compute_fluid_stress C) (PrimalSolver.S_update_fluid_stress C)
    (PrimalSolver.S_step C) (PrimalSolver.M_update_structure_displacement C)
    (PrimalSolver.M_step C) (PrimalSolver.F_update_mesh_displacement C)
    (PrimalSolver.evaluate_functional C) (PrimalSolver.F_update C)
    (PrimalSolver.S_update C) (PrimalSolver.M_update C) (PrimalSolver.F_update_extra C)
    (PrimalSolver.compute_time_residual C) (PrimalSolver.compute_time_step C)
    (PrimalSolver.FluidProblem_new C) (PrimalSolver.StructureProblem_new C)
    (PrimalSolver.MeshProblem_new C)
    Float.binary64.

Definition adaptive_in_binary64 {Problem Mesh Indicators : Type}
  (C : FSISolver.Collaborators Problem Mesh Indicators)
  : FSISolver.Collaborators Problem Mesh Indicators :=
  FSISolver.mkCollaborators
    (FSISolver.solve_primal C) (FSISolver.solve_dual C) (FSISolver.estimate_error C)
    (FSISolver.problem_mesh C) (FSISolver.convergence_test C)
    (FSISolver.problem_estimate_error C) (FSISolver.refine C) (FSISolver.refine_mesh C)
    (FSISolver.init_meshes C)
    Float.binary64.

(** The doubles [0.1] and [0.30000000000000004]: the latter is what
    [0.1 * 3.0] evaluates to, and lies above the exact product. *)
Definition one_tenth : Q := 3602879701896397 # 36028797018963968.

Definition above_three_tenths : Q := 5404319552844596 # 18014398509481984.

(** Everything enabled, tolerance [3.0], [w_h = 0.1]. *)
Definition tenth_of_three : FSISolver.Parameters :=
  FSISolver.mkParameters 3 one_tenth true true true.

End Doubles.

(** ** Further observations on the traces of [FSISolver.solve] *)

Module FSISolverObservations.

Import FSISolver.

Section Observations.

Context {Mesh Indicators : Type}.

(** [refine(mesh)] of DOLFIN: every cell is refined. *)
Definition is_uniform_refinement (e : Event Mesh Indicators) : bool :=
  match e with CallRefine _ => true | _ => false end.

(** [refine_mesh(problem, mesh, indicators)]: refinement by indicators. *)
Definition is_indicator_refinement (e : Event Mesh Indicators) : bool :=
  match e with CallRefineMesh _ _ => true | _ => false end.

(** The three solver calls of an iteration. *)
Inductive Phase := Primal | Dual | Estimate.

Definition phase_of (e : Event Mesh Indicators) : list Phase :=
  match e with
  | CallSolvePrimal _ => [Primal]
  | CallSolveDual => [Dual]
  | CallEstimateError => [Estimate]
  | _ => []
  end.

(** The solver calls of a trace, in the order in which they were made. *)
Definition phases (t : list (Event Mesh Indicators)) : list Phase := flat_map phase_of t.


End Observations.

Section Rounds.

Context {Problem Mesh Indicators : Type}.
Variable C : Collaborators Problem Mesh Indicators.
Variable parameters : Parameters.


End Rounds.

End FSISolverObservations.

(** ** Further observations on the traces of [solve_primal] *)

Module PrimalSolverObservations.

Import PrimalSolver.

(** The times handed to [write_primal_data], lines 70 and 171. *)
Definition written_of (e : Event) : list Q :=
  match e with WritePrimalData t => [t] | _ => [] end.

Definition written (t : list Event) : list Q := flat_map written_of t.

(** The goal functionals handed to [save_goal_functional], line 156. *)
Definition goal_values_of (e : Event) : list Q :=
  match e with SaveGoalFunctional _ gf _ => [gf] | _ => [] end.

Definition goal_values (t : list Event) : list Q := flat_map goal_values_of t.

(** The step counts handed to [save_dofs], line 188. *)
Definition saved_dofs_of (e : Event) : list nat :=
  match e with SaveDofs n => [n] | _ => [] end.

Definition saved_dofs (t : list Event) : list nat := flat_map saved_dofs_of t.

(** Events of a pass that did not converge: lines 97 and 165. *)
Definition is_iteration_log (e : Event) : bool :=
  match e with StartIteration _ | LogIncrement _ _ _ => true | _ => false end.

(** One step of the trapezoidal rule of line 152 on the pair
    [(integrated_goal_functional, old_goal_functional)], for a time step
    of length [fst x] with goal functional [snd x]. *)
Definition trapezoid_step (a x : Q * Q) : Q * Q :=
  (fst a + (1 # 2) * fst x * (snd a + snd x), snd x).

(** The rule over a list of [(dt, goal_functional)], from lines 78-79. *)
Definition trapezoid (steps : list (Q * Q)) : Q * Q :=
  fold_left trapezoid_step steps (0, 0).

(** The time steps [rs] follow one another from [a] to [b] without a
    gap: each starts where the one before it ended. *)
Fixpoint tiles (a : Q) (rs : list TimeStepRecord) (b : Q) : Prop :=
  match rs with
  | [] => a = b
  | r :: rest => r_t0 r = a /\ tiles (r_t1 r) rest b
  end.

Section Invariants.

Context {Phys Field : Type}.

(** The bookkeeping of the time series whenever a time step is about to
    start: one record and one stored solution per step made, the steps
    tile [[0, t0]], none of them was flagged [at_end], and [dt] is the
    length of the step to come. *)
Definition series_ok (s : State Phys Field) : Prop :=
  length (time_steps (trace s)) = timestep_counter s
  /\ written (trace s) = 0 :: map r_t1 (time_steps (trace s))
  /\ saved_dofs (trace s) = []
  /\ tiles 0 (time_steps (trace s)) (t0 s)
  /\ Forall (fun r => r_dt r == r_t1 r - r_t0 r) (time_steps (trace s))
  /\ Forall (fun r => r_at_end r = false) (time_steps (trace s))
  /\ dt s == t1 s - t0 s.

(** The bookkeeping of the coupling iteration whenever a time step is
    about to start and [maxiter >= 1]: every step made has converged, in
    the passes [0 .. n - 1] for its stored count [n <= maxiter], and the
    goal functional has been integrated over the steps made. *)
Definition integration_ok (maxiter : Z) (s : State Phys Field) : Prop :=
  length (time_steps (trace s)) = timestep_counter s
  /\ length (fsi_iterations (trace s)) = timestep_counter s
  /\ Forall (fun n => (1 <= n <= maxiter)%Z) (fsi_iterations (trace s))
  /\ passes (trace s) = flat_map range (fsi_iterations (trace s))
  /\ length (goal_values (trace s)) = timestep_counter s
  /\ (integrated_goal_functional s, old_goal_functional s)
     = trapezoid (zip (map r_dt (time_steps (trace s))) (goal_values (trace s)))
  /\ (forall g, goal_functional s = Some g -> g = old_goal_functional s)
  /\ (timestep_counter s <> 0%nat -> goal_functional s <> None).

(** The same when [maxiter <= 0]: no pass has been made and the goal
    functional is unbound. *)
Definition never_iterated (s : State Phys Field) : Prop :=
  passes (trace s) = [] /\ fsi_iterations (trace s) = []
  /\ goal_values (trace s) = [] /\ goal_functional s = None.

(** What the bookkeeping of the time series comes to when a run ends. *)
Definition series_result (o : Outcome Phys Field) : Prop :=
  let steps := time_steps (trace (outcome_state o)) in
  (exists b, tiles 0 steps b)
  /\ Forall (fun r => r_dt r == r_t1 r - r_t0 r) steps
  /\ match o with
     | Returned _ s' =>
       length steps = timestep_counter s'
       /\ written (trace s') = 0 :: map r_t1 steps
       /\ saved_dofs (trace s') = [length steps]
       /\ tiles 0 steps (t1 s')
       /\ exists init r,
            steps = init ++ [r]
            /\ Forall (fun r => r_at_end r = false) init /\ r_at_end r = true
     | _ => True
     end.

(** What the bookkeeping of the coupling iteration comes to. *)
Definition integration_result (maxiter : Z) (o : Outcome Phys Field) : Prop :=
  let s' := outcome_state o in
  let counts := fsi_iterations (trace s') in
  length counts = timestep_counter s'
  /\ Forall (fun n => (1 <= n <= maxiter)%Z) counts
  /\ match o with
     | Returned gf _ =>
       (1 <= timestep_counter s')%nat
       /\ length (time_steps (trace s')) = timestep_counter s'
       /\ passes (trace s') = flat_map range counts
       /\ length (goal_values (trace s')) = timestep_counter s'
       /\ (integrated_goal_functional s', gf)
          = trapezoid (zip (map r_dt (time_steps (trace s'))) (goal_values (trace s')))
       /\ exists t,
            trace s' = t ++ [SaveGoalFunctionalFinal gf (integrated_goal_functional s')]
     | Raised e _ =>
       e = RuntimeError maxiter
       /\ length (time_steps (trace s')) = S (timestep_counter s')
       /\ passes (trace s') = flat_map range counts ++ range maxiter
     | OutOfFuel _ => True
     end.

Definition never_iterated_result (o : Outcome Phys Field) : Prop :=
  passes (trace (outcome_state o)) = []
  /\ fsi_iterations (trace (outcome_state o)) = []
  /\ goal_values (trace (outcome_state o)) = []
  /\ match o with
     | Returned _ _ => False
     | Raised e s' => e = UnboundLocalError /\ at_end s' = true
     | OutOfFuel _ => True
     end.

(** A run that ends, having started at most [k] further time steps. *)
Definition ends_within (k : nat) (s : State Phys Field) (o : Outcome Phys Field) : Prop :=
  (forall s', o <> OutOfFuel s')
  /\ (length (time_steps (trace (outcome_state o)))
      <= length (time_steps (trace s)) + k)%nat.

End Invariants.

End PrimalSolverObservations.

(** ** Further observations on [FluidProblem] *)

Module SubproblemsObservations.

Import Subproblems.

(** The three coordinate arrays have one row per vertex and [dim]
    columns, and the mesh velocity has one entry per vertex and
    dimension. *)
Definition well_formed (fp : FluidProblem) : Prop :=
  shaped (length (omega_F1 fp)) (dim fp) (Omega_F fp)
  /\ shaped (length (omega_F1 fp)) (dim fp) (omega_F0 fp)
  /\ shaped (length (omega_F1 fp)) (dim fp) (omega_F1 fp)
  /\ length (w fp) = (dim fp * length (omega_F1 fp))%nat.

(** Smoothing moves vertices; it neither adds nor removes any. *)
Definition keeps_shape (smooth : Z -> Coordinates -> Coordinates) : Prop :=
  forall (n : Z) (N d : nat) (x : Coordinates), shaped N d x -> shaped N d (smooth n x).

End SubproblemsObservations.

(* ================================================================== *)
(** * Part II: properties *)
(* ================================================================== *)

(** ** The adaptive loop *)

Module FSISolverProps.

Import FSISolver.

Section Blocks.

Context {Problem Mesh Indicators : Type}.
Variable C : Collaborators Problem Mesh Indicators.
Variable parameters : Parameters.

Lemma count_app (p : Event Mesh Indicators -> bool) (t u : list (Event Mesh Indicators)) :
  count p (t ++ u) = (count p t + count p u)%nat.
Proof. unfold count. rewrite List.filter_app, length_app. reflexivity. Qed.

Lemma none_of_app (p : Event Mesh Indicators -> bool) (t u : list (Event Mesh Indicators)) :
  none_of p (t ++ u) <-> none_of p t /\ none_of p u.
Proof. unfold none_of. apply Forall_app. Qed.

Lemma none_of_count (p : Event Mesh Indicators -> bool) (t : list (Event Mesh Indicators)) :
  none_of p t -> count p t = 0%nat.
Proof.
  unfold none_of, count. induction 1 as [|e t He _ IH]; [reflexivity|].
  cbn. rewrite He. exact IH.
Qed.

Lemma count_zero (p : Event Mesh Indicators -> bool) (t : list (Event Mesh Indicators)) :
  count p t = 0%nat -> none_of p t.
Proof.
  unfold none_of, count. induction t as [|e t IH]; cbn; [constructor|].
  destruct (p e) eqn:He; cbn; [discriminate|].
  intros H. constructor; [exact He|exact (IH H)].
Qed.

Lemma none_of_touches_mesh (t : list (Event Mesh Indicators)) :
  none_of touches_mesh t ->
  none_of is_refinement t /\ none_of is_init_meshes t /\ none_of is_save_mesh t.
Proof.
  unfold none_of, touches_mesh. induction 1 as [|e t He _ (IH1 & IH2 & IH3)].
  - repeat split; constructor.
  - apply orb_false_iff in He as [He He3]. apply orb_false_iff in He as [He1 He2].
    repeat split; constructor; assumption.
Qed.

(** What lines 50-73 leave behind, whatever the collaborators do. *)
Lemma solves_spec (l l1 : Locals Indicators) (s s1 : State Problem Mesh Indicators)
  (error : Q) :
  solves C parameters l s = (l1, s1, error) ->
  exists new,
    trace s1 = trace s ++ new /\
    saved s1 = saved s /\
    none_of touches_mesh new /\
    count is_primal_solve new
      = (if solve_primal_enabled parameters then 1 else 0)%nat /\
    goal_functional l1
      = (if solve_primal_enabled parameters
         then Some (snd (solve_primal C (problem s) parameters (ST l)))
         else goal_functional l) /\
    (if estimate_error_enabled parameters
     then exists eh ind, E_h l1 = Some eh /\ indicators l1 = Some ind
     else error = 0 /\ E_h l1 = E_h l /\ indicators l1 = indicators l /\
          In (Log info NotEstimatingError) new /\
          count is_estimate_error new = 0%nat /\
          none_of in_mesh_block new).
Proof.
  unfold solves, primal_block, dual_block, estimate_block.
  destruct (solve_primal_enabled parameters);
    [destruct (solve_primal C (problem s) parameters (ST l)) as [pb gf]|];
    destruct (solve_dual_enabled parameters);
    (destruct (estimate_error_enabled parameters);
     [match goal with |- context [estimate_error C ?p ?q] =>
        destruct (estimate_error C p q) as [pb' [[[e ind] st] eh]] end|]);
    intros [= <- <- <-]; cbn;
    eexists; (split; [rewrite <- ?app_assoc; reflexivity|]);
    (split; [reflexivity|]);
    (split; [repeat constructor|]);
    (split; [reflexivity|]);
    (split; [reflexivity|]); eauto.
  all: cbn; intuition auto; repeat constructor.
Qed.

Lemma Qle_bool_false (a b : Q) : ~ a <= b -> Qle_bool a b = false.
Proof.
  intros H. destruct (Qle_bool a b) eqn:E; [|reflexivity].
  apply Qle_bool_iff in E. contradiction.
Qed.

(** The mesh block leaves the locals alone and solves no primal problem. *)
Lemma mesh_block_frame (l l' : Locals Indicators) (s s' : State Problem Mesh Indicators) :
  mesh_block C parameters l s = Continue l' s' ->
  l' = l /\ exists more, trace s' = trace s ++ more /\ none_of is_primal_solve more.
Proof.
  unfold mesh_block, update_and_save, save_mesh.
  destruct (E_h l) as [eh|]; [|discriminate].
  destruct (Qle_bool (Float.fl (float C) eh) _).
  - intros [= <- <-]. split; [reflexivity|]. cbn. rewrite <- app_assoc.
    eexists; split; [reflexivity|]. repeat constructor.
  - cbn. destruct (convergence_test C (problem s) && _).
    + intros [= <- <-]. split; [reflexivity|]. cbn. rewrite <- !app_assoc.
      eexists; split; [reflexivity|]. repeat constructor.
    + destruct (indicators l) as [ind|]; [|discriminate].
      intros [= <- <-]. split; [reflexivity|]. cbn. rewrite <- !app_assoc.
      eexists; split; [reflexivity|]. repeat constructor.
Qed.

Lemma mesh_block_no_break (l l' : Locals Indicators) (s s' : State Problem Mesh Indicators) :
  mesh_block C parameters l s <> Break l' s'.
Proof.
  unfold mesh_block, update_and_save.
  destruct (E_h l); [|discriminate].
  destruct (Qle_bool _ _); [discriminate|].
  destruct (_ && _); [discriminate|].
  destruct (indicators l); discriminate.
Qed.

(** Without a primal solve the goal functional stays what it was. *)
Lemma loop_without_primal (fuel : nat) :
  solve_primal_enabled parameters = false ->
  forall (l : Locals Indicators) (s s' : State Problem Mesh Indicators) gf,
    goal_functional l = None ->
    none_of is_primal_solve (trace s) ->
    adaptive_loop C parameters fuel l s = Returned gf s' ->
    gf = None /\ none_of is_primal_solve (trace s').
Proof.
  intros Hsp. induction fuel as [|fuel IH]; intros l s s' gf Hl Hs; [discriminate|].
  cbn [adaptive_loop]. unfold iteration.
  destruct (solves C parameters l s) as [[l1 s1] error] eqn:Hsolves.
  destruct (solves_spec _ _ _ _ _ Hsolves) as (new & Htr & _ & _ & Hcount & Hgf & _).
  rewrite Hsp in Hgf, Hcount. apply count_zero in Hcount.
  unfold check_error.
  destruct (Qle_bool error (tolerance parameters)).
  - intros [= <- <-]. cbn. split; [congruence|].
    rewrite Htr. apply none_of_app. split; [apply none_of_app; auto|repeat constructor].
  - destruct (mesh_block C parameters l1 _) as [l' s2|l' s2|e s2] eqn:Hmb;
      [exfalso; exact (mesh_block_no_break _ _ _ _ Hmb)| |discriminate].
    apply mesh_block_frame in Hmb as (-> & more & Hmore & Hnone).
    apply IH; [congruence|].
    rewrite Hmore. cbn. rewrite Htr.
    repeat (apply none_of_app; split); auto. repeat constructor.
Qed.

(** C1 (amended).  If the error at the check of an iteration is within
    the tolerance, the loop stops at that check and returns the goal
    functional as it then stands; the events of that iteration contain
    no refinement, no [init_meshes] and no [save_mesh], and nothing is
    added to the persisted meshes.  On the first iteration this makes the
    whole run contain one primal solve when [solve_primal] is enabled and
    none when it is disabled, and no call that touches a mesh. *)
Theorem C1_stop_within_tolerance :
  (forall (l l1 : Locals Indicators) (s s1 : State Problem Mesh Indicators)
          (error : Q) (fuel : nat),
     solves C parameters l s = (l1, s1, error) ->
     error <= tolerance parameters ->
     exists new,
       adaptive_loop C parameters (S fuel) l s
         = Returned (goal_functional l1)
             (mkState (problem s1) (saved s)
                (trace s ++ new ++
                 [Log info_green (AdaptiveSolverConverged error (tolerance parameters))]))
       /\ none_of touches_mesh new
       /\ count is_primal_solve new
          = (if solve_primal_enabled parameters then 1 else 0)%nat
       /\ goal_functional l1
          = (if solve_primal_enabled parameters
             then Some (snd (solve_primal C (problem s) parameters (ST l)))
             else goal_functional l))
  /\
  (forall (pb : Problem) (l1 : Locals Indicators) (s1 : State Problem Mesh Indicators)
          (error : Q) (fuel : nat),
     solves C parameters initial_locals (initial_state pb) = (l1, s1, error) ->
     error <= tolerance parameters ->
     exists s',
       solve C parameters (S fuel) pb = Returned (goal_functional l1) s'
       /\ count is_primal_solve (trace s')
          = (if solve_primal_enabled parameters then 1 else 0)%nat
       /\ none_of touches_mesh (trace s')
       /\ saved s' = []).
Proof.
  assert (general : forall (l l1 : Locals Indicators) (s s1 : State Problem Mesh Indicators)
                           (error : Q) (fuel : nat),
     solves C parameters l s = (l1, s1, error) ->
     error <= tolerance parameters ->
     exists new,
       adaptive_loop C parameters (S fuel) l s
         = Returned (goal_functional l1)
             (mkState (problem s1) (saved s)
                (trace s ++ new ++
                 [Log info_green (AdaptiveSolverConverged error (tolerance parameters))]))
       /\ none_of touches_mesh new
       /\ count is_primal_solve new
          = (if solve_primal_enabled parameters then 1 else 0)%nat
       /\ goal_functional l1
          = (if solve_primal_enabled parameters
             then Some (snd (solve_primal C (problem s) parameters (ST l)))
             else goal_functional l)).
  { intros l l1 s s1 error fuel Hsolves Hle.
    destruct (solves_spec _ _ _ _ _ Hsolves) as (new & Htr & Hsv & Hnone & Hcount & Hgf & _).
    exists new. cbn [adaptive_loop]. unfold iteration. rewrite Hsolves.
    unfold check_error. apply Qle_bool_iff in Hle. rewrite Hle.
    unfold record. rewrite Htr, Hsv, <- app_assoc. auto. }
  split; [exact general|].
  intros pb l1 s1 error fuel Hsolves Hle.
  destruct (general _ _ _ _ _ fuel Hsolves Hle) as (new & Hrun & Hnone & Hcount & _).
  eexists. split; [exact Hrun|]. cbn [trace saved initial_state app].
  split; [|split; [|reflexivity]].
  - rewrite count_app, Hcount. cbn. lia.
  - apply none_of_app. split; [exact Hnone|repeat constructor].
Qed.


(** C10.  In a run with [solve_primal] disabled, whenever the loop
    returns, it returns [None], and the trace of the run contains no
    primal solve. *)
Theorem C10_no_primal_returns_None
  (pb : Problem) (fuel : nat) (gf : option Q) (s' : State Problem Mesh Indicators) :
  solve_primal_enabled parameters = false ->
  solve C parameters fuel pb = Returned gf s' ->
  gf = None /\ none_of is_primal_solve (trace s').
Proof.
  intros Hsp Hrun.
  apply (loop_without_primal fuel Hsp initial_locals (initial_state pb));
    [reflexivity|constructor|exact Hrun].
Qed.

(** C5.  In an iteration whose error exceeds the tolerance while the
    spatial error [E_h] is within [w_h * tolerance], the loop goes on
    with the locals and the problem exactly as they were at the error
    check, so that the next iteration sees the same mesh; that mesh is
    the one persisted, and the iteration contains no refinement and no
    [init_meshes]. *)
Theorem C5_freeze_reuses_mesh
  (l l1 : Locals Indicators) (s s1 : State Problem Mesh Indicators) (error eh : Q) :
  solves C parameters l s = (l1, s1, error) ->
  ~ error <= tolerance parameters ->
  E_h l1 = Some eh ->
  eh <= w_h parameters * tolerance parameters ->
  exists new,
    iteration C parameters l s
      = Continue l1 (mkState (problem s1)
                       (saved s ++ [problem_mesh C (problem s1)])
                       (trace s ++ new ++ [CallSaveMesh (problem_mesh C (problem s1))]))
    /\ none_of is_refinement new
    /\ none_of is_init_meshes new
    /\ none_of is_save_mesh new.
Proof.
  intros Hsolves Hgt HEh Hle.
  destruct (solves_spec _ _ _ _ _ Hsolves) as (new & Htr & Hsv & Hnone & _).
  destruct (none_of_touches_mesh _ Hnone) as (Ha & Hb & Hc).
  exists (new ++ [Log info_red (ErrorTooLarge error (tolerance parameters));
                  Log info_blue
                    (FreezingCurrentMesh eh
                       (Float.fl (float C) (w_h parameters * tolerance parameters)))]).
  split.
  - unfold iteration. rewrite Hsolves. unfold check_error.
    rewrite (Qle_bool_false _ _ Hgt). unfold mesh_block. cbn [record E_h]. rewrite HEh.
    apply (Float.fl_monotone (float C)), Qle_bool_iff in Hle. rewrite Hle.
    unfold update_and_save, save_mesh. cbn [problem saved trace record].
    rewrite Htr, Hsv. f_equal. f_equal.
    rewrite <- !app_assoc. reflexivity.
  - repeat split; apply none_of_app; (split; [assumption|repeat constructor]).
Qed.

(** C4 (amended).  In an iteration of a run with error estimation enabled
    whose error exceeds the tolerance, the loop goes on, and the last
    thing it does is persist the resulting mesh [m].  When line 87
    freezes, [m] is the mesh of the problem, the problem is left as it
    was and [init_meshes] is not called.  Otherwise [m] is what the
    refinement returned, [refine(mesh)] for a pure convergence test and
    [refine_mesh(problem, mesh, indicators)] else, and between the
    refinement and [save_mesh(m)] the problem is re-initialised with
    [init_meshes(m)].  Nothing else in the iteration touches a mesh. *)
Theorem C4_mesh_persisted_each_iteration
  (l l1 : Locals Indicators) (s s1 : State Problem Mesh Indicators) (error : Q) :
  estimate_error_enabled parameters = true ->
  solves C parameters l s = (l1, s1, error) ->
  ~ error <= tolerance parameters ->
  exists eh ind new,
    E_h l1 = Some eh
    /\ indicators l1 = Some ind
    /\ none_of touches_mesh new
    /\ let pb := problem s1 in
       let mesh := problem_mesh C pb in
       let mesh_tolerance :=
         Float.fl (float C) (w_h parameters * tolerance parameters) in
       let frozen := Qle_bool (Float.fl (float C) eh) mesh_tolerance in
       let uniform := convergence_test C pb && negb (problem_estimate_error C pb) in
       let m :=
         if frozen then mesh
         else if uniform then refine C mesh else refine_mesh C pb mesh ind in
       iteration C parameters l s
       = Continue l1
           (mkState
              (if frozen then pb else init_meshes C pb m)
              (saved s ++ [m])
              (trace s ++ new
               ++ (if frozen
                   then [Log info_blue (FreezingCurrentMesh eh mesh_tolerance)]
                   else [Log info_red RefiningMesh;
                         if uniform then CallRefine mesh else CallRefineMesh mesh ind;
                         CallInitMeshes m])
               ++ [CallSaveMesh m])).
Proof.
  intros Hest Hsolves Hgt.
  destruct (solves_spec _ _ _ _ _ Hsolves) as (new & Htr & Hsv & Hnone & _ & _ & Hbound).
  rewrite Hest in Hbound. destruct Hbound as (eh & ind & HEh & Hind).
  exists eh, ind,
    (new ++ [Log info_red (ErrorTooLarge error (tolerance parameters))]).
  split; [exact HEh|]. split; [exact Hind|].
  split; [apply none_of_app; split; [exact Hnone|repeat constructor]|].
  cbv zeta. unfold iteration. rewrite Hsolves. unfold check_error.
  rewrite (Qle_bool_false _ _ Hgt). unfold mesh_block. cbn [record E_h indicators].
  rewrite HEh, Hind. unfold update_and_save, save_mesh.
  destruct (Qle_bool (Float.fl (float C) eh) _).
  - cbn [problem saved trace record with_problem]. rewrite Htr, Hsv.
    rewrite <- !app_assoc. reflexivity.
  - cbn [problem saved trace record with_problem].
    destruct (convergence_test C (problem s1) && _);
      cbn [problem saved trace record with_problem]; rewrite Htr, Hsv;
      rewrite <- !app_assoc; reflexivity.
Qed.

End Blocks.

(** The first check of a run on [refining] with tolerance 1 passes. *)
Lemma C1_witness :
  exists l1 s1 error s',
    solves Doubles.refining (Doubles.all_enabled 1) initial_locals (initial_state 0%nat)
      = (l1, s1, error)
    /\ error <= 1
    /\ solve Doubles.refining (Doubles.all_enabled 1) 1 0%nat
       = Returned (goal_functional l1) s'
    /\ count is_primal_solve (trace s') = 1%nat
    /\ none_of touches_mesh (trace s')
    /\ saved s' = [].
Proof.
  eexists _, _, _.
  assert (Hle : Doubles.halving 0 <= 1) by (vm_compute; discriminate).
  destruct (proj2 (C1_stop_within_tolerance Doubles.refining (Doubles.all_enabled 1))
              0%nat _ _ _ 0%nat eq_refl Hle) as (s' & Hrun & Hcount & Hnone & Hsaved).
  exists s'. repeat split; try assumption; try reflexivity.
Defined.

(** With [solve_primal] disabled the first check can pass as well, and
    then the run contains no primal solve at all, not exactly one. *)
Lemma C1_counterexample :
  exists l1 s1 error gf s',
    solves Doubles.refining Doubles.nothing_enabled initial_locals (initial_state 0%nat)
      = (l1, s1, error)
    /\ error <= tolerance Doubles.nothing_enabled
    /\ solve Doubles.refining Doubles.nothing_enabled 1 0%nat = Returned gf s'
    /\ count is_primal_solve (trace s') = 0%nat.
Proof.
  eexists _, _, _, _, _.
  split; [reflexivity|]. split; [vm_compute; discriminate|].
  split; reflexivity.
Qed.


Lemma C10_witness :
  solve_primal_enabled Doubles.nothing_enabled = false
  /\ exists s',
       solve Doubles.refining Doubles.nothing_enabled 3 0%nat = Returned None s'
       /\ none_of is_primal_solve (trace s').
Proof.
  split; [reflexivity|]. eexists. split; [reflexivity|].
  exact (proj2 (C10_no_primal_returns_None Doubles.refining Doubles.nothing_enabled
                  0%nat 3%nat _ _ eq_refl eq_refl)).
Defined.

(** On [stagnating] with tolerance 1/2 the first iteration freezes the mesh. *)
Lemma C5_witness :
  exists l1 s1 error eh new,
    solves Doubles.stagnating (Doubles.all_enabled (1 # 2)) initial_locals
           (initial_state 0%nat) = (l1, s1, error)
    /\ ~ error <= 1 # 2
    /\ E_h l1 = Some eh
    /\ eh <= (1 # 2) * (1 # 2)
    /\ iteration Doubles.stagnating (Doubles.all_enabled (1 # 2)) initial_locals
                 (initial_state 0%nat)
       = Continue l1 (mkState (problem s1) [0%nat] (new ++ [CallSaveMesh 0%nat]))
    /\ none_of is_refinement new
    /\ none_of is_init_meshes new
    /\ none_of is_save_mesh new.
Proof.
  eexists _, _, _, _.
  assert (Hgt : ~ Doubles.constantly 1 0%nat <= 1 # 2) by (vm_compute; congruence).
  assert (Hle : Doubles.constantly 0 0%nat <= (1 # 2) * (1 # 2))
    by (vm_compute; discriminate).
  destruct (C5_freeze_reuses_mesh Doubles.stagnating (Doubles.all_enabled (1 # 2))
              initial_locals _ (initial_state 0%nat) _ _ _ eq_refl Hgt eq_refl Hle)
    as (new & Hit & Ha & Hb & Hc).
  exists new. repeat split; try assumption; try reflexivity.
Defined.

(** On [refining] with tolerance 1/2 the first iteration refines mesh 0
    by its indicators into mesh 1. *)
Lemma C4_witness :
  exists l1 s1 error new,
    solves Doubles.refining (Doubles.all_enabled (1 # 2)) initial_locals
           (initial_state 0%nat) = (l1, s1, error)
    /\ ~ error <= 1 # 2
    /\ none_of touches_mesh new
    /\ iteration Doubles.refining (Doubles.all_enabled (1 # 2)) initial_locals
                 (initial_state 0%nat)
       = Continue l1
           (mkState 1%nat [1%nat]
              (new ++ [Log info_red RefiningMesh; CallRefineMesh 0%nat tt;
                       CallInitMeshes 1%nat]
                   ++ [CallSaveMesh 1%nat])).
Proof.
  eexists _, _, _.
  assert (Hgt : ~ Doubles.halving 0%nat <= 1 # 2) by (vm_compute; congruence).
  destruct (C4_mesh_persisted_each_iteration Doubles.refining
              (Doubles.all_enabled (1 # 2)) initial_locals _ (initial_state 0%nat) _ _
              eq_refl eq_refl Hgt)
    as (eh & ind & new & HEh & Hind & Hnone & Hit).
  exists new. split; [reflexivity|]. split; [exact Hgt|]. split; [exact Hnone|].
  cbn [E_h] in HEh. injection HEh as <-. destruct ind. exact Hit.
Defined.

(** A frozen iteration persists the mesh without any [init_meshes]. *)
Lemma C4_counterexample :
  exists l1 s1 error s',
    solves Doubles.stagnating (Doubles.all_enabled (1 # 2)) initial_locals
           (initial_state 0%nat) = (l1, s1, error)
    /\ ~ error <= tolerance (Doubles.all_enabled (1 # 2))
    /\ iteration Doubles.stagnating (Doubles.all_enabled (1 # 2)) initial_locals
                 (initial_state 0%nat) = Continue l1 s'
    /\ count is_init_meshes (trace s') = 0%nat
    /\ count is_save_mesh (trace s') = 1%nat.
Proof.
  eexists _, _, _, _.
  split; [reflexivity|]. split; [vm_compute; congruence|].
  split; [reflexivity|]. split; reflexivity.
Qed.

End FSISolverProps.

(** ** The primal solver: the fixed-point iteration *)

Module CouplingProps.

Import PrimalSolver.

Lemma Qltb_true (a b : Q) : Qltb a b = true <-> a < b.
Proof.
  unfold Qltb. destruct (Qle_bool b a) eqn:E; cbn.
  - apply Qle_bool_iff in E. split; [discriminate|]. intros H. exfalso. lra.
  - split; [intros _|reflexivity].
    destruct (Qlt_le_dec a b) as [H|H]; [exact H|].
    apply Qle_bool_iff in H. congruence.
Qed.

Lemma Qltb_false (a b : Q) : Qltb a b = false <-> ~ a < b.
Proof.
  rewrite <- Qltb_true. destruct (Qltb a b); split; intros H; congruence.
Qed.

Lemma axpy_self (c : list Q) : Forall (fun x => x == 0) (axpy (-1) c c).
Proof.
  unfold axpy. induction c as [|x c IH]; cbn; constructor; [ring|exact IH].
Qed.

Section Coupling.

Context {Phys Field : Type}.
Variable C : Collaborators Phys Field.
Variable parameters : Parameters.

Lemma fsi_pass_frame (iter : Z) (s : State Phys Field) :
  let p := fsi_pass C parameters iter s in
  same_clock s (pass_state p) /\ same_goal s (pass_state p) /\
  trace (pass_state p) = trace s ++ [StartIteration iter] /\
  U_S0 (pass_state p) = vector C (U_S p) /\
  (exists ph, U_S p = fst (snd (S_step C (dt s) ph))) /\
  increment p = norm C (axpy (-1) (vector C (U_S p)) (U_S0 s)).
Proof.
  unfold fsi_pass. cbn [record dt phys U_M U_S0 t0 t1 at_end trace
    integrated_goal_functional old_goal_functional goal_functional timestep_counter].
  destruct (F_step C (dt s) (phys s)) as [ph1 [uF pF]]. cbn [fst snd].
  destruct (F_compute_fluid_stress C uF pF (U_M s) ph1) as [ph2 Sigma]. cbn [fst snd].
  destruct (S_step C (dt s) (S_update_fluid_stress C Sigma ph2)) as [ph3 [US PS]] eqn:ES.
  cbn [fst snd].
  destruct (M_step C (dt s) (M_update_structure_displacement C US ph3)) as [ph4 UM'].
  cbn. unfold same_clock, same_goal. cbn.
  repeat split; try reflexivity.
  exists (S_update_fluid_stress C Sigma ph2). rewrite ES. reflexivity.
Qed.

Lemma zseq_S (iter : Z) (k : nat) : zseq iter (S k) = iter :: zseq (iter + 1) k.
Proof.
  unfold zseq. cbn [seq map]. f_equal; [lia|].
  rewrite <- seq_shift, map_map. apply map_ext. intros j. lia.
Qed.

Lemma zseq_range (n : Z) : zseq 0 (Z.to_nat n) = range n.
Proof. unfold zseq, range. apply map_ext. intros j. lia. Qed.

Lemma zseq_snoc (iter : Z) (k : nat) :
  zseq iter (S k) = zseq iter k ++ [(iter + Z.of_nat k)%Z].
Proof. unfold zseq. rewrite seq_S, map_app. reflexivity. Qed.

Lemma passes_app (t u : list (Event)) : passes (t ++ u) = passes t ++ passes u.
Proof. unfold passes. apply flat_map_app. Qed.

Lemma time_steps_app (t u : list (Event)) :
  time_steps (t ++ u) = time_steps t ++ time_steps u.
Proof. unfold time_steps. apply flat_map_app. Qed.

Lemma fsi_iterations_app (t u : list (Event)) :
  fsi_iterations (t ++ u) = fsi_iterations t ++ fsi_iterations u.
Proof. unfold fsi_iterations. apply flat_map_app. Qed.

(** [k] passes that neither converge nor raise. *)
Lemma unconverged_frame (itertol : Q) (k : nat) :
  forall (iter : Z) (s : State Phys Field),
    let s' := unconverged C parameters itertol k iter s in
    same_clock s s' /\ same_goal s s' /\
    passes (trace s') = passes (trace s) ++ zseq iter k /\
    time_steps (trace s') = time_steps (trace s) /\
    fsi_iterations (trace s') = fsi_iterations (trace s).
Proof.
  induction k as [|k IH]; intros iter s; cbn [unconverged].
  - unfold same_clock, same_goal, zseq. cbn. rewrite app_nil_r. repeat split; reflexivity.
  - destruct (fsi_pass_frame iter s)
      as ((c1 & c2 & c3 & c4 & c5) & (g1 & g2 & g3) & Htr & _).
    specialize (IH (iter + 1)%Z
      (record (LogIncrement (increment (fsi_pass C parameters iter s)) itertol (iter + 1))
              (pass_state (fsi_pass C parameters iter s)))).
    cbv zeta in IH. destruct IH as ((d1 & d2 & d3 & d4 & d5) & (h1 & h2 & h3) & Hp & Hts & Hfi).
    cbn [record t0 t1 dt at_end timestep_counter integrated_goal_functional
         old_goal_functional goal_functional trace] in *.
    cbv zeta. unfold same_clock, same_goal.
    rewrite Hp, Hts, Hfi, Htr, zseq_S, !passes_app, !time_steps_app, !fsi_iterations_app.
    cbn. rewrite !app_nil_r, <- app_assoc. cbn.
    repeat split; congruence.
Qed.

Lemma for_each_unconverged (itertol : Q) (k : nat) :
  forall (iter : Z) (s : State Phys Field) (rest : list Z),
    (forall j, (j < k)%nat ->
       ~ increment (fsi_pass C parameters (iter + Z.of_nat j)
                     (unconverged C parameters itertol j iter s)) < itertol) ->
    (iter + Z.of_nat k <= maximum_iterations parameters - 1)%Z ->
    for_each (zseq iter k ++ rest) (fsi_iteration C parameters itertol) s
    = for_each rest (fsi_iteration C parameters itertol)
        (unconverged C parameters itertol k iter s).
Proof.
  induction k as [|k IH]; intros iter s rest Hinc Hlast; [reflexivity|].
  rewrite zseq_S. cbn [app for_each unconverged]. unfold fsi_iteration at 1.
  assert (H0 : ~ increment (fsi_pass C parameters iter s) < itertol).
  { specialize (Hinc 0%nat ltac:(lia)). cbn [unconverged] in Hinc.
    replace (iter + Z.of_nat 0)%Z with iter in Hinc by lia. exact Hinc. }
  apply Qltb_false in H0. rewrite H0.
  destruct (Z.eqb_spec iter (maximum_iterations parameters - 1)) as [E|_]; [lia|].
  apply IH; [|lia].
  intros j Hj. specialize (Hinc (S j) ltac:(lia)). cbn [unconverged] in Hinc.
  replace (iter + 1 + Z.of_nat j)%Z with (iter + Z.of_nat (S j))%Z by lia.
  exact Hinc.
Qed.

(** C2 (amended).  With [maximum_iterations >= 1], if no pass of the
    fixed-point iteration of a time step brings the increment below
    [itertol], the loop raises [RuntimeError] in pass number
    [maximum_iterations]: the passes made are exactly those numbered
    [0 .. maximum_iterations - 1], none of them is reported as converged,
    and the exception leaves [solve_primal] as it is, whatever fuel the
    time loop has left. *)
Theorem C2_fails_at_maximum_iterations
  (s0 : State Phys Field) (T ST : Q) (fuel : nat) :
  let s := record (StartTimeStep (t0 s0) (t1 s0) (dt s0) (at_end s0)) s0 in
  let itertol :=
    compute_itertol C (phys s) (w_c parameters) (tolerance parameters)
                    (dt s) (t1 s) parameters in
  let maxiter := maximum_iterations parameters in
  (1 <= maxiter)%Z ->
  (forall k : nat, (Z.of_nat k < maxiter)%Z ->
     ~ increment (fsi_pass C parameters (Z.of_nat k)
                   (unconverged C parameters itertol k 0 s)) < itertol) ->
  exists s',
    fsi_loop C parameters s = Failed (RuntimeError maxiter) s'
    /\ time_loop C parameters (S fuel) T ST s0 = Raised (RuntimeError maxiter) s'
    /\ passes (trace s') = passes (trace s0) ++ range maxiter
    /\ fsi_iterations (trace s') = fsi_iterations (trace s0).
Proof.
  intros s itertol maxiter Hmax Hinc.
  set (n := Z.to_nat maxiter).
  set (sl := unconverged C parameters itertol (n - 1) 0 s).
  exists (pass_state (fsi_pass C parameters (maxiter - 1) sl)).
  assert (Hloop : fsi_loop C parameters s
                  = Failed (RuntimeError maxiter)
                      (pass_state (fsi_pass C parameters (maxiter - 1) sl))).
  { unfold fsi_loop. fold itertol. fold maxiter.
    rewrite <- zseq_range. fold n.
    replace n with (S (n - 1)) at 1 by lia.
    rewrite zseq_snoc.
    rewrite (for_each_unconverged itertol (n - 1) 0 s).
    - fold sl. replace (0 + Z.of_nat (n - 1))%Z with (maxiter - 1)%Z by lia.
      cbn [for_each]. unfold fsi_iteration.
      assert (H : ~ increment (fsi_pass C parameters (maxiter - 1) sl) < itertol).
      { specialize (Hinc (n - 1)%nat ltac:(lia)).
        replace (Z.of_nat (n - 1)) with (maxiter - 1)%Z in Hinc by lia. exact Hinc. }
      apply Qltb_false in H. rewrite H. fold maxiter.
      rewrite Z.eqb_refl. reflexivity.
    - intros j Hj. replace (0 + Z.of_nat j)%Z with (Z.of_nat j) by lia.
      apply Hinc. lia.
    - fold maxiter. lia. }
  split; [exact Hloop|].
  split; [cbn [time_loop]; fold s; rewrite Hloop; reflexivity|].
  destruct (fsi_pass_frame (maxiter - 1) sl) as (_ & _ & Htr & _).
  destruct (unconverged_frame itertol (n - 1) 0 s) as (_ & _ & Hp & _ & Hfi).
  fold sl in Hp, Hfi. rewrite Htr, passes_app, fsi_iterations_app, Hp, Hfi.
  subst s. cbn [record trace]. rewrite passes_app, fsi_iterations_app. cbn.
  rewrite !app_nil_r, <- app_assoc. split; [|reflexivity].
  f_equal. rewrite <- zseq_range. fold n.
  replace n with (S (n - 1)) at 2 by lia. rewrite zseq_snoc.
  f_equal. f_equal. lia.
Qed.

(** When the structure solver returns the displacement [c] whatever it
    is given, the snapshot [U_S0] holds [c] on entry, [itertol] is
    positive and [maximum_iterations >= 1], the fixed-point iteration of
    the time step converges in its first pass with increment zero: one
    pass is made, the iteration count stored is 1, and the snapshot holds
    [c] again afterwards. *)
Lemma steady_snapshot_converges_in_one_pass (s : State Phys Field) (c : list Q) :
  let itertol :=
    compute_itertol C (phys s) (w_c parameters) (tolerance parameters)
                    (dt s) (t1 s) parameters in
  (1 <= maximum_iterations parameters)%Z ->
  0 < itertol ->
  (forall v, Forall (fun x => x == 0) v -> norm C v == 0) ->
  (forall d ph, vector C (fst (snd (S_step C d ph))) = c) ->
  U_S0 s = c ->
  exists s',
    fsi_loop C parameters s = Broke s'
    /\ increment (fsi_pass C parameters 0 s) == 0
    /\ passes (trace s') = passes (trace s) ++ [0%Z]
    /\ fsi_iterations (trace s') = fsi_iterations (trace s) ++ [1%Z]
    /\ U_S0 s' = c.
Proof.
  intros itertol Hmax Htol Hnorm Hsteady Hsnap.
  destruct (fsi_pass_frame 0 s) as (_ & _ & Htr & HU & (ph & HUS) & Hinc).
  assert (Hc : vector C (U_S (fsi_pass C parameters 0 s)) = c)
    by (rewrite HUS; apply Hsteady).
  assert (Hzero : increment (fsi_pass C parameters 0 s) == 0).
  { rewrite Hinc, Hc, Hsnap. apply Hnorm, axpy_self. }
  exists (converged C 0 itertol (fsi_pass C parameters 0 s)).
  split.
  - unfold fsi_loop. fold itertol. rewrite <- zseq_range.
    replace (Z.to_nat (maximum_iterations parameters))
      with (S (Z.to_nat (maximum_iterations parameters) - 1)) by lia.
    rewrite zseq_S. cbn [for_each]. unfold fsi_iteration.
    assert (Hlt : increment (fsi_pass C parameters 0 s) < itertol)
      by (rewrite Hzero; exact Htol).
    apply Qltb_true in Hlt. rewrite Hlt. reflexivity.
  - split; [exact Hzero|].
    unfold converged. cbn [record trace U_S0 t1 t0 dt phys U_M].
    rewrite !passes_app, !fsi_iterations_app, Htr, passes_app, fsi_iterations_app.
    cbn. rewrite !app_nil_r. repeat split. congruence.
Qed.

(** C8 (code bug).  Let the structure solver return the displacement [c]
    whatever it is given, and [itertol] be positive.  In the first time
    step, which the snapshot [U_S0] enters as the zero vector of line 65,
    not as the committed displacement, a displacement [c] that lies
    [itertol] or more away from zero makes the fixed-point iteration take
    two passes, not one: the increment of pass 0 is the norm of [c], pass
    1 converges with increment zero, and the iteration count stored is
    2. *)
Theorem C8_first_time_step_takes_two_passes (dt0 : Q) (ph : Phys) (c : list Q) :
  let s := record (StartTimeStep 0 dt0 dt0 false) (entry_state C dt0 ph) in
  let itertol :=
    compute_itertol C (phys s) (w_c parameters) (tolerance parameters)
                    (dt s) (t1 s) parameters in
  (2 <= maximum_iterations parameters)%Z ->
  0 < itertol ->
  (forall v, Forall (fun x => x == 0) v -> norm C v == 0) ->
  (forall d ph, vector C (fst (snd (S_step C d ph))) = c) ->
  itertol <= norm C (axpy (-1) c (repeat 0 (V_S_dim C (phys s)))) ->
  exists s',
    fsi_loop C parameters s = Broke s'
    /\ increment (fsi_pass C parameters 0 s)
       = norm C (axpy (-1) c (repeat 0 (V_S_dim C (phys s))))
    /\ passes (trace s') = [0; 1]%Z
    /\ fsi_iterations (trace s') = [2%Z]
    /\ U_S0 s' = c.
Proof.
  intros s itertol Hmax Htol Hnorm Hsteady Hfar.
  assert (Hs : U_S0 s = repeat 0 (V_S_dim C (phys s)) /\ trace s
               = [WritePrimalData 0; StartTimeStep 0 dt0 dt0 false]).
  { subst s. unfold entry_state. destruct (M_update C 0 ph) as [ph' UM]. split; reflexivity. }
  destruct Hs as [Hzero Htrace].
  destruct (fsi_pass_frame 0 s) as (_ & _ & Htr0 & HU0 & (ph0 & HUS0) & Hinc0).
  assert (Hc0 : vector C (U_S (fsi_pass C parameters 0 s)) = c)
    by (rewrite HUS0; apply Hsteady).
  rewrite Hc0, Hzero in Hinc0.
  set (s1 := record (LogIncrement (increment (fsi_pass C parameters 0 s)) itertol (0 + 1))
                    (pass_state (fsi_pass C parameters 0 s))).
  destruct (fsi_pass_frame (0 + 1) s1)
    as (_ & _ & Htr1 & HU1 & (ph1 & HUS1) & Hinc1).
  assert (Hc1 : vector C (U_S (fsi_pass C parameters (0 + 1) s1)) = c)
    by (rewrite HUS1; apply Hsteady).
  assert (Hsnap : U_S0 s1 = c) by (subst s1; cbn [record U_S0]; congruence).
  assert (Hzero1 : increment (fsi_pass C parameters (0 + 1) s1) == 0).
  { rewrite Hinc1, Hc1, Hsnap. apply Hnorm, axpy_self. }
  exists (converged C (0 + 1) itertol (fsi_pass C parameters (0 + 1) s1)).
  split.
  - unfold fsi_loop. fold itertol. rewrite <- zseq_range.
    replace (Z.to_nat (maximum_iterations parameters))
      with (S (S (Z.to_nat (maximum_iterations parameters) - 2))) by lia.
    rewrite !zseq_S. cbn [for_each]. unfold fsi_iteration at 1.
    assert (Hge : ~ increment (fsi_pass C parameters 0 s) < itertol)
      by (rewrite Hinc0; lra).
    apply Qltb_false in Hge. rewrite Hge.
    destruct (Z.eqb_spec 0 (maximum_iterations parameters - 1)) as [E|_]; [lia|].
    fold s1. unfold fsi_iteration at 1.
    assert (Hlt : increment (fsi_pass C parameters (0 + 1) s1) < itertol)
      by (rewrite Hzero1; exact Htol).
    apply Qltb_true in Hlt. rewrite Hlt. reflexivity.
  - split; [exact Hinc0|].
    unfold converged. cbn [record trace U_S0 t1 t0 dt phys U_M].
    rewrite !passes_app, !fsi_iterations_app, Htr1, passes_app, fsi_iterations_app.
    subst s1. cbn [record trace].
    rewrite !passes_app, !fsi_iterations_app, Htr0, passes_app, fsi_iterations_app, Htrace.
    cbn. repeat split. congruence.
Qed.

End Coupling.

(** The structure displacement alternates between [1] and [2], far
    apart for the tolerance 1/2: with three passes allowed the third one
    raises. *)
Lemma C2_witness :
  exists s',
    fsi_loop (Doubles.scripted Doubles.oscillating 1 1 (1 # 2) (1 # 2))
             (Doubles.primal_parameters 3)
             (record (StartTimeStep 0 (1 # 2) (1 # 2) false)
                (initial_state (Doubles.scripted Doubles.oscillating 1 1 (1 # 2) (1 # 2))
                               (Doubles.primal_parameters 3) 0%nat))
    = Failed (RuntimeError 3) s'
    /\ solve_primal (Doubles.scripted Doubles.oscillating 1 1 (1 # 2) (1 # 2))
                    (Doubles.primal_parameters 3) 1 0%nat 1
       = Raised (RuntimeError 3) s'
    /\ passes (trace s') = [0; 1; 2]%Z
    /\ fsi_iterations (trace s') = [].
Proof.
  apply (C2_fails_at_maximum_iterations
           (Doubles.scripted Doubles.oscillating 1 1 (1 # 2) (1 # 2))
           (Doubles.primal_parameters 3)
           (initial_state (Doubles.scripted Doubles.oscillating 1 1 (1 # 2) (1 # 2))
                          (Doubles.primal_parameters 3) 0%nat) 1 1 0%nat).
  - cbn. lia.
  - intros [|[|[|k]]] Hk; cbn in Hk; try lia; vm_compute; discriminate.
Defined.

(** With [maximum_iterations = 0] the [for] loop has no pass in which to
    raise: the time step is accepted without any solve, and the run goes
    on until [goal_functional] is read unbound at the end. *)
Lemma C2_counterexample :
  fsi_loop (Doubles.scripted Doubles.oscillating 1 1 (1 # 2) (1 # 2))
           (Doubles.primal_parameters 0)
           (initial_state (Doubles.scripted Doubles.oscillating 1 1 (1 # 2) (1 # 2))
                          (Doubles.primal_parameters 0) 0%nat)
  = Exhausted (initial_state (Doubles.scripted Doubles.oscillating 1 1 (1 # 2) (1 # 2))
                             (Doubles.primal_parameters 0) 0%nat)
  /\ match solve_primal (Doubles.scripted Doubles.oscillating 1 1 (1 # 2) (1 # 2))
                        (Doubles.primal_parameters 0) 5 0%nat 1 with
     | Raised UnboundLocalError s' =>
       passes (trace s') = [] /\ timestep_counter s' = 2%nat
     | _ => False
     end.
Proof. split; vm_compute; [reflexivity|split; reflexivity]. Qed.

(** The structure solver returns the displacement [1], at distance 1
    from the zero snapshot, for the tolerance 1/2. *)
Lemma C8_witness :
  exists s',
    fsi_loop (Doubles.scripted (Doubles.steady 1) 1 1 (1 # 2) (1 # 2))
             (Doubles.primal_parameters 5)
             (record (StartTimeStep 0 (1 # 2) (1 # 2) false)
                (entry_state (Doubles.scripted (Doubles.steady 1) 1 1 (1 # 2) (1 # 2))
                             (1 # 2) 0%nat))
    = Broke s'
    /\ passes (trace s') = [0; 1]%Z
    /\ fsi_iterations (trace s') = [2%Z]
    /\ U_S0 s' = [1].
Proof.
  destruct (C8_first_time_step_takes_two_passes
              (Doubles.scripted (Doubles.steady 1) 1 1 (1 # 2) (1 # 2))
              (Doubles.primal_parameters 5) (1 # 2) 0%nat [1])
    as (s' & Hloop & _ & Hp & Hit & Hsnap).
  - cbn. lia.
  - reflexivity.
  - intros v Hv. cbn. induction Hv as [|x v Hx _ IH]; cbn; [reflexivity|].
    rewrite Hx, IH. reflexivity.
  - reflexivity.
  - vm_compute. discriminate.
  - exists s'. repeat split; assumption.
Defined.

(** All solvers return the same values whatever they are given, the
    structure solver the displacement [1]; the tolerance 1/2 is positive.
    The snapshot enters the first time step as the zero vector, and the
    fixed-point iteration of that step makes two passes. *)
Lemma C8_counterexample :
  (forall d ph,
     vector (Doubles.scripted (Doubles.steady 1) 1 1 (1 # 2) (1 # 2))
            (fst (snd (S_step (Doubles.scripted (Doubles.steady 1) 1 1 (1 # 2) (1 # 2))
                              d ph))) = [1])
  /\ U_S0 (initial_state (Doubles.scripted (Doubles.steady 1) 1 1 (1 # 2) (1 # 2))
                         (Doubles.primal_parameters 5) 0%nat) = [0]
  /\ match fsi_loop (Doubles.scripted (Doubles.steady 1) 1 1 (1 # 2) (1 # 2))
                    (Doubles.primal_parameters 5)
                    (record (StartTimeStep 0 (1 # 2) (1 # 2) false)
                       (initial_state (Doubles.scripted (Doubles.steady 1) 1 1 (1 # 2) (1 # 2))
                                      (Doubles.primal_parameters 5) 0%nat)) with
     | Broke s' => passes (trace s') = [0; 1]%Z /\ fsi_iterations (trace s') = [2%Z]
     | _ => False
     end.
Proof.
  split; [intros; reflexivity|]. split; [reflexivity|].
  vm_compute. split; reflexivity.
Qed.

End CouplingProps.

(** ** The primal solver: time stepping *)

Module TimeLoopProps.

Import PrimalSolver CouplingProps.

Section TimeLoop.

Context {Phys Field : Type}.
Variable C : Collaborators Phys Field.
Variable parameters : Parameters.

(** However the fixed-point iteration of a time step ends, it leaves the
    clock and the list of time steps alone; when it converges, the goal
    functional is integrated once by the trapezoidal rule, and otherwise
    the accumulator is left alone. *)
Lemma for_each_frame (itertol : Q) (its : list Z) :
  forall s : State Phys Field,
    match for_each its (fsi_iteration C parameters itertol) s with
    | Exhausted s' | Failed _ s' =>
      same_clock s s' /\ same_goal s s' /\
      time_steps (trace s') = time_steps (trace s)
    | Broke s' =>
      same_clock s s' /\ time_steps (trace s') = time_steps (trace s) /\
      exists a b c d e ph,
        let gf := evaluate_functional C a b c d e (t0 s) (t1 s) ph in
        integrated_goal_functional s'
          = integrated_goal_functional s
            + (1 # 2) * dt s * (old_goal_functional s + gf)
        /\ old_goal_functional s' = gf
        /\ goal_functional s' = Some gf
    end.
Proof.
  induction its as [|iter its IH]; intros s; cbn [for_each].
  - unfold same_clock, same_goal. repeat split; reflexivity.
  - unfold fsi_iteration.
    destruct (fsi_pass_frame C parameters iter s)
      as ((c1 & c2 & c3 & c4 & c5) & (g1 & g2 & g3) & Htr & _).
    destruct (Qltb (increment (fsi_pass C parameters iter s)) itertol).
    + unfold converged, same_clock.
      cbn [record t0 t1 dt at_end timestep_counter integrated_goal_functional
           old_goal_functional goal_functional trace phys U_M].
      rewrite !time_steps_app, Htr, time_steps_app, c1, c2, c3, c4, c5, g1, g2.
      cbn. rewrite !app_nil_r.
      repeat split. do 6 eexists. repeat split.
    + destruct (Z.eqb iter (maximum_iterations parameters - 1)).
      * unfold same_clock, same_goal.
        rewrite Htr, time_steps_app, c1, c2, c3, c4, c5, g1, g2, g3.
        cbn. rewrite app_nil_r. repeat split.
      * specialize (IH (record (LogIncrement (increment (fsi_pass C parameters iter s))
                                  itertol (iter + 1))
                               (pass_state (fsi_pass C parameters iter s)))).
        destruct (for_each its _ _) as [s'|s'|e s'];
          cbn [record t0 t1 dt at_end timestep_counter integrated_goal_functional
               old_goal_functional goal_functional trace] in IH;
          unfold same_clock, same_goal in *;
          cbn [record t0 t1 dt at_end timestep_counter integrated_goal_functional
               old_goal_functional goal_functional trace] in IH;
          rewrite time_steps_app, Htr, time_steps_app in IH; cbn in IH;
          rewrite !app_nil_r in IH.
        -- destruct IH as ((d1 & d2 & d3 & d4 & d5) & (h1 & h2 & h3) & Hts).
           repeat split; congruence.
        -- destruct IH as ((d1 & d2 & d3 & d4 & d5) & Hts & IH).
           rewrite c1, c2, c3, g1, g2 in IH.
           split; [repeat split; congruence|]. split; [congruence|]. exact IH.
        -- destruct IH as ((d1 & d2 & d3 & d4 & d5) & (h1 & h2 & h3) & Hts).
           repeat split; congruence.
Qed.






End TimeLoop.



Lemma inject_Z_S (k : nat) : inject_Z (Z.of_nat (S k)) == inject_Z (Z.of_nat k) + 1.
Proof. rewrite Nat2Z.inj_succ, <- Z.add_1_r, inject_Z_plus. reflexivity. Qed.

Lemma inject_Z_nat_le (a b : nat) :
  (a <= b)%nat -> inject_Z (Z.of_nat a) <= inject_Z (Z.of_nat b).
Proof. intros H. rewrite <- Zle_Qle. lia. Qed.

End TimeLoopProps.

(** ** The Mesh -> Fluid transfer *)

Module SubproblemsProps.

Import Subproblems.

Lemma for_range_ext {A : Type} (f g : nat -> A -> option A) (its : list nat) :
  (forall i a, f i a = g i a) ->
  forall a, for_range its f a = for_range its g a.
Proof.
  intros Hfg. induction its as [|i its IH]; intros a; cbn; [reflexivity|].
  rewrite Hfg. destruct (g i a); cbn; [apply IH|reflexivity].
Qed.

(** A loop over [seq start n] that keeps an invariant indexed by the
    number of the next pass. *)
Lemma for_range_invariant {A : Type} (body : nat -> A -> option A)
  (Inv : nat -> A -> Prop) (n : nat) :
  forall (start : nat) (a : A),
    Inv start a ->
    (forall k a, (start <= k < start + n)%nat -> Inv k a ->
       exists a', body k a = Some a' /\ Inv (S k) a') ->
    exists a', for_range (seq start n) body a = Some a' /\ Inv (start + n)%nat a'.
Proof.
  induction n as [|n IH]; intros start a Ha Hstep.
  - exists a. rewrite Nat.add_0_r. split; [reflexivity|exact Ha].
  - cbn [seq for_range].
    destruct (Hstep start a ltac:(lia) Ha) as (a1 & Hbody & Ha1).
    rewrite Hbody. cbn.
    destruct (IH (S start) a1 Ha1) as (a' & Hloop & Ha').
    + intros k b Hk Hb. apply Hstep; [lia|exact Hb].
    + exists a'. split; [exact Hloop|].
      replace (start + S n)%nat with (S start + n)%nat by lia. exact Ha'.
Qed.

(** Two nested loops that write the value [val i j] into cell [(i, j)]
    of a store, for every [i < N] and [j < d]. *)
Section Grid.

Variables (Store : Type) (valid : Store -> Prop).
Variable get : Store -> nat -> nat -> option Q.
Variable set : nat -> nat -> Q -> Store -> option Store.
Variable val : nat -> nat -> option Q.
Variables N d : nat.

Hypothesis set_spec :
  forall s i j v, valid s -> (i < N)%nat -> (j < d)%nat ->
    exists s', set i j v s = Some s' /\ valid s' /\ get s' i j = Some v /\
      forall i' j', (i' < N)%nat -> (j' < d)%nat -> (i', j') <> (i, j) ->
        get s' i' j' = get s i' j'.
Hypothesis val_defined :
  forall i j, (i < N)%nat -> (j < d)%nat -> is_Some (val i j).

Lemma fill_row_spec (i : nat) (s : Store) :
  valid s -> (i < N)%nat ->
  exists s', fill_row set val d i s = Some s' /\ valid s' /\
    (forall j, (j < d)%nat -> get s' i j = val i j) /\
    (forall i' j, (i' < N)%nat -> (j < d)%nat -> i' <> i -> get s' i' j = get s i' j).
Proof.
  intros Hs Hi. unfold fill_row.
  destruct (for_range_invariant (fun j s => v ← val i j; set i j v s)
              (fun k s' => valid s' /\
                 (forall j, (j < k)%nat -> get s' i j = val i j) /\
                 (forall i' j, (i' < N)%nat -> (j < d)%nat -> i' <> i ->
                    get s' i' j = get s i' j))
              d 0%nat s) as (s' & Hloop & Hv & Hrow & Hother).
  - split; [exact Hs|]. split; [intros j Hj; lia|reflexivity].
  - intros k a Hk (Ha & Hrow & Hother).
    destruct (val_defined i k Hi ltac:(lia)) as [v Hv]. rewrite Hv. cbn.
    destruct (set_spec a i k v Ha Hi ltac:(lia)) as (a' & Hset & Ha' & Hget & Hframe).
    exists a'. split; [exact Hset|]. split; [exact Ha'|]. split.
    + intros j Hj. destruct (decide (j = k)) as [->|Hne]; [congruence|].
      rewrite Hframe; [apply Hrow; lia|exact Hi|lia|congruence].
    + intros i' j Hi' Hj Hne. rewrite Hframe; [auto|exact Hi'|exact Hj|congruence].
  - exists s'. split; [exact Hloop|]. split; [exact Hv|]. split; [|exact Hother].
    intros j Hj. apply Hrow. lia.
Qed.

Lemma fill_spec (s : Store) :
  valid s ->
  exists s', for_range (seq 0 N) (fill_row set val d) s = Some s' /\ valid s' /\
    forall i j, (i < N)%nat -> (j < d)%nat -> get s' i j = val i j.
Proof.
  intros Hs.
  destruct (for_range_invariant (fill_row set val d)
              (fun k s' => valid s' /\
                 forall i j, (i < k)%nat -> (j < d)%nat -> get s' i j = val i j)
              N 0%nat s) as (s' & Hloop & Hv & Hall).
  - split; [exact Hs|]. intros i j Hi. lia.
  - intros k a Hk (Ha & Hdone).
    destruct (fill_row_spec k a Ha ltac:(lia)) as (a' & Hrow & Ha' & Hnew & Hold).
    exists a'. split; [exact Hrow|]. split; [exact Ha'|].
    intros i j Hi Hj. destruct (decide (i = k)) as [->|Hne]; [apply Hnew; exact Hj|].
    rewrite Hold; [apply Hdone; [lia|exact Hj]|lia|exact Hj|exact Hne].
  - exists s'. split; [exact Hloop|]. split; [exact Hv|].
    intros i j Hi Hj. apply Hall; [lia|exact Hj].
Qed.

End Grid.

Lemma cell_index_lt (N d i j : nat) : (i < N)%nat -> (j < d)%nat -> (j * N + i < d * N)%nat.
Proof. intros Hi Hj. nia. Qed.

Lemma cell_index_inj (N i j i' j' : nat) :
  (i < N)%nat -> (i' < N)%nat -> (j' * N + i' = j * N + i)%nat -> i' = i /\ j' = j.
Proof.
  intros Hi Hi' H. destruct (Nat.lt_trichotomy j j') as [Hlt|[->|Hlt]]; [nia|lia|nia].
Qed.

Lemma shaped_get2 (N d : nat) (x : Coordinates) (i j : nat) :
  shaped N d x -> (i < N)%nat -> (j < d)%nat -> is_Some (get2 x i j).
Proof.
  intros [Hlen Hrows] Hi Hj. unfold get2.
  destruct (lookup_lt_is_Some_2 x i ltac:(lia)) as [row Hrow]. rewrite Hrow. cbn.
  apply lookup_lt_is_Some_2.
  rewrite Forall_lookup in Hrows. rewrite (Hrows i row Hrow). exact Hj.
Qed.

(** [x[i][j] = v] on an array of [N] rows and [d] columns. *)
Lemma set2_spec (N d : nat) (x : Coordinates) (i j : nat) (v : Q) :
  shaped N d x -> (i < N)%nat -> (j < d)%nat ->
  exists x', set2 x i j v = Some x' /\ shaped N d x' /\ get2 x' i j = Some v /\
    forall i' j', (i' < N)%nat -> (j' < d)%nat -> (i', j') <> (i, j) ->
      get2 x' i' j' = get2 x i' j'.
Proof.
  intros [Hlen Hrows] Hi Hj. unfold set2.
  destruct (lookup_lt_is_Some_2 x i ltac:(lia)) as [row Hrow]. rewrite Hrow. cbn.
  assert (Hrowlen : length row = d).
  { rewrite Forall_lookup in Hrows. exact (Hrows i row Hrow). }
  destruct (lookup_lt_is_Some_2 row j ltac:(lia)) as [old Hold]. rewrite Hold. cbn.
  eexists. split; [reflexivity|]. split; [|split].
  - split; [rewrite length_insert; exact Hlen|].
    apply Forall_insert; [exact Hrows|rewrite length_insert; exact Hrowlen].
  - unfold get2. rewrite list_lookup_insert_eq by lia. cbn.
    apply list_lookup_insert_eq. lia.
  - intros i' j' Hi' Hj' Hne. unfold get2.
    destruct (decide (i' = i)) as [->|Hi_ne].
    + rewrite list_lookup_insert_eq by lia. rewrite Hrow. cbn.
      apply list_lookup_insert_ne. congruence.
    + rewrite list_lookup_insert_ne by congruence. reflexivity.
Qed.

(** [wx[j*N + i] = v] on a vector with at least [d * N] entries. *)
Lemma set1_spec (N d L : nat) (wx : list Q) (i j : nat) (v : Q) :
  (d * N <= L)%nat ->
  length wx = L -> (i < N)%nat -> (j < d)%nat ->
  exists wx', set1 wx (j * N + i) v = Some wx' /\ length wx' = L /\
    wx' !! (j * N + i)%nat = Some v /\
    forall i' j', (i' < N)%nat -> (j' < d)%nat -> (i', j') <> (i, j) ->
      wx' !! (j' * N + i')%nat = wx !! (j' * N + i')%nat.
Proof.
  intros HL Hlen Hi Hj. unfold set1.
  pose proof (cell_index_lt N d i j Hi Hj) as Hidx.
  destruct (lookup_lt_is_Some_2 wx (j * N + i) ltac:(lia)) as [old Hold].
  rewrite Hold. cbn.
  eexists. split; [reflexivity|]. split; [rewrite length_insert; exact Hlen|]. split.
  - apply list_lookup_insert_eq. lia.
  - intros i' j' Hi' Hj' Hne. apply list_lookup_insert_ne.
    intros E. symmetry in E. destruct (cell_index_inj N i j i' j' Hi Hi' E). congruence.
Qed.

Section Transfer.

Variable smooth : Z -> Coordinates -> Coordinates.

Lemma deform_spec (X : Coordinates) (dofs : list Q) (N d : nat) (x1 : Coordinates) :
  shaped N d X -> shaped N d x1 -> (d * N <= length dofs)%nat ->
  exists x1', deform X dofs N d x1 = Some x1' /\ shaped N d x1' /\
    forall i j, (i < N)%nat -> (j < d)%nat -> get2 x1' i j = displaced X dofs N i j.
Proof.
  intros HX Hx1 Hdofs.
  destruct (fill_spec Coordinates (shaped N d) get2 (fun i j v x => set2 x i j v)
              (displaced X dofs N) N d) with (s := x1) as (x1' & Hloop & Hshape & Hall).
  - intros s i j v Hs Hi Hj. apply set2_spec; assumption.
  - intros i j Hi Hj. unfold displaced.
    destruct (shaped_get2 N d X i j HX Hi Hj) as [a Ha]. rewrite Ha. cbn.
    pose proof (cell_index_lt N d i j Hi Hj).
    destruct (lookup_lt_is_Some_2 dofs (j * N + i) ltac:(lia)) as [u Hu].
    rewrite Hu. cbn. eauto.
  - exact Hx1.
  - exists x1'. split; [|split; assumption].
    rewrite <- Hloop. unfold deform. apply for_range_ext. intros i a.
    unfold fill_row. apply for_range_ext. intros j b. unfold displaced.
    destruct (get2 X i j); cbn; [|reflexivity].
    destruct (dofs !! (j * N + i)%nat); reflexivity.
Qed.

Lemma mesh_velocity_values_spec
  (x0 x1 : Coordinates) (dt : Q) (N d : nat) (wx : list Q) :
  shaped N d x0 -> shaped N d x1 -> (d * N <= length wx)%nat ->
  exists wx', mesh_velocity_values x0 x1 dt N d wx = Some wx' /\
    length wx' = length wx /\
    forall i j, (i < N)%nat -> (j < d)%nat ->
      wx' !! (j * N + i)%nat = velocity x0 x1 dt i j.
Proof.
  intros Hx0 Hx1 Hlen.
  destruct (fill_spec (list Q) (fun l => length l = length wx)
              (fun l i j => l !! (j * N + i)%nat)
              (fun i j v l => set1 l (j * N + i) v)
              (velocity x0 x1 dt) N d) with (s := wx) as (wx' & Hloop & Hl & Hall).
  - intros s i j v Hs Hi Hj. apply (set1_spec N d (length wx)); assumption.
  - intros i j Hi Hj. unfold velocity.
    destruct (shaped_get2 N d x1 i j Hx1 Hi Hj) as [a Ha]. rewrite Ha. cbn.
    destruct (shaped_get2 N d x0 i j Hx0 Hi Hj) as [b Hb]. rewrite Hb. cbn. eauto.
  - reflexivity.
  - exists wx'. split; [|split; assumption].
    rewrite <- Hloop. unfold mesh_velocity_values. apply for_range_ext. intros i a.
    unfold fill_row. apply for_range_ext. intros j b. unfold velocity.
    destruct (get2 x1 i j); cbn; [|reflexivity].
    destruct (get2 x0 i j); reflexivity.
Qed.

(** C9.  On a fluid problem whose three coordinate arrays have one row
    per vertex and [dim] columns, and whose displacement and velocity
    vectors have an entry per vertex and dimension, with a smoother that
    keeps that shape and a positive [dt], the transfer returns, and:
    the current mesh is first set to reference coordinates plus
    displacement ([deformed]), then smoothed with [num_smoothings]; the
    mesh velocity entry of every vertex and dimension is the smoothed new
    coordinate minus the coordinate of the last committed step, over
    [dt]; the reference and committed coordinates are left alone; the
    calls made are [smooth] and then, last, [reassemble]; and
    [update_extra] afterwards commits the new coordinates. *)
Theorem C9_mesh_to_fluid_transfer
  (dofs : list Q) (dt : Q) (num_smoothings : Z) (fp : FluidProblem) :
  let N := length (omega_F1 fp) in
  let d := dim fp in
  shaped N d (Omega_F fp) -> shaped N d (omega_F0 fp) -> shaped N d (omega_F1 fp) ->
  (d * N <= length dofs)%nat -> (d * N <= length (w fp))%nat ->
  (forall n x, shaped N d x -> shaped N d (smooth n x)) ->
  0 < dt ->
  exists deformed fp',
    update_mesh_displacement smooth dofs dt num_smoothings fp = Some fp'
    /\ shaped N d deformed
    /\ (forall i j, (i < N)%nat -> (j < d)%nat ->
          exists a u,
            get2 (Omega_F fp) i j = Some a /\ dofs !! (j * N + i)%nat = Some u /\
            get2 deformed i j = Some (a + u))
    /\ omega_F1 fp' = smooth num_smoothings deformed
    /\ (forall i j, (i < N)%nat -> (j < d)%nat ->
          exists a b,
            get2 (omega_F1 fp') i j = Some a /\ get2 (omega_F0 fp) i j = Some b /\
            w fp' !! (j * N + i)%nat = Some ((a - b) / dt))
    /\ length (w fp') = length (w fp)
    /\ Omega_F fp' = Omega_F fp
    /\ omega_F0 fp' = omega_F0 fp
    /\ dim fp' = dim fp
    /\ calls fp' = calls fp ++ [MeshSmooth num_smoothings; SolverReassemble]
    /\ omega_F0 (update_extra fp') = omega_F1 fp'.
Proof.
  intros N d HX Hx0 Hx1 Hdofs Hw Hsmooth Hdt.
  destruct (deform_spec (Omega_F fp) dofs N d (omega_F1 fp) HX Hx1 Hdofs)
    as (deformed & Hdeform & Hshape & Hcells).
  destruct (mesh_velocity_values_spec (omega_F0 fp) (smooth num_smoothings deformed)
              dt N d (w fp) Hx0 (Hsmooth _ _ Hshape) Hw)
    as (wx & Hvel & Hlen & Hvels).
  exists deformed. eexists.
  split.
  { unfold update_mesh_displacement. fold N. fold d. rewrite Hdeform. cbn.
    rewrite Hvel. cbn. reflexivity. }
  cbn [omega_F1 omega_F0 Omega_F w dim calls update_extra].
  split; [exact Hshape|]. split.
  { intros i j Hi Hj. specialize (Hcells i j Hi Hj). unfold displaced in Hcells.
    destruct (shaped_get2 N d (Omega_F fp) i j HX Hi Hj) as [a Ha]. rewrite Ha in Hcells.
    pose proof (cell_index_lt N d i j Hi Hj).
    destruct (lookup_lt_is_Some_2 dofs (j * N + i) ltac:(lia)) as [u Hu].
    rewrite Hu in Hcells. cbn in Hcells. exists a, u. auto. }
  split; [reflexivity|]. split.
  { intros i j Hi Hj. specialize (Hvels i j Hi Hj). unfold velocity in Hvels.
    destruct (shaped_get2 N d _ i j (Hsmooth num_smoothings _ Hshape) Hi Hj) as [a Ha].
    rewrite Ha in Hvels.
    destruct (shaped_get2 N d (omega_F0 fp) i j Hx0 Hi Hj) as [b Hb].
    rewrite Hb in Hvels. cbn in Hvels. exists a, b. auto. }
  repeat split; try reflexivity. exact Hlen.
Qed.

End Transfer.

(** The two vertices are displaced by (1, 3) and (2, 4) in a step of 1/2. *)
Lemma C9_witness :
  exists deformed fp',
    update_mesh_displacement Doubles.no_smoothing [1; 2; 3; 4] (1 # 2) 3
                             Doubles.two_vertices = Some fp'
    /\ omega_F1 fp' = Doubles.no_smoothing 3 deformed
    /\ length (w fp') = 4%nat
    /\ calls fp' = [MeshSmooth 3; SolverReassemble]
    /\ omega_F0 (update_extra fp') = omega_F1 fp'.
Proof.
  assert (Hshape : shaped 2 2 [[0; 0]; [1; 0]])
    by (split; [reflexivity|repeat constructor]).
  destruct (C9_mesh_to_fluid_transfer Doubles.no_smoothing [1; 2; 3; 4] (1 # 2) 3
              Doubles.two_vertices Hshape Hshape Hshape)
    as (deformed & fp' & Hrun & _ & _ & Hx1 & _ & Hlen & _ & _ & _ & Hcalls & Hextra).
  - cbn. lia.
  - cbn. lia.
  - intros n x Hx. exact Hx.
  - reflexivity.
  - exists deformed, fp'. repeat split; assumption.
Defined.

End SubproblemsProps.

(** ** The adaptive loop: exceptions, termination and bookkeeping *)

Module FSISolverRuns.

Import FSISolver FSISolverObservations FSISolverProps.

Section Runs.

Context {Problem Mesh Indicators : Type}.
Variable C : Collaborators Problem Mesh Indicators.
Variable parameters : Parameters.

Lemma none_of_refinement_kinds (t : list (Event Mesh Indicators)) :
  none_of touches_mesh t ->
  none_of is_uniform_refinement t /\ none_of is_indicator_refinement t
  /\ count is_save_mesh t = 0%nat.
Proof.
  unfold none_of, touches_mesh, count.
  induction 1 as [|e t He _ (IH1 & IH2 & IH3)]; [repeat split; constructor|].
  destruct e; cbn in He; try discriminate; cbn;
    (split; [constructor; [reflexivity|exact IH1]|
             split; [constructor; [reflexivity|exact IH2]|exact IH3]]).
Qed.

(** The events of lines 50-73, counted. *)
Lemma solves_events (l l1 : Locals Indicators) (s s1 : State Problem Mesh Indicators)
  (error : Q) :
  solves C parameters l s = (l1, s1, error) ->
  exists new,
    trace s1 = trace s ++ new /\
    saved s1 = saved s /\
    none_of touches_mesh new /\
    count is_primal_solve new
      = (if solve_primal_enabled parameters then 1 else 0)%nat /\
    count is_estimate_error new
      = (if estimate_error_enabled parameters then 1 else 0)%nat /\
    (if estimate_error_enabled parameters
     then exists eh ind pbx,
            E_h l1 = Some eh /\ indicators l1 = Some ind /\
            error = fst (fst (fst (snd (estimate_error C pbx parameters))))
     else error = 0 /\ E_h l1 = E_h l /\ indicators l1 = indicators l).
Proof.
  unfold solves, primal_block, dual_block, estimate_block.
  destruct (solve_primal_enabled parameters);
    [destruct (solve_primal C (problem s) parameters (ST l)) as [pb gf]|];
    destruct (solve_dual_enabled parameters);
    (destruct (estimate_error_enabled parameters);
     [match goal with |- context [estimate_error C ?p ?q] =>
        destruct (estimate_error C p q) as [pb' [[[e ind] st] eh]] eqn:Hee end|]);
    intros [= <- <- <-]; cbn;
    eexists; (split; [rewrite <- ?app_assoc; reflexivity|]);
    (split; [reflexivity|]);
    (split; [repeat constructor|]);
    (split; [reflexivity|]);
    (split; [reflexivity|]); cbn; auto;
    do 3 eexists; (split; [reflexivity|]); (split; [reflexivity|]);
    rewrite Hee; reflexivity.
Qed.

(** Whenever lines 84-107 reach [save_mesh]: the locals are as before,
    one more mesh is persisted, no primal solve and no error estimation
    takes place, and uniform refinement is chosen only for a pure
    convergence test. *)
Lemma mesh_block_continue (l l' : Locals Indicators) (s s' : State Problem Mesh Indicators) :
  mesh_block C parameters l s = Continue l' s' ->
  l' = l /\
  exists more,
    trace s' = trace s ++ more
    /\ length (saved s') = S (length (saved s))
    /\ count is_save_mesh more = 1%nat
    /\ none_of is_primal_solve more
    /\ none_of is_estimate_error more
    /\ (convergence_test C (problem s) && negb (problem_estimate_error C (problem s))
        = false -> none_of is_uniform_refinement more)
    /\ (convergence_test C (problem s) && negb (problem_estimate_error C (problem s))
        = true -> none_of is_indicator_refinement more).
Proof.
  unfold mesh_block, update_and_save, save_mesh.
  destruct (E_h l) as [eh|]; [|discriminate].
  destruct (Qle_bool (Float.fl (float C) eh) _).
  - intros [= <- <-]. split; [reflexivity|].
    exists [Log info_blue (FreezingCurrentMesh eh
                             (Float.fl (float C)
                                (w_h parameters * tolerance parameters)));
            CallSaveMesh (problem_mesh C (problem s))].
    cbn [record trace saved problem].
    split; [rewrite <- app_assoc; reflexivity|].
    split; [rewrite length_app; cbn; lia|].
    split; [reflexivity|]. repeat split; intros; repeat constructor.
  - cbn [record problem].
    destruct (convergence_test C (problem s) && _) eqn:Hpure.
    + intros [= <- <-]. split; [reflexivity|].
      exists [Log info_red RefiningMesh;
              CallRefine (problem_mesh C (problem s));
              CallInitMeshes (refine C (problem_mesh C (problem s)));
              CallSaveMesh (refine C (problem_mesh C (problem s)))].
      cbn [record trace saved problem with_problem].
      split; [rewrite <- !app_assoc; reflexivity|].
      split; [rewrite length_app; cbn; lia|].
      split; [reflexivity|].
      repeat split; intros; try discriminate; repeat constructor.
    + destruct (indicators l) as [ind|]; [|discriminate].
      intros [= <- <-]. split; [reflexivity|].
      exists [Log info_red RefiningMesh;
              CallRefineMesh (problem_mesh C (problem s)) ind;
              CallInitMeshes
                (refine_mesh C (problem s) (problem_mesh C (problem s)) ind);
              CallSaveMesh
                (refine_mesh C (problem s) (problem_mesh C (problem s)) ind)].
      cbn [record trace saved problem with_problem].
      split; [rewrite <- !app_assoc; reflexivity|].
      split; [rewrite length_app; cbn; lia|].
      split; [reflexivity|].
      repeat split; intros; try discriminate; repeat constructor.
Qed.

Lemma mesh_block_bound (l : Locals Indicators) (s : State Problem Mesh Indicators)
  (eh : Q) (ind : Indicators) :
  E_h l = Some eh -> indicators l = Some ind ->
  exists s', mesh_block C parameters l s = Continue l s'.
Proof.
  intros HEh Hind. unfold mesh_block, update_and_save. rewrite HEh, Hind.
  destruct (Qle_bool (Float.fl (float C) eh) _); [eexists; reflexivity|].
  destruct (_ && _); eexists; reflexivity.
Qed.

(** When lines 84-107 raise, they have only logged. *)
Lemma mesh_block_raise (l : Locals Indicators) (s s' : State Problem Mesh Indicators)
  (e : Exn) :
  mesh_block C parameters l s = Raise e s' ->
  saved s' = saved s /\
  exists more, trace s' = trace s ++ more /\ none_of touches_mesh more /\
    ((e = UnboundLocalError name_E_h /\ E_h l = None)
     \/ (e = UnboundLocalError name_indicators /\ indicators l = None)).
Proof.
  unfold mesh_block, update_and_save.
  destruct (E_h l) as [eh|].
  - destruct (Qle_bool (Float.fl (float C) eh) _); [discriminate|].
    destruct (_ && _); [discriminate|].
    destruct (indicators l) as [ind|]; [discriminate|].
    intros [= <- <-]. split; [reflexivity|].
    exists [Log info_red RefiningMesh]. cbn. repeat split; auto; repeat constructor.
  - intros [= <- <-]. split; [reflexivity|].
    exists []. rewrite app_nil_r. repeat split; auto; constructor.
Qed.


(** With error estimation enabled no iteration raises. *)
Lemma loop_with_estimate_never_raises (fuel : nat) :
  estimate_error_enabled parameters = true ->
  forall (l : Locals Indicators) (s s' : State Problem Mesh Indicators) (e : Exn),
    adaptive_loop C parameters fuel l s <> Raised e s'.
Proof.
  intros Hest. induction fuel as [|fuel IH]; intros l s s' e; [discriminate|].
  cbn [adaptive_loop]. unfold iteration.
  destruct (solves C parameters l s) as [[l1 s1] error] eqn:Hsolves.
  destruct (solves_events _ _ _ _ _ Hsolves) as (new & _ & _ & _ & _ & _ & Hbound).
  rewrite Hest in Hbound. destruct Hbound as (eh & ind & _ & HEh & Hind & _).
  unfold check_error. destruct (Qle_bool error _); [discriminate|].
  destruct (mesh_block_bound l1
              (record (Log info_red (ErrorTooLarge error (tolerance parameters))) s1)
              eh ind HEh Hind) as (s2 & Hmb).
  rewrite Hmb. apply IH.
Qed.

(** X2.  The only exception [solve] itself can raise is the one of X1:
    whenever a run raises, error estimation is disabled, the tolerance is
    negative, the name read unbound is [E_h] (never [indicators]), and
    nothing has been refined or persisted. *)
Theorem X2_only_exception_is_unbound_E_h
  (pb : Problem) (fuel : nat) (e : Exn) (s' : State Problem Mesh Indicators) :
  solve C parameters fuel pb = Raised e s' ->
  e = UnboundLocalError name_E_h
  /\ estimate_error_enabled parameters = false
  /\ tolerance parameters < 0
  /\ saved s' = []
  /\ none_of touches_mesh (trace s').
Proof.
  destruct (estimate_error_enabled parameters) eqn:Hest.
  - intros H. exfalso. exact (loop_with_estimate_never_raises fuel Hest _ _ _ _ H).
  - unfold solve. destruct fuel as [|fuel]; [discriminate|].
    cbn [adaptive_loop]. unfold iteration.
    destruct (solves C parameters initial_locals (initial_state pb))
      as [[l1 s1] error] eqn:Hsolves.
    destruct (solves_events _ _ _ _ _ Hsolves) as (new & Htr & Hsv & Hnone & _ & _ & Hno).
    rewrite Hest in Hno. destruct Hno as (-> & HEh & _).
    unfold check_error. destruct (Qle_bool 0 (tolerance parameters)) eqn:Hle;
      [discriminate|].
    assert (Htol : tolerance parameters < 0).
    { destruct (Qlt_le_dec (tolerance parameters) 0) as [H|H]; [exact H|].
      apply Qle_bool_iff in H. congruence. }
    unfold mesh_block. cbn [record E_h]. rewrite HEh. cbn [initial_locals E_h].
    intros [= <- <-]. cbn [record saved trace]. rewrite Hsv, Htr. cbn.
    repeat split; try assumption.
    apply none_of_app. split; [exact Hnone|repeat constructor].
Qed.

(** A run that returns after [k] iterations that went on has persisted
    [k] meshes and made [k + 1] primal solves and error estimations,
    where these are enabled. *)
Lemma loop_counts (fuel : nat) :
  forall (l : Locals Indicators) (s s' : State Problem Mesh Indicators) (gf : option Q),
    adaptive_loop C parameters fuel l s = Returned gf s' ->
    exists k : nat,
      length (saved s') = (length (saved s) + k)%nat
      /\ count is_primal_solve (trace s')
         = (count is_primal_solve (trace s)
            + if solve_primal_enabled parameters then S k else 0)%nat
      /\ count is_estimate_error (trace s')
         = (count is_estimate_error (trace s)
            + if estimate_error_enabled parameters then S k else 0)%nat.
Proof.
  induction fuel as [|fuel IH]; intros l s s' gf; [discriminate|].
  cbn [adaptive_loop]. unfold iteration.
  destruct (solves C parameters l s) as [[l1 s1] error] eqn:Hsolves.
  destruct (solves_events _ _ _ _ _ Hsolves) as (new & Htr & Hsv & _ & Hp & He & _).
  unfold check_error. destruct (Qle_bool error _).
  - intros [= <- <-]. exists 0%nat. cbn [record saved trace].
    rewrite Hsv, Htr, !count_app, Hp, He. cbn.
    destruct (solve_primal_enabled parameters), (estimate_error_enabled parameters); lia.
  - destruct (mesh_block C parameters l1 _) as [l2 s2|l2 s2|e s2] eqn:Hmb;
      [exfalso; exact (mesh_block_no_break _ _ _ _ _ _ Hmb)| |discriminate].
    apply mesh_block_continue in Hmb as (-> & more & Hmore & Hlen & _ & Hnp & Hne & _).
    intros Hrun. destruct (IH _ _ _ _ Hrun) as (k & Hk1 & Hk2 & Hk3).
    exists (S k). cbn [record saved trace] in Hmore, Hlen.
    rewrite Hk1, Hk2, Hk3, Hmore, Hlen, Hsv, Htr, !count_app, Hp, He.
    rewrite (none_of_count _ _ Hnp), (none_of_count _ _ Hne). cbn.
    destruct (solve_primal_enabled parameters), (estimate_error_enabled parameters); lia.
Qed.

(** X3.  Whenever a run returns, it has made one primal solve and one
    error estimation more than it has persisted meshes, each where
    enabled: every iteration solves and estimates once, and every
    iteration but the last persists one mesh. *)
Theorem X3_one_solve_per_iteration
  (pb : Problem) (fuel : nat) (gf : option Q) (s' : State Problem Mesh Indicators) :
  solve C parameters fuel pb = Returned gf s' ->
  count is_primal_solve (trace s')
    = (if solve_primal_enabled parameters then S (length (saved s')) else 0)%nat
  /\ count is_estimate_error (trace s')
     = (if estimate_error_enabled parameters then S (length (saved s')) else 0)%nat.
Proof.
  intros Hrun. destruct (loop_counts fuel _ _ _ _ Hrun) as (k & Hk1 & Hk2 & Hk3).
  cbn in Hk1, Hk2, Hk3. rewrite Hk1, Hk2, Hk3. split; reflexivity.
Qed.



(** The refinements of a run from any state follow the policy of line 95. *)
Lemma loop_refinement_policy (fuel : nat) :
  forall (l : Locals Indicators) (s : State Problem Mesh Indicators),
    let t := trace (outcome_state (adaptive_loop C parameters fuel l s)) in
    ((forall pb, convergence_test C pb && negb (problem_estimate_error C pb) = false) ->
     none_of is_uniform_refinement (trace s) -> none_of is_uniform_refinement t)
    /\
    ((forall pb, convergence_test C pb && negb (problem_estimate_error C pb) = true) ->
     none_of is_indicator_refinement (trace s) -> none_of is_indicator_refinement t).
Proof.
  induction fuel as [|fuel IH]; intros l s; cbv zeta; [cbn; auto|].
  cbn [adaptive_loop]. unfold iteration.
  destruct (solves C parameters l s) as [[l1 s1] error] eqn:Hsolves.
  destruct (solves_events _ _ _ _ _ Hsolves) as (new & Htr & _ & Hnone & _).
  destruct (none_of_refinement_kinds _ Hnone) as (Hu & Hi & _).
  unfold check_error. destruct (Qle_bool error _).
  - cbn [outcome_state record trace]. rewrite Htr.
    split; intros _ H0; repeat (apply none_of_app; split); auto; repeat constructor.
  - destruct (mesh_block C parameters l1 _) as [l2 s2|l2 s2|e s2] eqn:Hmb.
    + exfalso. exact (mesh_block_no_break _ _ _ _ _ _ Hmb).
    + apply mesh_block_continue in Hmb
        as (-> & more & Hmore & _ & _ & _ & _ & Hpol1 & Hpol2).
      cbn [record trace problem] in Hmore, Hpol1, Hpol2.
      specialize (IH l1 s2). cbv zeta in IH. destruct IH as [IH1 IH2].
      split; intros Hpol H0; [apply IH1|apply IH2]; try exact Hpol;
        rewrite Hmore, Htr; repeat (apply none_of_app; split); auto;
        repeat constructor.
    + apply mesh_block_raise in Hmb as (_ & more & Hmore & Hmnone & _).
      destruct (none_of_refinement_kinds _ Hmnone) as (Hmu & Hmi & _).
      cbn [outcome_state]. cbn [record trace] in Hmore. rewrite Hmore, Htr.
      split; intros _ H0; repeat (apply none_of_app; split); auto; repeat constructor.
Qed.

(** X5.  Which refinement a run uses is fixed by the problem alone: if
    the problem is never a pure convergence test with its own error
    estimation off, no iteration of any run refines uniformly; if it
    always is, no iteration refines by indicators. *)
Theorem X5_refinement_policy (pb : Problem) (fuel : nat) :
  ((forall pb, convergence_test C pb && negb (problem_estimate_error C pb) = false) ->
   none_of is_uniform_refinement
     (trace (outcome_state (solve C parameters fuel pb))))
  /\
  ((forall pb, convergence_test C pb && negb (problem_estimate_error C pb) = true) ->
   none_of is_indicator_refinement
     (trace (outcome_state (solve C parameters fuel pb)))).
Proof.
  destruct (loop_refinement_policy fuel initial_locals (initial_state pb)) as [H1 H2].
  split; intros Hpol; [apply H1|apply H2]; try exact Hpol; constructor.
Qed.

End Runs.


Lemma X2_witness :
  exists s',
    solve Doubles.refining Doubles.negative_tolerance 4 0%nat
      = Raised (UnboundLocalError name_E_h) s'
    /\ tolerance Doubles.negative_tolerance < 0
    /\ saved s' = [].
Proof.
  eexists. split; [reflexivity|].
  destruct (X2_only_exception_is_unbound_E_h Doubles.refining
              Doubles.negative_tolerance 0%nat 4%nat _ _ eq_refl)
    as (_ & _ & Htol & Hsaved & _).
  split; assumption.
Defined.

(** Tolerance 1/4 on [refining]: two refinements, then the third check
    passes. *)
Lemma X3_witness :
  length (saved (outcome_state
            (solve Doubles.refining (Doubles.all_enabled (1 # 4)) 5 0%nat))) = 2%nat
  /\ count is_primal_solve
       (trace (outcome_state
                 (solve Doubles.refining (Doubles.all_enabled (1 # 4)) 5 0%nat)))
     = S (length (saved (outcome_state
                           (solve Doubles.refining (Doubles.all_enabled (1 # 4)) 5 0%nat))))
  /\ count is_estimate_error
       (trace (outcome_state
                 (solve Doubles.refining (Doubles.all_enabled (1 # 4)) 5 0%nat)))
     = S (length (saved (outcome_state
                           (solve Doubles.refining (Doubles.all_enabled (1 # 4)) 5 0%nat)))).
Proof.
  assert (Hrun : solve Doubles.refining (Doubles.all_enabled (1 # 4)) 5 0%nat
                 = Returned (Some (2 + 2))
                     (outcome_state
                        (solve Doubles.refining (Doubles.all_enabled (1 # 4)) 5 0%nat)))
    by (vm_compute; reflexivity).
  split; [vm_compute; reflexivity|].
  exact (X3_one_solve_per_iteration Doubles.refining (Doubles.all_enabled (1 # 4))
           0%nat 5%nat _ _ Hrun).
Defined.


Lemma X5_witness :
  none_of is_uniform_refinement
    (trace (outcome_state (solve Doubles.refining (Doubles.all_enabled (1 # 4)) 5 0%nat))).
Proof.
  apply (proj1 (X5_refinement_policy Doubles.refining (Doubles.all_enabled (1 # 4))
                  0%nat 5%nat)).
  intros pb. reflexivity.
Defined.

(** *** The order of the solver calls *)

Section Order.

Context {Problem Mesh Indicators : Type}.
Variable C : Collaborators Problem Mesh Indicators.
Variable parameters : Parameters.

Lemma phases_app (t u : list (Event Mesh Indicators)) :
  phases (t ++ u) = phases t ++ phases u.
Proof. unfold phases. apply flat_map_app. Qed.







End Order.

(** *** Freezing without end *)

Section Freeze.

Context {Problem Mesh Indicators : Type}.
Variable C : Collaborators Problem Mesh Indicators.
Variable parameters : Parameters.




End Freeze.


End FSISolverRuns.

(** ** Whole runs of the primal solver *)

Module PrimalSolverRuns.

Import PrimalSolver PrimalSolverObservations CouplingProps TimeLoopProps.

Lemma quiet_observations (new : list Event) :
  forallb is_iteration_log new = true ->
  time_steps new = [] /\ fsi_iterations new = [] /\ written new = []
  /\ goal_values new = [] /\ saved_dofs new = [].
Proof.
  induction new as [|e new IH]; [repeat split|].
  cbn [forallb]. intros H. apply andb_prop in H as [He H].
  destruct (IH H) as (a & b & c & d & f).
  unfold time_steps, fsi_iterations, written, goal_values, saved_dofs in *.
  destruct e; try discriminate; cbn [flat_map]; rewrite a, b, c, d, f; repeat split.
Qed.

Lemma trapezoid_snoc (steps : list (Q * Q)) (x : Q * Q) :
  trapezoid (steps ++ [x]) = trapezoid_step (trapezoid steps) x.
Proof. unfold trapezoid. rewrite fold_left_app. reflexivity. Qed.

Lemma tiles_snoc (rs : list TimeStepRecord) (r : TimeStepRecord) :
  forall a b : Q, tiles a rs b -> r_t0 r = b -> tiles a (rs ++ [r]) (r_t1 r).
Proof.
  induction rs as [|r0 rs IH]; intros a b H Hr; cbn in *.
  - split; [congruence|reflexivity].
  - destruct H as [H0 H]. split; [exact H0|]. exact (IH _ _ H Hr).
Qed.

Section Runs.

Context {Phys Field : Type}.
Variable C : Collaborators Phys Field.
Variable parameters : Parameters.

(** The fixed-point iteration over the passes [iter .. maxiter - 1]:
    it runs out only if there is no pass to make, fails only in the last
    pass, and converges at most once. *)
Lemma for_each_zseq (itertol : Q) (k : nat) :
  forall (iter : Z) (s : State Phys Field),
    (iter + Z.of_nat k = maximum_iterations parameters)%Z ->
    match for_each (zseq iter k) (fsi_iteration C parameters itertol) s with
    | Exhausted s' => k = 0%nat /\ s' = s
    | Failed e s' =>
      e = RuntimeError (maximum_iterations parameters)
      /\ (iter < maximum_iterations parameters)%Z
      /\ same_goal s s'
      /\ exists new,
           trace s' = trace s ++ new
           /\ forallb is_iteration_log new = true
           /\ passes new = zseq iter k
    | Broke s' =>
      exists new inc gf n,
        (iter < n <= maximum_iterations parameters)%Z
        /\ trace s' = trace s ++ new
                      ++ [LogConverged inc itertol n; SaveNoFSIIter (t1 s) n;
                          SaveGoalFunctional (t1 s) gf (integrated_goal_functional s')]
        /\ forallb is_iteration_log new = true
        /\ passes new = zseq iter (Z.to_nat (n - iter))
        /\ integrated_goal_functional s'
           = integrated_goal_functional s
             + (1 # 2) * dt s * (old_goal_functional s + gf)
        /\ old_goal_functional s' = gf
        /\ goal_functional s' = Some gf
    end.
Proof.
  induction k as [|k IH]; intros iter s Hsum; [split; reflexivity|].
  rewrite zseq_S. cbn [for_each]. unfold fsi_iteration.
  destruct (fsi_pass_frame C parameters iter s)
    as ((c1 & c2 & c3 & c4 & c5) & (g1 & g2 & g3) & Htr & _).
  destruct (Qltb (increment (fsi_pass C parameters iter s)) itertol).
  - exists [StartIteration iter], (increment (fsi_pass C parameters iter s)).
    eexists. exists (iter + 1)%Z.
    unfold converged.
    cbn [record t0 t1 dt at_end timestep_counter integrated_goal_functional
         old_goal_functional goal_functional trace phys U_M].
    rewrite Htr, c1, c2, c3, g1, g2, <- !app_assoc. cbn [app].
    split; [lia|]. split; [reflexivity|]. split; [reflexivity|].
    split; [|repeat split].
    replace (Z.to_nat (iter + 1 - iter)) with 1%nat by lia.
    rewrite zseq_S. reflexivity.
  - destruct (Z.eqb_spec iter (maximum_iterations parameters - 1)) as [E|E].
    + destruct k as [|k]; [|lia].
      split; [reflexivity|]. split; [lia|]. split; [split; [|split]; assumption|].
      exists [StartIteration iter].
      split; [exact Htr|]. split; reflexivity.
    + specialize (IH (iter + 1)%Z
        (record (LogIncrement (increment (fsi_pass C parameters iter s)) itertol (iter + 1))
                (pass_state (fsi_pass C parameters iter s))) ltac:(lia)).
      destruct (for_each (zseq (iter + 1) k) _ _) as [s'|s'|e s'];
        cbn [record t0 t1 dt at_end timestep_counter integrated_goal_functional
             old_goal_functional goal_functional trace] in IH.
      * destruct IH as [-> _]. lia.
      * destruct IH as (new & inc & gf & n & Hn & Ht & Hq & Hp & Hi & Ho & Hg).
        exists (StartIteration iter
                  :: LogIncrement (increment (fsi_pass C parameters iter s)) itertol (iter + 1)
                  :: new), inc, gf, n.
        rewrite Ht, Htr, Hi, c2, c3, g1, g2, <- !app_assoc. cbn [app forallb is_iteration_log andb].
        split; [lia|]. split; [reflexivity|]. split; [exact Hq|].
        split; [|repeat split; assumption].
        unfold passes in *. cbn [flat_map passes_of app]. rewrite Hp.
        replace (Z.to_nat (n - iter)) with (S (Z.to_nat (n - (iter + 1)))) by lia.
        rewrite zseq_S. reflexivity.
      * unfold same_goal in IH.
        cbn [record integrated_goal_functional old_goal_functional goal_functional] in IH.
        destruct IH as (-> & Hlt & (h1 & h2 & h3) & new & Ht & Hq & Hp).
        split; [reflexivity|]. split; [lia|].
        split; [unfold same_goal; repeat split; congruence|].
        exists (StartIteration iter
                  :: LogIncrement (increment (fsi_pass C parameters iter s)) itertol (iter + 1)
                  :: new).
        rewrite Ht, Htr, <- !app_assoc. cbn [app forallb is_iteration_log andb].
        split; [reflexivity|]. split; [exact Hq|].
        unfold passes in *. cbn [flat_map passes_of app]. rewrite Hp. reflexivity.
Qed.

(** One time step up to line 166. *)
Lemma time_step_events (s : State Phys Field) :
  let start := StartTimeStep (t0 s) (t1 s) (dt s) (at_end s) in
  match fsi_loop C parameters (record start s) with
  | Exhausted s1 =>
    (maximum_iterations parameters <= 0)%Z /\ s1 = record start s
  | Failed e s1 =>
    e = RuntimeError (maximum_iterations parameters)
    /\ (1 <= maximum_iterations parameters)%Z
    /\ same_clock s s1 /\ same_goal s s1
    /\ exists new,
         trace s1 = trace s ++ start :: new
         /\ forallb is_iteration_log new = true
         /\ passes new = range (maximum_iterations parameters)
  | Broke s1 =>
    (1 <= maximum_iterations parameters)%Z
    /\ same_clock s s1
    /\ exists new inc itertol gf n,
         (1 <= n <= maximum_iterations parameters)%Z
         /\ trace s1 = trace s ++ start :: new
                       ++ [LogConverged inc itertol n; SaveNoFSIIter (t1 s) n;
                           SaveGoalFunctional (t1 s) gf (integrated_goal_functional s1)]
         /\ forallb is_iteration_log new = true
         /\ passes new = range n
         /\ integrated_goal_functional s1
            = integrated_goal_functional s
              + (1 # 2) * dt s * (old_goal_functional s + gf)
         /\ old_goal_functional s1 = gf
         /\ goal_functional s1 = Some gf
  end.
Proof.
  intros start. set (sr := record start s).
  assert (Hclock : same_clock s sr) by (unfold same_clock; repeat split).
  unfold fsi_loop.
  set (itertol := compute_itertol C (phys sr) (w_c parameters) (tolerance parameters)
                                  (dt sr) (t1 sr) parameters).
  pose proof (for_each_frame C parameters itertol
                (range (maximum_iterations parameters)) sr) as Hframe.
  destruct (Z_le_gt_dec 0 (maximum_iterations parameters)) as [Hpos|Hneg].
  - pose proof (for_each_zseq itertol (Z.to_nat (maximum_iterations parameters)) 0 sr
                  ltac:(lia)) as Hev.
    rewrite zseq_range in Hev.
    destruct (for_each (range (maximum_iterations parameters)) _ sr) as [s1|s1|e s1].
    + destruct Hev as [Hk ->]. split; [lia|reflexivity].
    + destruct Hev as (new & inc & gf & n & Hn & Ht & Hq & Hp & Hi & Ho & Hg).
      destruct Hframe as ((d1 & d2 & d3 & d4 & d5) & _).
      split; [lia|]. split; [unfold same_clock; repeat split; assumption|].
      exists new, inc, itertol, gf, n. split; [lia|].
      subst sr. cbn [record trace t1 dt integrated_goal_functional old_goal_functional] in *.
      rewrite Ht, <- !app_assoc. split; [reflexivity|]. split; [exact Hq|].
      split; [|repeat split; assumption].
      rewrite Hp, <- zseq_range. f_equal. lia.
    + destruct Hev as (-> & Hlt & (h1 & h2 & h3) & new & Ht & Hq & Hp).
      destruct Hframe as ((d1 & d2 & d3 & d4 & d5) & _).
      split; [reflexivity|]. split; [lia|].
      split; [unfold same_clock; repeat split; assumption|].
      split; [unfold same_goal; repeat split; assumption|].
      exists new. subst sr. cbn [record trace] in *.
      rewrite Ht, <- !app_assoc. repeat split; assumption.
  - assert (Hr : range (maximum_iterations parameters) = []).
    { unfold range. replace (Z.to_nat (maximum_iterations parameters)) with 0%nat by lia.
      reflexivity. }
    rewrite Hr. cbn [for_each]. split; [lia|reflexivity].
Qed.

(** The rule for the [while True] loop of lines 82-204. *)
Lemma time_loop_invariant
  (Inv : State Phys Field -> Prop) (Post : Outcome Phys Field -> Prop) (T ST : Q) :
  (forall s, Inv s -> Post (OutOfFuel s)) ->
  (forall s, Inv s ->
     match fsi_loop C parameters
             (record (StartTimeStep (t0 s) (t1 s) (dt s) (at_end s)) s) with
     | Failed e s1 => Post (Raised e s1)
     | Broke s1 | Exhausted s1 =>
       if at_end (commit C s1)
       then Post (finish (record (SaveDofs (timestep_counter (commit C s1))) (commit C s1)))
       else Inv (next_interval C parameters T ST (commit C s1))
     end) ->
  forall (fuel : nat) (s : State Phys Field),
    Inv s -> Post (time_loop C parameters fuel T ST s).
Proof.
  intros Hfuel Hstep. induction fuel as [|fuel IH]; intros s Hs; [exact (Hfuel s Hs)|].
  cbn [time_loop]. specialize (Hstep s Hs).
  destruct (fsi_loop C parameters _) as [s1|s1|e s1]; [| |exact Hstep];
    (destruct (at_end (commit C s1)); [exact Hstep|apply IH, Hstep]).
Qed.

Lemma commit_events (s : State Phys Field) :
  trace (commit C s) = trace s ++ [WritePrimalData (t1 s)]
  /\ same_goal s (commit C s)
  /\ t0 (commit C s) = t0 s /\ t1 (commit C s) = t1 s /\ dt (commit C s) = dt s
  /\ at_end (commit C s) = at_end s
  /\ timestep_counter (commit C s) = S (timestep_counter s).
Proof. unfold commit, same_goal. cbn. repeat split. Qed.

Lemma next_interval_events (T ST : Q) (s : State Phys Field) :
  let s' := next_interval C parameters T ST s in
  trace s' = trace s /\ same_goal s s' /\ t0 s' = t1 s
  /\ timestep_counter s' = timestep_counter s
  /\ dt s' == t1 s' - t0 s'.
Proof.
  unfold next_interval, same_goal.
  destruct (uniform_timestep parameters);
    [|destruct (compute_time_step C _ _ _ _ _ _ _ _ _) as [dt' ae]]; cbn;
    (split; [reflexivity|]); (split; [repeat split|]); (split; [reflexivity|]);
    (split; [reflexivity|]); ring.
Qed.

(** The state in which the time loop is entered. *)
Lemma entry_state_events (dt0 : Q) (ph : Phys) :
  let s := entry_state C dt0 ph in
  trace s = [WritePrimalData 0] /\ t0 s = 0 /\ t1 s = dt0 /\ dt s = dt0
  /\ at_end s = false
  /\ integrated_goal_functional s = 0 /\ old_goal_functional s = 0
  /\ goal_functional s = None /\ timestep_counter s = 0%nat.
Proof.
  unfold entry_state. destruct (M_update C 0 ph) as [ph' UM]. cbn. repeat split.
Qed.

(** Nothing has been logged when a constructor of lines 53-55 refuses
    its arguments. *)
Lemma unstarted_events (ph : Phys) : trace (unstarted C parameters ph) = [].
Proof. reflexivity. Qed.

Ltac observe :=
  unfold time_steps, written, saved_dofs, fsi_iterations, goal_values, passes in *;
  repeat first
    [ rewrite flat_map_app
    | progress cbn [flat_map time_step_of written_of saved_dofs_of fsi_iterations_of
                    goal_values_of passes_of app] ];
  rewrite ?app_nil_r.

(** The time series of a run from a state whose bookkeeping is in order. *)
Lemma time_loop_series (T ST : Q) (fuel : nat) (s : State Phys Field) :
  series_ok s -> series_result (time_loop C parameters fuel T ST s).
Proof.
  revert fuel s. apply time_loop_invariant.
  - intros s (H1 & H2 & H3 & H4 & H5 & H6 & H7). unfold series_result.
    cbn [outcome_state]. split; [exists (t0 s); exact H4|]. split; [exact H5|exact I].
  - intros s (H1 & H2 & H3 & H4 & H5 & H6 & H7).
    set (start := StartTimeStep (t0 s) (t1 s) (dt s) (at_end s)).
    assert (Hr : tiles 0 (time_steps (trace s) ++ [record_of s]) (t1 s)
                 /\ Forall (fun r => r_dt r == r_t1 r - r_t0 r)
                      (time_steps (trace s) ++ [record_of s])).
    { split; [exact (tiles_snoc _ (record_of s) _ _ H4 eq_refl)|].
      apply Forall_app. split; [exact H5|]. constructor; [exact H7|constructor]. }
    destruct Hr as [Htiles Hdts].
    assert (Hafter : forall (s1 : State Phys Field) (mid : list Event),
              same_clock s s1 ->
              trace s1 = trace s ++ start :: mid ->
              time_steps mid = [] -> written mid = [] -> saved_dofs mid = [] ->
              if at_end (commit C s1)
              then series_result
                     (finish (record (SaveDofs (timestep_counter (commit C s1)))
                                     (commit C s1)))
              else series_ok (next_interval C parameters T ST (commit C s1))).
    { intros s1 mid (c1 & c2 & c3 & c4 & c5) Ht M1 M2 M3.
      destruct (commit_events s1) as (Hc & _ & k0 & k1 & kd & ke & kc).
      assert (Hsteps : time_steps (trace (commit C s1))
                       = time_steps (trace s) ++ [record_of s]).
      { rewrite Hc, Ht. subst start. observe. rewrite M1, ?app_nil_r. reflexivity. }
      assert (Hwritten : written (trace (commit C s1))
                         = 0 :: map r_t1 (time_steps (trace s) ++ [record_of s])).
      { rewrite Hc, Ht, c2. subst start. rewrite map_app. observe.
        rewrite M2, H2, ?app_nil_r. reflexivity. }
      assert (Hdofs : saved_dofs (trace (commit C s1)) = []).
      { rewrite Hc, Ht. subst start. observe. rewrite M3, H3, ?app_nil_r. reflexivity. }
      assert (Hlen : length (time_steps (trace s) ++ [record_of s])
                     = timestep_counter (commit C s1)).
      { rewrite length_app, H1, kc, c5. cbn. lia. }
      destruct (at_end (commit C s1)) eqn:Hend.
      - unfold finish. cbn [record goal_functional].
        destruct (goal_functional (commit C s1)) as [gf|]; unfold series_result;
          cbn [outcome_state record trace t1 timestep_counter integrated_goal_functional].
        + assert (Hs2 : time_steps ((trace (commit C s1)
                                      ++ [SaveDofs (timestep_counter (commit C s1))])
                                     ++ [SaveGoalFunctionalFinal gf
                                           (integrated_goal_functional (commit C s1))])
                        = time_steps (trace s) ++ [record_of s]).
          { rewrite <- Hsteps. observe. reflexivity. }
          rewrite Hs2.
          split; [exists (t1 s); exact Htiles|]. split; [exact Hdts|].
          split; [exact Hlen|].
          split; [rewrite <- Hwritten; observe; reflexivity|].
          split; [rewrite Hlen; revert Hdofs; observe; intros ->; reflexivity|].
          split; [rewrite k1, c2; exact Htiles|].
          exists (time_steps (trace s)), (record_of s).
          split; [reflexivity|]. split; [exact H6|].
          unfold record_of. cbn. congruence.
        + assert (Hs2 : time_steps (trace (commit C s1)
                                     ++ [SaveDofs (timestep_counter (commit C s1))])
                        = time_steps (trace s) ++ [record_of s]).
          { rewrite <- Hsteps. observe. reflexivity. }
          rewrite Hs2.
          split; [exists (t1 s); exact Htiles|]. split; [exact Hdts|exact I].
      - destruct (next_interval_events T ST (commit C s1)) as (Hn & _ & n0 & nc & nd).
        unfold series_ok. rewrite Hn, n0, nc, Hsteps, Hwritten, Hdofs, k1, c2.
        split; [exact Hlen|]. split; [reflexivity|]. split; [reflexivity|].
        split; [exact Htiles|]. split; [exact Hdts|].
        split; [|rewrite n0, k1, c2 in nd; exact nd].
        apply Forall_app. split; [exact H6|]. constructor; [|constructor].
        unfold record_of. cbn. congruence. }
    pose proof (time_step_events s) as Hev. cbv zeta in Hev.
    fold start in Hev.
    destruct (fsi_loop C parameters (record start s)) as [s1|s1|e s1].
    + destruct Hev as [_ ->].
      apply (Hafter _ []); [unfold same_clock; repeat split| | | |]; reflexivity.
    + destruct Hev as (_ & Hclock & new & inc & itertol & gf & n & _ & Ht & Hq & _).
      destruct (quiet_observations new Hq) as (q1 & q2 & q3 & q4 & q5).
      apply (Hafter s1 _ Hclock Ht); observe; rewrite ?q1, ?q3, ?q5; reflexivity.
    + destruct Hev as (_ & _ & Hclock & _ & new & Ht & Hq & _).
      destruct (quiet_observations new Hq) as (q1 & _).
      unfold series_result. cbn [outcome_state].
      assert (Hs2 : time_steps (trace s1) = time_steps (trace s) ++ [record_of s]).
      { rewrite Ht. subst start. observe. rewrite q1. reflexivity. }
      rewrite Hs2. split; [exists (t1 s); exact Htiles|]. split; [exact Hdts|exact I].
Qed.

(** The coupling iteration of a run with [maxiter >= 1]. *)
Lemma time_loop_integration (T ST : Q) (fuel : nat) (s : State Phys Field) :
  (1 <= maximum_iterations parameters)%Z ->
  integration_ok (maximum_iterations parameters) s ->
  integration_result (maximum_iterations parameters)
    (time_loop C parameters fuel T ST s).
Proof.
  intros Hmax. revert fuel s. apply time_loop_invariant.
  - intros s (H1 & H2 & H3 & H4 & H5 & H6 & H7 & H8). unfold integration_result.
    cbn [outcome_state]. split; [exact H2|]. split; [exact H3|exact I].
  - intros s (H1 & H2 & H3 & H4 & H5 & H6 & H7 & H8).
    set (start := StartTimeStep (t0 s) (t1 s) (dt s) (at_end s)).
    pose proof (time_step_events s) as Hev. cbv zeta in Hev.
    fold start in Hev.
    destruct (fsi_loop C parameters (record start s)) as [s1|s1|e s1].
    + destruct Hev as [Hle _]. lia.
    + destruct Hev as (_ & (c1 & c2 & c3 & c4 & c5) & new & inc & itertol & gf & n
                       & Hn & Ht & Hq & Hp & Hi & Ho & Hg).
      destruct (quiet_observations new Hq) as (q1 & q2 & q3 & q4 & q5).
      destruct (commit_events s1) as (Hc & (j1 & j2 & j3) & k0 & k1 & kd & ke & kc).
      assert (Hsteps : time_steps (trace (commit C s1))
                       = time_steps (trace s) ++ [record_of s]).
      { rewrite Hc, Ht. subst start. observe. rewrite q1. reflexivity. }
      assert (Hcounts : fsi_iterations (trace (commit C s1))
                        = fsi_iterations (trace s) ++ [n]).
      { rewrite Hc, Ht. subst start. observe. rewrite q2. reflexivity. }
      assert (Hgoals : goal_values (trace (commit C s1)) = goal_values (trace s) ++ [gf]).
      { rewrite Hc, Ht. subst start. observe. rewrite q4. reflexivity. }
      assert (Hpasses : passes (trace (commit C s1))
                        = flat_map range (fsi_iterations (trace s) ++ [n])).
      { rewrite Hc, Ht. subst start. rewrite flat_map_app. observe.
        rewrite Hp, H4. reflexivity. }
      assert (Htrap : (integrated_goal_functional (commit C s1), gf)
                      = trapezoid (zip (map r_dt (time_steps (trace s) ++ [record_of s]))
                                       (goal_values (trace s) ++ [gf]))).
      { rewrite map_app, zip_with_app by (rewrite length_map; congruence).
        cbn [map zip_with]. rewrite trapezoid_snoc, <- H6.
        unfold trapezoid_step. cbn [fst snd record_of r_dt]. rewrite j1, Hi. reflexivity. }
      assert (Hall : Forall (fun n => (1 <= n <= maximum_iterations parameters)%Z)
                       (fsi_iterations (trace s) ++ [n])).
      { apply Forall_app. split; [exact H3|]. constructor; [exact Hn|constructor]. }
      destruct (at_end (commit C s1)) eqn:Hend.
      * unfold finish. cbn [record goal_functional]. rewrite j3, Hg.
        unfold integration_result.
        cbn [outcome_state record trace timestep_counter integrated_goal_functional].
        assert (Hobs : forall (A : Type) (f : Event -> list A),
                  f (SaveDofs (timestep_counter (commit C s1))) = [] ->
                  f (SaveGoalFunctionalFinal gf
                       (integrated_goal_functional (commit C s1))) = [] ->
                  flat_map f ((trace (commit C s1)
                               ++ [SaveDofs (timestep_counter (commit C s1))])
                              ++ [SaveGoalFunctionalFinal gf
                                    (integrated_goal_functional (commit C s1))])
                  = flat_map f (trace (commit C s1))).
        { intros A f E1 E2. rewrite !flat_map_app. cbn [flat_map].
          rewrite E1, E2, !app_nil_r. reflexivity. }
        unfold time_steps, fsi_iterations, goal_values, passes in *.
        rewrite !Hobs by reflexivity.
        rewrite Hsteps, Hcounts, Hgoals, Hpasses, kc, c5, !length_app, H1, H2, H5.
        cbn [length].
        split; [lia|]. split; [exact Hall|]. split; [lia|]. split; [lia|].
        split; [reflexivity|]. split; [lia|]. split; [exact Htrap|].
        eexists. reflexivity.
      * destruct (next_interval_events T ST (commit C s1))
          as (Hn' & (m1 & m2 & m3) & n0 & nc & nd).
        unfold integration_ok.
        rewrite Hn', nc, m1, m2, m3, Hsteps, Hcounts, Hgoals, Hpasses, kc, c5,
          !length_app, H1, H2, H5, j2, j3, Ho, Hg.
        cbn [length].
        split; [lia|]. split; [lia|]. split; [exact Hall|]. split; [reflexivity|].
        split; [lia|]. split; [exact Htrap|].
        split; [intros g [= <-]; reflexivity|discriminate].
    + destruct Hev as (-> & _ & (c1 & c2 & c3 & c4 & c5) & (g1 & g2 & g3)
                       & new & Ht & Hq & Hp).
      destruct (quiet_observations new Hq) as (q1 & q2 & q3 & q4 & q5).
      unfold integration_result. cbn [outcome_state].
      assert (Hcounts : fsi_iterations (trace s1) = fsi_iterations (trace s)).
      { rewrite Ht. subst start. observe. rewrite q2, ?app_nil_r. reflexivity. }
      assert (Hsteps : time_steps (trace s1) = time_steps (trace s) ++ [record_of s]).
      { rewrite Ht. subst start. observe. rewrite q1. reflexivity. }
      assert (Hpasses : passes (trace s1)
                        = flat_map range (fsi_iterations (trace s))
                          ++ range (maximum_iterations parameters)).
      { rewrite Ht. subst start. observe. rewrite Hp, H4. reflexivity. }
      rewrite Hcounts, Hsteps, Hpasses, length_app, c5, H1, H2. cbn [length].
      split; [reflexivity|]. split; [exact H3|]. split; [reflexivity|].
      split; [lia|reflexivity].
Qed.

(** A run with [maxiter <= 0]. *)
Lemma time_loop_never_iterated (T ST : Q) (fuel : nat) (s : State Phys Field) :
  (maximum_iterations parameters <= 0)%Z ->
  never_iterated s ->
  never_iterated_result (time_loop C parameters fuel T ST s).
Proof.
  intros Hmax. revert fuel s. apply time_loop_invariant.
  - intros s (H1 & H2 & H3 & H4). unfold never_iterated_result. cbn [outcome_state].
    repeat split; assumption.
  - intros s (H1 & H2 & H3 & H4).
    set (start := StartTimeStep (t0 s) (t1 s) (dt s) (at_end s)).
    pose proof (time_step_events s) as Hev. cbv zeta in Hev.
    fold start in Hev.
    destruct (fsi_loop C parameters (record start s)) as [s1|s1|e s1].
    + destruct Hev as [_ ->].
      destruct (commit_events (record start s)) as (Hc & (j1 & j2 & j3) & _ & _ & _ & ke & _).
      cbn [record trace goal_functional at_end t1] in Hc, j3, ke.
      assert (Hobs : passes (trace (commit C (record start s))) = []
                     /\ fsi_iterations (trace (commit C (record start s))) = []
                     /\ goal_values (trace (commit C (record start s))) = []).
      { rewrite Hc. subst start. observe. rewrite H1, H2, H3. repeat split. }
      destruct Hobs as (O1 & O2 & O3).
      destruct (at_end (commit C (record start s))) eqn:Hend.
      * unfold finish. cbn [record goal_functional]. rewrite j3, H4.
        unfold never_iterated_result. cbn [outcome_state record trace at_end].
        revert O1 O2 O3. observe. intros -> -> ->.
        repeat split. exact Hend.
      * destruct (next_interval_events T ST (commit C (record start s)))
          as (Hn' & (m1 & m2 & m3) & _).
        unfold never_iterated. rewrite Hn', m3, j3, O1, O2, O3. repeat split. exact H4.
    + destruct Hev as [Hle _]. lia.
    + destruct Hev as (_ & Hle & _). lia.
Qed.

(** Every run of [solve_primal] falls under the lemmas above, unless a
    constructor of lines 53-55 refused its arguments. *)
Lemma solve_primal_results (ph : Phys) (ST : Q) (fuel : nat) :
  let o := solve_primal C parameters fuel ph ST in
  series_result o
  /\ ((construct_subproblems C ph = None
       /\ o = Raised TypeError (unstarted C parameters ph))
      \/ (construct_subproblems C ph <> None
          /\ (1 <= maximum_iterations parameters)%Z
          /\ integration_result (maximum_iterations parameters) o)
      \/ (construct_subproblems C ph <> None
          /\ (maximum_iterations parameters <= 0)%Z /\ never_iterated_result o)).
Proof.
  cbv zeta. unfold solve_primal.
  destruct (construct_subproblems C ph) as [ph'|].
  - destruct (entry_state_events (initial_timestep C ph parameters) ph')
      as (Ht & I0 & I1 & Id & Ie & Ii & Io & Ig & Ic).
    split.
    + apply time_loop_series. unfold series_ok. rewrite Ht, I0, I1, Id, Ic. cbn.
      repeat split; try constructor. ring.
    + right.
      destruct (Z_le_gt_dec 1 (maximum_iterations parameters)) as [Hmax|Hmax]; [left|right].
      * split; [discriminate|]. split; [exact Hmax|].
        apply time_loop_integration; [exact Hmax|].
        unfold integration_ok. rewrite Ht, Ii, Io, Ig, Ic. cbn.
        repeat split; try constructor; try discriminate. intros H0 _. exact (H0 eq_refl).
      * split; [discriminate|]. split; [lia|].
        apply time_loop_never_iterated; [lia|].
        unfold never_iterated. rewrite Ht, Ig. repeat split.
  - split; [|left; split; reflexivity].
    unfold series_result. cbn [outcome_state]. rewrite unstarted_events.
    split; [exists 0; reflexivity|]. split; [constructor|exact I].
Qed.

(** What a run that returns has integrated. *)
Lemma returned_run_integrates
  (ph : Phys) (ST : Q) (fuel : nat) (gf : Q) (s' : State Phys Field) :
  solve_primal C parameters fuel ph ST = Returned gf s' ->
  length (goal_values (trace s')) = length (time_steps (trace s'))
  /\ (integrated_goal_functional s', gf)
     = trapezoid (zip (map r_dt (time_steps (trace s'))) (goal_values (trace s')))
  /\ (exists t,
        trace s' = t ++ [SaveGoalFunctionalFinal gf (integrated_goal_functional s')])
  /\ (1 <= length (time_steps (trace s')))%nat.
Proof.
  intros Hrun.
  destruct (solve_primal_results ph ST fuel) as [_ [[_ H]|[(_ & Hmax & H)|(_ & _ & H)]]];
    rewrite Hrun in H.
  - discriminate H.
  - destruct H as (_ & _ & A3 & A4 & _ & A6 & A7 & A8). cbn [outcome_state] in *.
    split; [congruence|]. split; [exact A7|]. split; [exact A8|]. lia.
  - destruct H as (_ & _ & _ & []).
Qed.

(** X6.  A run of [solve_primal] that returns has converged in every
    time step: [maximum_iterations] is at least 1, there is at least one
    time step, one iteration count was stored per time step, each count
    [n] lies between 1 and [maximum_iterations], and the passes made in
    that step are exactly those numbered [0 .. n - 1]. *)
Theorem X6_returned_run_converged_in_every_step
  (ph : Phys) (ST : Q) (fuel : nat) (gf : Q) (s' : State Phys Field) :
  solve_primal C parameters fuel ph ST = Returned gf s' ->
  (1 <= maximum_iterations parameters)%Z
  /\ (1 <= timestep_counter s')%nat
  /\ length (time_steps (trace s')) = timestep_counter s'
  /\ length (fsi_iterations (trace s')) = timestep_counter s'
  /\ Forall (fun n => (1 <= n <= maximum_iterations parameters)%Z)
            (fsi_iterations (trace s'))
  /\ passes (trace s') = flat_map range (fsi_iterations (trace s')).
Proof.
  intros Hrun.
  destruct (solve_primal_results ph ST fuel) as [_ [[_ H]|[(_ & Hmax & H)|(_ & _ & H)]]];
    rewrite Hrun in H.
  - discriminate H.
  - destruct H as (A1 & A2 & A3 & A4 & A5 & _). cbn [outcome_state] in *.
    repeat split; assumption.
  - destruct H as (_ & _ & _ & []).
Qed.

(** X7.  With [maximum_iterations <= 0] no subproblem is ever solved and
    no goal functional evaluated, and the run cannot return.  If it
    raises, then either a constructor of lines 53-55 refused its
    arguments, the exception is the [TypeError] of that call and nothing
    has been logged; or the time loop has reached the end time and the
    exception is the [UnboundLocalError] of line 207, where
    [goal_functional] is read although no assignment has reached it. *)
Theorem X7_nothing_solved_without_iterations (ph : Phys) (ST : Q) (fuel : nat) :
  (maximum_iterations parameters <= 0)%Z ->
  passes (trace (outcome_state (solve_primal C parameters fuel ph ST))) = []
  /\ goal_values (trace (outcome_state (solve_primal C parameters fuel ph ST))) = []
  /\ (forall gf s', solve_primal C parameters fuel ph ST <> Returned gf s')
  /\ (forall e s', solve_primal C parameters fuel ph ST = Raised e s' ->
        match construct_subproblems C ph with
        | None => e = TypeError /\ trace s' = []
        | Some _ => e = UnboundLocalError /\ at_end s' = true
        end).
Proof.
  intros Hmax.
  destruct (solve_primal_results ph ST fuel) as [_ [[Hc H]|[(_ & Hle & _)|(Hc & _ & H)]]];
    [|lia|].
  - rewrite H, Hc. cbn [outcome_state]. rewrite unstarted_events.
    split; [reflexivity|]. split; [reflexivity|].
    split; [discriminate|]. intros e s' [= <- <-]. split; reflexivity.
  - destruct H as (B1 & _ & B3 & B4).
    split; [exact B1|]. split; [exact B3|].
    split; [intros gf s' E; rewrite E in B4; exact B4|].
    intros e s' E. rewrite E in B4.
    destruct (construct_subproblems C ph); [exact B4|exact (False_ind _ (Hc eq_refl))].
Qed.

(** X8.  [solve_primal] raises in three ways only.  A constructor of
    lines 53-55 refused its arguments: then the exception is the
    [TypeError] of that call and nothing has been logged.  Or a time
    step did not converge: then [maximum_iterations >= 1], the exception
    is the [RuntimeError] of line 161, all earlier time steps had
    converged and been stored, and the failing step made every pass from
    0 to [maximum_iterations - 1].  Or [maximum_iterations <= 0]: then
    the exception is the [UnboundLocalError] of X7.  With the
    constructors of subproblems.py as they are listed, every call ends
    in the first way, at line 54. *)
Theorem X8_exceptions_of_solve_primal (ph : Phys) (ST : Q) (fuel : nat) :
  (forall (e : Exn) (s' : State Phys Field),
     solve_primal C parameters fuel ph ST = Raised e s' ->
     (e = TypeError
      /\ construct_subproblems C ph = None
      /\ trace s' = [])
     \/ (e = RuntimeError (maximum_iterations parameters)
         /\ construct_subproblems C ph <> None
         /\ (1 <= maximum_iterations parameters)%Z
         /\ length (time_steps (trace s')) = S (timestep_counter s')
         /\ length (fsi_iterations (trace s')) = timestep_counter s'
         /\ passes (trace s')
            = flat_map range (fsi_iterations (trace s'))
              ++ range (maximum_iterations parameters))
     \/ (e = UnboundLocalError
         /\ construct_subproblems C ph <> None
         /\ (maximum_iterations parameters <= 0)%Z
         /\ passes (trace s') = []
         /\ at_end s' = true))
  /\ solve_primal (Doubles.with_listed_subproblems C) parameters fuel ph ST
     = Raised TypeError (unstarted (Doubles.with_listed_subproblems C) parameters ph).
Proof.
  split; [|reflexivity].
  intros e s' Hrun.
  destruct (solve_primal_results ph ST fuel) as [_ [[Hc H]|[(Hc & Hmax & H)|(Hc & Hmax & H)]]];
    rewrite Hrun in H; [left|right; left|right; right].
  - injection H as -> ->. split; [reflexivity|]. split; [exact Hc|reflexivity].
  - destruct H as (A1 & _ & A3 & A4 & A5). cbn [outcome_state] in *.
    repeat split; assumption.
  - destruct H as (B1 & _ & _ & B3 & B4). cbn [outcome_state] in *.
    repeat split; assumption.
Qed.

(** X9.  The integral handed to [save_goal_functional_final] by a run
    that returns is the trapezoidal rule over the recorded time steps
    and goal functionals, started from the value 0 at [t = 0]; the value
    returned is the goal functional of the last time step, not the
    integral. *)
Theorem X9_integral_is_trapezoidal_rule
  (ph : Phys) (ST : Q) (fuel : nat) (gf : Q) (s' : State Phys Field) :
  solve_primal C parameters fuel ph ST = Returned gf s' ->
  length (goal_values (trace s')) = length (time_steps (trace s'))
  /\ (integrated_goal_functional s', gf)
     = trapezoid (zip (map r_dt (time_steps (trace s'))) (goal_values (trace s')))
  /\ exists t,
       trace s' = t ++ [SaveGoalFunctionalFinal gf (integrated_goal_functional s')].
Proof.
  intros Hrun. destruct (returned_run_integrates ph ST fuel gf s' Hrun) as (A & B & D & _).
  split; [exact A|]. split; assumption.
Qed.

(** The rule over steps of one length [dt0] and a functional that is [v]
    in each of them. *)
Lemma trapezoid_constant (dt0 v : Q) (steps : list (Q * Q)) :
  Forall (fun x => fst x == dt0 /\ snd x == v) steps ->
  steps <> [] ->
  fst (trapezoid steps)
    == inject_Z (Z.of_nat (length steps)) * dt0 * v - (1 # 2) * dt0 * v
  /\ snd (trapezoid steps) == v.
Proof.
  induction steps as [|x steps IH] using rev_ind; [intros _ H; exfalso; exact (H eq_refl)|].
  intros Hall _. apply Forall_app in Hall. destruct Hall as [Hall Hx].
  inversion Hx as [|? ? [Hdt Hv] _]; subst.
  rewrite trapezoid_snoc, length_app. unfold trapezoid_step. cbn [fst snd length].
  split; [|exact Hv].
  destruct steps as [|y steps].
  - change (trapezoid []) with (0, 0). cbn [fst snd length Nat.add].
    change (inject_Z (Z.of_nat 1)) with 1. rewrite Hdt, Hv. ring.
  - destruct (IH Hall ltac:(discriminate)) as [Hi Ho].
    rewrite Hi, Ho, Hdt, Hv.
    replace (length (y :: steps) + 1)%nat with (S (length (y :: steps))) by lia.
    rewrite inject_Z_S. ring.
Qed.

Lemma zip_constant (dt0 v : Q) (dts gs : list Q) :
  length dts = length gs ->
  Forall (fun d => d == dt0) dts ->
  Forall (fun g => g == v) gs ->
  Forall (fun x => fst x == dt0 /\ snd x == v) (zip dts gs)
  /\ length (zip dts gs) = length dts.
Proof.
  revert gs. induction dts as [|d dts IH]; intros [|g gs] Hlen Hd Hg;
    cbn in Hlen; try discriminate; cbn [zip_with length].
  - split; [constructor|reflexivity].
  - inversion Hd; subst. inversion Hg; subst.
    destruct (IH gs ltac:(lia)) as [A B]; [assumption|assumption|].
    split; [constructor; [split; assumption|exact A]|rewrite B; reflexivity].
Qed.

(** C3 (amended).  In a primal solve that returns after [n] time steps,
    all of length [dt] with [T = n * dt], in each of which the goal
    functional evaluated to [v], the accumulated trapezoidal integral,
    which starts from the value 0 of the functional at [t = 0] and is the
    last thing handed to storage, by [save_goal_functional_final], is
    [v * T - v * dt / 2] in exact arithmetic, and the value returned is
    the functional of the last step, [v]. *)
Theorem C3_constant_functional_integral
  (ph : Phys) (ST : Q) (fuel : nat) (gf : Q) (s' : State Phys Field)
  (n : nat) (dt0 v : Q) :
  solve_primal C parameters fuel ph ST = Returned gf s' ->
  length (time_steps (trace s')) = n ->
  Forall (fun r => r_dt r == dt0) (time_steps (trace s')) ->
  Forall (fun g => g == v) (goal_values (trace s')) ->
  end_time C ph == inject_Z (Z.of_nat n) * dt0 ->
  gf == v
  /\ integrated_goal_functional s' == v * end_time C ph - (1 # 2) * v * dt0
  /\ exists t,
       trace s' = t ++ [SaveGoalFunctionalFinal gf (integrated_goal_functional s')].
Proof.
  intros Hrun Hn Hdts Hgs HT.
  destruct (returned_run_integrates ph ST fuel gf s' Hrun) as (Hlen & Htrap & Hlast & Hpos).
  destruct (zip_constant dt0 v (map r_dt (time_steps (trace s'))) (goal_values (trace s')))
    as [Hall Hzlen].
  - rewrite length_map. congruence.
  - apply Forall_map. exact Hdts.
  - exact Hgs.
  - rewrite length_map in Hzlen.
    destruct (trapezoid_constant dt0 v _ Hall) as [Hi Ho].
    + intros E. rewrite E in Hzlen. cbn in Hzlen. lia.
    + rewrite <- Htrap, Hzlen, Hn in Hi. rewrite <- Htrap in Ho. cbn [fst snd] in Hi, Ho.
      split; [exact Ho|]. split; [|exact Hlast].
      rewrite Hi, HT. ring.
Qed.

(** X10.  Under either time-stepping policy and however a run ends, the
    time steps it started leave no gap: the first starts at 0, each of
    the others starts where the one before it ended, and each step's
    [dt] is the length of its interval. *)
Theorem X10_time_steps_leave_no_gap (ph : Phys) (ST : Q) (fuel : nat) :
  (exists b,
     tiles 0 (time_steps (trace (outcome_state (solve_primal C parameters fuel ph ST)))) b)
  /\ Forall (fun r => r_dt r == r_t1 r - r_t0 r)
       (time_steps (trace (outcome_state (solve_primal C parameters fuel ph ST)))).
Proof.
  destruct (solve_primal_results ph ST fuel) as [(S1 & S2 & _) _]. split; assumption.
Qed.

(** X11.  When a run returns, the primal time series holds the initial
    solution at time 0 and one solution per time step, stored at the
    step's [t1]; the steps tile the interval from 0 to the final [t1];
    [save_dofs] was called once, with the number of time steps; and the
    last time step is the only one flagged [at_end]. *)
Theorem X11_primal_series_of_a_returned_run
  (ph : Phys) (ST : Q) (fuel : nat) (gf : Q) (s' : State Phys Field) :
  solve_primal C parameters fuel ph ST = Returned gf s' ->
  written (trace s') = 0 :: map r_t1 (time_steps (trace s'))
  /\ saved_dofs (trace s') = [length (time_steps (trace s'))]
  /\ tiles 0 (time_steps (trace s')) (t1 s')
  /\ exists init r,
       time_steps (trace s') = init ++ [r]
       /\ Forall (fun r => r_at_end r = false) init /\ r_at_end r = true.
Proof.
  intros Hrun. destruct (solve_primal_results ph ST fuel) as [H _].
  rewrite Hrun in H. destruct H as (_ & _ & _ & S2 & S3 & S4 & S5).
  cbn [outcome_state] in *. repeat split; assumption.
Qed.

End Runs.

(** In the settling run the counts stored are 2 and 1. *)
Lemma X6_witness :
  fsi_iterations (trace (outcome_state (solve_primal (Doubles.scripted (Doubles.steady 1) 3 2 1 (1 # 2))
                     (Doubles.primal_parameters 5) 5 0%nat 1))) = [2; 1]%Z
  /\ (1 <= maximum_iterations (Doubles.primal_parameters 5))%Z
  /\ (1 <= timestep_counter (outcome_state (solve_primal (Doubles.scripted (Doubles.steady 1) 3 2 1 (1 # 2))
                     (Doubles.primal_parameters 5) 5 0%nat 1)))%nat
  /\ length (time_steps (trace (outcome_state (solve_primal (Doubles.scripted (Doubles.steady 1) 3 2 1 (1 # 2))
                     (Doubles.primal_parameters 5) 5 0%nat 1))))
     = timestep_counter (outcome_state (solve_primal (Doubles.scripted (Doubles.steady 1) 3 2 1 (1 # 2))
                     (Doubles.primal_parameters 5) 5 0%nat 1))
  /\ length (fsi_iterations (trace (outcome_state (solve_primal (Doubles.scripted (Doubles.steady 1) 3 2 1 (1 # 2))
                     (Doubles.primal_parameters 5) 5 0%nat 1))))
     = timestep_counter (outcome_state (solve_primal (Doubles.scripted (Doubles.steady 1) 3 2 1 (1 # 2))
                     (Doubles.primal_parameters 5) 5 0%nat 1))
  /\ Forall (fun n => (1 <= n <= maximum_iterations (Doubles.primal_parameters 5))%Z)
            (fsi_iterations (trace (outcome_state (solve_primal (Doubles.scripted (Doubles.steady 1) 3 2 1 (1 # 2))
                     (Doubles.primal_parameters 5) 5 0%nat 1))))
  /\ passes (trace (outcome_state (solve_primal (Doubles.scripted (Doubles.steady 1) 3 2 1 (1 # 2))
                     (Doubles.primal_parameters 5) 5 0%nat 1)))
     = flat_map range (fsi_iterations (trace (outcome_state (solve_primal (Doubles.scripted (Doubles.steady 1) 3 2 1 (1 # 2))
                     (Doubles.primal_parameters 5) 5 0%nat 1)))).
Proof.
  assert (Hrun : (solve_primal (Doubles.scripted (Doubles.steady 1) 3 2 1 (1 # 2))
                     (Doubles.primal_parameters 5) 5 0%nat 1) = Returned 3 (outcome_state (solve_primal (Doubles.scripted (Doubles.steady 1) 3 2 1 (1 # 2))
                     (Doubles.primal_parameters 5) 5 0%nat 1)))
    by (vm_compute; reflexivity).
  split; [vm_compute; reflexivity|].
  exact (X6_returned_run_converged_in_every_step
           (Doubles.scripted (Doubles.steady 1) 3 2 1 (1 # 2))
           (Doubles.primal_parameters 5) 0%nat 1 5%nat 3 _ Hrun).
Defined.

(** Without iterations the scripted run reaches the end time and fails
    there; with the constructors as listed it fails at line 54. *)
Lemma X7_witness :
  (passes (trace (outcome_state
                    (solve_primal (Doubles.scripted (Doubles.steady 1) 3 2 1 (1 # 2))
                                  (Doubles.primal_parameters 0) 5 0%nat 1))) = []
   /\ goal_values (trace (outcome_state
                    (solve_primal (Doubles.scripted (Doubles.steady 1) 3 2 1 (1 # 2))
                                  (Doubles.primal_parameters 0) 5 0%nat 1))) = []
   /\ (forall gf s',
         solve_primal (Doubles.scripted (Doubles.steady 1) 3 2 1 (1 # 2))
                      (Doubles.primal_parameters 0) 5 0%nat 1 <> Returned gf s')
   /\ (forall e s',
         solve_primal (Doubles.scripted (Doubles.steady 1) 3 2 1 (1 # 2))
                      (Doubles.primal_parameters 0) 5 0%nat 1 = Raised e s' ->
         e = UnboundLocalError /\ at_end s' = true))
  /\ (forall e s',
        solve_primal (Doubles.with_listed_subproblems
                        (Doubles.scripted (Doubles.steady 1) 3 2 1 (1 # 2)))
                     (Doubles.primal_parameters 0) 5 0%nat 1 = Raised e s' ->
        e = TypeError /\ trace s' = []).
Proof.
  split.
  - apply (X7_nothing_solved_without_iterations
             (Doubles.scripted (Doubles.steady 1) 3 2 1 (1 # 2))
             (Doubles.primal_parameters 0) 0%nat 1 5%nat).
    cbn. lia.
  - apply (X7_nothing_solved_without_iterations
             (Doubles.with_listed_subproblems
                (Doubles.scripted (Doubles.steady 1) 3 2 1 (1 # 2)))
             (Doubles.primal_parameters 0) 0%nat 1 5%nat).
    cbn. lia.
Defined.

(** With [late_oscillation] the first time step converges in one pass
    and the second fails in its third; with the constructors as listed
    the run fails before anything is logged. *)
Lemma X8_witness :
  (timestep_counter
     (outcome_state
        (solve_primal (Doubles.scripted Doubles.late_oscillation 3 2 1 (1 # 2))
                      (Doubles.primal_parameters 3) 5 0%nat 1)) = 1%nat
   /\ passes
        (trace (outcome_state
                  (solve_primal (Doubles.scripted Doubles.late_oscillation 3 2 1 (1 # 2))
                                (Doubles.primal_parameters 3) 5 0%nat 1)))
      = flat_map range
          (fsi_iterations
             (trace (outcome_state
                       (solve_primal (Doubles.scripted Doubles.late_oscillation 3 2 1 (1 # 2))
                                     (Doubles.primal_parameters 3) 5 0%nat 1))))
        ++ range 3)
  /\ trace (outcome_state
              (solve_primal (Doubles.with_listed_subproblems
                               (Doubles.scripted Doubles.late_oscillation 3 2 1 (1 # 2)))
                            (Doubles.primal_parameters 3) 5 0%nat 1)) = [].
Proof.
  assert (Hrun : solve_primal (Doubles.scripted Doubles.late_oscillation 3 2 1 (1 # 2))
                              (Doubles.primal_parameters 3) 5 0%nat 1
                 = Raised (RuntimeError 3)
                     (outcome_state
                        (solve_primal (Doubles.scripted Doubles.late_oscillation 3 2 1 (1 # 2))
                                      (Doubles.primal_parameters 3) 5 0%nat 1)))
    by (vm_compute; reflexivity).
  destruct (X8_exceptions_of_solve_primal
              (Doubles.scripted Doubles.late_oscillation 3 2 1 (1 # 2))
              (Doubles.primal_parameters 3) 0%nat 1 5%nat) as [Hraise Hlisted].
  split; [split; [vm_compute; reflexivity|]|].
  - destruct (Hraise _ _ Hrun)
      as [(He & _)|[(_ & _ & _ & _ & _ & Hp)|(He & _)]];
      [discriminate He|exact Hp|discriminate He].
  - rewrite Hlisted. reflexivity.
Defined.

(** In the settling run the integral is 3/2 + 3 = 9/2 and the value
    returned is 3. *)
Lemma X9_witness :
  integrated_goal_functional (outcome_state (solve_primal (Doubles.scripted (Doubles.steady 1) 3 2 1 (1 # 2))
                     (Doubles.primal_parameters 5) 5 0%nat 1)) == 9 # 2
  /\ length (goal_values (trace (outcome_state (solve_primal (Doubles.scripted (Doubles.steady 1) 3 2 1 (1 # 2))
                     (Doubles.primal_parameters 5) 5 0%nat 1))))
     = length (time_steps (trace (outcome_state (solve_primal (Doubles.scripted (Doubles.steady 1) 3 2 1 (1 # 2))
                     (Doubles.primal_parameters 5) 5 0%nat 1))))
  /\ (integrated_goal_functional (outcome_state (solve_primal (Doubles.scripted (Doubles.steady 1) 3 2 1 (1 # 2))
                     (Doubles.primal_parameters 5) 5 0%nat 1)), 3)
     = trapezoid (zip (map r_dt (time_steps (trace (outcome_state (solve_primal (Doubles.scripted (Doubles.steady 1) 3 2 1 (1 # 2))
                     (Doubles.primal_parameters 5) 5 0%nat 1)))))
                      (goal_values (trace (outcome_state (solve_primal (Doubles.scripted (Doubles.steady 1) 3 2 1 (1 # 2))
                     (Doubles.primal_parameters 5) 5 0%nat 1)))))
  /\ exists t,
       trace (outcome_state (solve_primal (Doubles.scripted (Doubles.steady 1) 3 2 1 (1 # 2))
                     (Doubles.primal_parameters 5) 5 0%nat 1))
       = t ++ [SaveGoalFunctionalFinal 3
                 (integrated_goal_functional (outcome_state (solve_primal (Doubles.scripted (Doubles.steady 1) 3 2 1 (1 # 2))
                     (Doubles.primal_parameters 5) 5 0%nat 1)))].
Proof.
  assert (Hrun : (solve_primal (Doubles.scripted (Doubles.steady 1) 3 2 1 (1 # 2))
                     (Doubles.primal_parameters 5) 5 0%nat 1) = Returned 3 (outcome_state (solve_primal (Doubles.scripted (Doubles.steady 1) 3 2 1 (1 # 2))
                     (Doubles.primal_parameters 5) 5 0%nat 1)))
    by (vm_compute; reflexivity).
  split; [vm_compute; reflexivity|].
  exact (X9_integral_is_trapezoidal_rule
           (Doubles.scripted (Doubles.steady 1) 3 2 1 (1 # 2))
           (Doubles.primal_parameters 5) 0%nat 1 5%nat 3 _ Hrun).
Defined.

Lemma X11_witness :
  written (trace (outcome_state (solve_primal (Doubles.scripted (Doubles.steady 1) 3 2 1 (1 # 2))
                     (Doubles.primal_parameters 5) 5 0%nat 1))) = [0; 1; 2]
  /\ written (trace (outcome_state (solve_primal (Doubles.scripted (Doubles.steady 1) 3 2 1 (1 # 2))
                     (Doubles.primal_parameters 5) 5 0%nat 1)))
     = 0 :: map r_t1 (time_steps (trace (outcome_state (solve_primal (Doubles.scripted (Doubles.steady 1) 3 2 1 (1 # 2))
                     (Doubles.primal_parameters 5) 5 0%nat 1))))
  /\ saved_dofs (trace (outcome_state (solve_primal (Doubles.scripted (Doubles.steady 1) 3 2 1 (1 # 2))
                     (Doubles.primal_parameters 5) 5 0%nat 1)))
     = [length (time_steps (trace (outcome_state (solve_primal (Doubles.scripted (Doubles.steady 1) 3 2 1 (1 # 2))
                     (Doubles.primal_parameters 5) 5 0%nat 1))))]
  /\ tiles 0 (time_steps (trace (outcome_state (solve_primal (Doubles.scripted (Doubles.steady 1) 3 2 1 (1 # 2))
                     (Doubles.primal_parameters 5) 5 0%nat 1))))
       (t1 (outcome_state (solve_primal (Doubles.scripted (Doubles.steady 1) 3 2 1 (1 # 2))
                     (Doubles.primal_parameters 5) 5 0%nat 1)))
  /\ exists init r,
       time_steps (trace (outcome_state (solve_primal (Doubles.scripted (Doubles.steady 1) 3 2 1 (1 # 2))
                     (Doubles.primal_parameters 5) 5 0%nat 1))) = init ++ [r]
       /\ Forall (fun r => r_at_end r = false) init /\ r_at_end r = true.
Proof.
  assert (Hrun : (solve_primal (Doubles.scripted (Doubles.steady 1) 3 2 1 (1 # 2))
                     (Doubles.primal_parameters 5) 5 0%nat 1) = Returned 3 (outcome_state (solve_primal (Doubles.scripted (Doubles.steady 1) 3 2 1 (1 # 2))
                     (Doubles.primal_parameters 5) 5 0%nat 1)))
    by (vm_compute; reflexivity).
  split; [vm_compute; reflexivity|].
  exact (X11_primal_series_of_a_returned_run
           (Doubles.scripted (Doubles.steady 1) 3 2 1 (1 # 2))
           (Doubles.primal_parameters 5) 0%nat 1 5%nat 3 _ Hrun).
Defined.

(** Two steps of length 1 up to T = 2 with the functional 3 in both. *)
Lemma C3_witness :
  integrated_goal_functional
    (outcome_state (solve_primal (Doubles.scripted (Doubles.steady 0) 3 2 1 (1 # 2))
                                 (Doubles.primal_parameters 5) 5 0%nat 1))
  == 3 * 2 - (1 # 2) * 3 * 1
  /\ 3 == 3
  /\ integrated_goal_functional
       (outcome_state (solve_primal (Doubles.scripted (Doubles.steady 0) 3 2 1 (1 # 2))
                                    (Doubles.primal_parameters 5) 5 0%nat 1))
     == 3 * end_time (Doubles.scripted (Doubles.steady 0) 3 2 1 (1 # 2)) 0%nat
        - (1 # 2) * 3 * 1
  /\ exists t,
       trace (outcome_state (solve_primal (Doubles.scripted (Doubles.steady 0) 3 2 1 (1 # 2))
                                          (Doubles.primal_parameters 5) 5 0%nat 1))
       = t ++ [SaveGoalFunctionalFinal 3
                 (integrated_goal_functional
                    (outcome_state
                       (solve_primal (Doubles.scripted (Doubles.steady 0) 3 2 1 (1 # 2))
                                     (Doubles.primal_parameters 5) 5 0%nat 1)))].
Proof.
  assert (Hrun : solve_primal (Doubles.scripted (Doubles.steady 0) 3 2 1 (1 # 2))
                              (Doubles.primal_parameters 5) 5 0%nat 1
                 = Returned 3
                     (outcome_state
                        (solve_primal (Doubles.scripted (Doubles.steady 0) 3 2 1 (1 # 2))
                                      (Doubles.primal_parameters 5) 5 0%nat 1)))
    by (vm_compute; reflexivity).
  split; [vm_compute; reflexivity|].
  apply (C3_constant_functional_integral
           (Doubles.scripted (Doubles.steady 0) 3 2 1 (1 # 2))
           (Doubles.primal_parameters 5) 0%nat 1 5%nat 3 _ 2%nat 1 3 Hrun).
  - vm_compute. reflexivity.
  - vm_compute. repeat constructor.
  - vm_compute. repeat constructor.
  - vm_compute. reflexivity.
Defined.

(** In that run, taken from the state in which the time loop is entered,
    the integral handed to storage is 9/2 and the value returned is 3;
    neither is [v * T = 6]. *)
Lemma C3_counterexample :
  match time_loop (Doubles.scripted (Doubles.steady 0) 3 2 1 (1 # 2))
                  (Doubles.primal_parameters 5) 5 2 1
                  (initial_state (Doubles.scripted (Doubles.steady 0) 3 2 1 (1 # 2))
                                 (Doubles.primal_parameters 5) 0%nat) with
  | Returned gf s' =>
    map r_dt (time_steps (trace s')) = [1; 1]
    /\ goal_values (trace s') = [3; 3]
    /\ fsi_iterations (trace s') = [1; 1]%Z
    /\ integrated_goal_functional s' == 9 # 2
    /\ ~ integrated_goal_functional s' == 3 * 2
    /\ trace s'
       = removelast (trace s')
           ++ [SaveGoalFunctionalFinal gf (integrated_goal_functional s')]
    /\ gf = 3
  | _ => False
  end.
Proof.
  vm_compute. split; [reflexivity|]. split; [reflexivity|]. split; [reflexivity|].
  split; [reflexivity|]. split; [discriminate|].
  split; reflexivity.
Qed.

(** *** Termination of the time loop *)

Section Termination.

Context {Phys Field : Type}.
Variable C : Collaborators Phys Field.
Variable parameters : Parameters.

(** The clock and the list of time steps after one time step. *)
Lemma time_step_summary (s : State Phys Field) :
  match fsi_loop C parameters
          (record (StartTimeStep (t0 s) (t1 s) (dt s) (at_end s)) s) with
  | Exhausted s1 | Broke s1 =>
    t1 (commit C s1) = t1 s /\ dt (commit C s1) = dt s
    /\ at_end (commit C s1) = at_end s
    /\ time_steps (trace (commit C s1)) = time_steps (trace s) ++ [record_of s]
  | Failed _ s1 => time_steps (trace s1) = time_steps (trace s) ++ [record_of s]
  end.
Proof.
  pose proof (time_step_events C parameters s) as Hev. cbv zeta in Hev.
  destruct (fsi_loop C parameters _) as [s1|s1|e s1].
  - destruct Hev as [_ ->]. unfold commit. cbn.
    rewrite !time_steps_app. cbn. rewrite ?app_nil_r. repeat split.
  - destruct Hev as (_ & (c1 & c2 & c3 & c4 & c5) & new & inc & itertol & gf & n
                     & _ & Ht & Hq & _).
    destruct (quiet_observations new Hq) as (q1 & _).
    destruct (commit_events C s1) as (Hc & _ & k0 & k1 & kd & ke & kc).
    rewrite k1, kd, ke, Hc, Ht, c2, c3, c4.
    split; [reflexivity|]. split; [reflexivity|]. split; [reflexivity|].
    change (StartTimeStep (t0 s) (t1 s) (dt s) (at_end s)
              :: new ++ [LogConverged inc itertol n; SaveNoFSIIter (t1 s) n;
                         SaveGoalFunctional (t1 s) gf (integrated_goal_functional s1)])
      with ([StartTimeStep (t0 s) (t1 s) (dt s) (at_end s)]
              ++ new ++ [LogConverged inc itertol n; SaveNoFSIIter (t1 s) n;
                         SaveGoalFunctional (t1 s) gf (integrated_goal_functional s1)]).
    rewrite !time_steps_app, q1. cbn. rewrite ?app_nil_r. reflexivity.
  - destruct Hev as (_ & _ & _ & _ & new & Ht & Hq & _).
    destruct (quiet_observations new Hq) as (q1 & _).
    rewrite Ht.
    change (StartTimeStep (t0 s) (t1 s) (dt s) (at_end s) :: new)
      with ([StartTimeStep (t0 s) (t1 s) (dt s) (at_end s)] ++ new).
    rewrite !time_steps_app, q1. cbn. rewrite ?app_nil_r. reflexivity.
Qed.

Lemma finish_time_steps (s : State Phys Field) :
  finish (record (SaveDofs (timestep_counter s)) s) <> OutOfFuel
    (outcome_state (finish (record (SaveDofs (timestep_counter s)) s)))
  /\ time_steps (trace (outcome_state (finish (record (SaveDofs (timestep_counter s)) s))))
     = time_steps (trace s).
Proof.
  unfold finish. cbn [record goal_functional].
  destruct (goal_functional s); cbn [outcome_state record trace];
    rewrite !time_steps_app; cbn; rewrite ?app_nil_r; split; (discriminate || reflexivity).
Qed.

Lemma time_loop_ends_at_end (T ST : Q) (fuel : nat) (s : State Phys Field) :
  at_end s = true ->
  ends_within 1 s (time_loop C parameters (S fuel) T ST s).
Proof.
  intros Hend. cbn [time_loop].
  pose proof (time_step_summary s) as Hsum.
  destruct (fsi_loop C parameters _) as [s1|s1|e s1].
  1, 2: destruct Hsum as (_ & _ & ke & Hts); rewrite ke, Hend;
    destruct (finish_time_steps (commit C s1)) as [Hne Hfs];
    unfold ends_within; rewrite Hfs, Hts, length_app; cbn [length];
    split; [|lia];
    intros s' E; rewrite E in Hne; cbn [outcome_state] in Hne; exact (Hne eq_refl).
  unfold ends_within. cbn [outcome_state]. rewrite Hsum, length_app. cbn [length].
  split; [discriminate|lia].
Qed.

(** Under the uniform policy [t1] advances by [dt0] until it would pass
    [T]; the step that reaches [T] is flagged [at_end], provided that
    the threshold of line 197 lies below [T]. *)
Lemma time_loop_ends (T ST dt0 : Q) :
  uniform_timestep parameters = true ->
  end_threshold C T < T ->
  0 < dt0 ->
  forall (m fuel : nat) (s : State Phys Field),
    at_end s = false ->
    dt s == dt0 ->
    T <= t1 s + inject_Z (Z.of_nat m) * dt0 ->
    (m + 2 <= fuel)%nat ->
    ends_within (m + 2) s (time_loop C parameters fuel T ST s).
Proof.
  intros Hu Heps Hdt0. induction m as [|m IH]; intros fuel s Hend Hdt HT Hfuel;
    (destruct fuel as [|fuel]; [lia|]); cbn [time_loop];
    pose proof (time_step_summary s) as Hsum;
    (destruct (fsi_loop C parameters _) as [s1|s1|e s1];
     [| |unfold ends_within; cbn [outcome_state]; rewrite Hsum, length_app; cbn [length];
         split; [discriminate|lia]]).
  all: destruct Hsum as (k1 & kd & ke & Hts); rewrite ke, Hend.
  all: set (c := commit C s1) in *.
  all: assert (Hnext : trace (next_interval C parameters T ST c) = trace c
                       /\ t1 (next_interval C parameters T ST c) = py_min (t1 c + dt c) T
                       /\ dt (next_interval C parameters T ST c)
                          = py_min (t1 c + dt c) T - t1 c
                       /\ at_end (next_interval C parameters T ST c)
                          = Qltb (end_threshold C T) (py_min (t1 c + dt c) T))
         by (unfold next_interval; rewrite Hu; cbn; repeat split).
  all: destruct Hnext as (Htr & Ht1 & Hdt' & Hend').
  all: assert (Hmin : py_min (t1 c + dt c) T = T \/
                      (py_min (t1 c + dt c) T = t1 c + dt c /\ t1 c + dt c <= T))
         by (unfold py_min; destruct (Qltb T (t1 c + dt c)) eqn:E;
             [left; reflexivity|right; split; [reflexivity|]; apply Qltb_false in E; lra]).
  all: destruct (at_end (next_interval C parameters T ST c)) eqn:Hae.
  all: try (destruct fuel as [|fuel]; [lia|];
            destruct (time_loop_ends_at_end T ST fuel _ Hae) as [Hne Hlen];
            unfold ends_within; split; [exact Hne|];
            rewrite Htr, Hts, length_app in Hlen; cbn [length] in Hlen; lia).
  all: symmetry in Hend'; apply Qltb_false in Hend'.
  all: destruct Hmin as [Hcap|[Hfree Hle]]; [rewrite Hcap in Hend'; lra|].
  1, 2: exfalso; change (inject_Z (Z.of_nat 0)) with 0 in HT;
    rewrite k1, kd in Hle; lra.
  all: assert (HS : inject_Z (Z.of_nat (S m)) == inject_Z (Z.of_nat m) + 1)
         by apply inject_Z_S.
  all: destruct (IH fuel (next_interval C parameters T ST c)) as [Hne Hlen];
    [ exact Hae
    | rewrite Hdt', Hfree, kd; lra
    | rewrite Ht1, Hfree, k1, kd; rewrite HS in HT;
      set (x := inject_Z (Z.of_nat m)) in *; nra
    | lia
    | unfold ends_within; split; [exact Hne|];
      rewrite Htr, Hts, length_app in Hlen; cbn [length] in Hlen; lia ].
Qed.

(** X15.  Uniform time stepping terminates when the threshold of line
    197, [T - DOLFIN_EPS] as rounded, lies below the end time [T]: with
    a positive initial time step [dt] and [n >= 1] such that [n * dt]
    reaches [T], a run given room for [n + 1] time steps ends, by
    returning or by raising, and starts at most [n + 1] time steps. *)
Theorem X15_uniform_time_stepping_terminates
  (ph : Phys) (ST : Q) (n fuel : nat) :
  uniform_timestep parameters = true ->
  end_threshold C (end_time C ph) < end_time C ph ->
  0 < initial_timestep C ph parameters ->
  (1 <= n)%nat ->
  end_time C ph <= inject_Z (Z.of_nat n) * initial_timestep C ph parameters ->
  (n + 1 <= fuel)%nat ->
  (forall s', solve_primal C parameters fuel ph ST <> OutOfFuel s')
  /\ (length (time_steps (trace (outcome_state (solve_primal C parameters fuel ph ST))))
      <= n + 1)%nat.
Proof.
  intros Hu Heps Hdt Hn HT Hfuel. unfold solve_primal.
  destruct (construct_subproblems C ph) as [ph'|];
    [|split; [discriminate|cbn; lia]].
  destruct (entry_state_events C (initial_timestep C ph parameters) ph')
    as (Ht & I0 & I1 & Id & Ie & _).
  destruct n as [|m]; [lia|].
  destruct (time_loop_ends (end_time C ph) ST (initial_timestep C ph parameters)
              Hu Heps Hdt m fuel (entry_state C (initial_timestep C ph parameters) ph'))
    as [Hne Hlen].
  - exact Ie.
  - rewrite Id. reflexivity.
  - rewrite I1. rewrite inject_Z_S in HT.
    set (x := inject_Z (Z.of_nat m)) in *. nra.
  - lia.
  - split; [exact Hne|]. rewrite Ht in Hlen. cbn in Hlen. lia.
Qed.

(** X16.  The first time step is never shortened to the end time.  Let
    the initial time step [dt] be at least [T] and the threshold of line
    197 lie below [T].  A run that gets past lines 53-55 starts its
    first step from 0 to [dt]; if the coupling iteration of that step
    raises, this is the only step, and otherwise the run starts exactly
    one more step, from [dt] back to [T], flagged [at_end], whose length
    [T - dt] is zero or negative. *)
Theorem X16_first_time_step_may_overshoot
  (ph : Phys) (ST : Q) (fuel : nat) :
  uniform_timestep parameters = true ->
  end_threshold C (end_time C ph) < end_time C ph ->
  0 < initial_timestep C ph parameters ->
  end_time C ph <= initial_timestep C ph parameters ->
  let dt0 := initial_timestep C ph parameters in
  let steps :=
    time_steps (trace (outcome_state (solve_primal C parameters (S (S fuel)) ph ST))) in
  match construct_subproblems C ph with
  | None => steps = []
  | Some ph' =>
    match fsi_loop C parameters
            (record (StartTimeStep 0 dt0 dt0 false) (entry_state C dt0 ph')) with
    | Failed _ _ => steps = [mkTimeStepRecord 0 dt0 dt0 false]
    | _ => steps = [mkTimeStepRecord 0 dt0 dt0 false;
                    mkTimeStepRecord dt0 (end_time C ph) (end_time C ph - dt0) true]
    end
  end.
Proof.
  intros Hu Heps Hdt HT. cbv zeta. unfold solve_primal.
  destruct (construct_subproblems C ph) as [ph'|]; [|reflexivity].
  destruct (entry_state_events C (initial_timestep C ph parameters) ph')
    as (Ht & I0 & I1 & Hdt0 & Hend & _).
  set (s := entry_state C (initial_timestep C ph parameters) ph') in *.
  assert (Hr1 : record_of s
                = mkTimeStepRecord 0 (initial_timestep C ph parameters)
                    (initial_timestep C ph parameters) false).
  { unfold record_of. rewrite I0, I1, Hdt0, Hend. reflexivity. }
  cbn [time_loop]. pose proof (time_step_summary s) as Hsum.
  rewrite I0, I1, Hdt0, Hend in Hsum |- *.
  destruct (fsi_loop C parameters _) as [s1|s1|e s1];
    [| |cbn [outcome_state]; rewrite Hsum, Ht, Hr1; reflexivity].
  all: destruct Hsum as (k1 & kd & ke & Hts); rewrite ke.
  all: set (c := commit C s1) in *.
  all: set (s2 := next_interval C parameters (end_time C ph) ST c).
  all: assert (Hnext : trace s2 = trace c
                       /\ record_of s2
                          = mkTimeStepRecord (initial_timestep C ph parameters) (end_time C ph)
                              (end_time C ph - initial_timestep C ph parameters) true).
  1, 3: subst s2; unfold next_interval, record_of; rewrite Hu;
    cbn [trace t0 t1 dt at_end]; rewrite k1, kd;
    assert (Hmin : py_min (initial_timestep C ph parameters
                            + initial_timestep C ph parameters) (end_time C ph)
                   = end_time C ph)
      by (unfold py_min;
          replace (Qltb (end_time C ph)
                        (initial_timestep C ph parameters + initial_timestep C ph parameters))
            with true by (symmetry; apply Qltb_true; lra);
          reflexivity);
    rewrite Hmin;
    replace (Qltb (end_threshold C (end_time C ph)) (end_time C ph)) with true
      by (symmetry; apply Qltb_true; exact Heps);
    split; reflexivity.
  all: destruct Hnext as [Htr Hr2].
  all: assert (Hae : at_end s2 = true)
         by (change (at_end s2) with (r_at_end (record_of s2)); rewrite Hr2; reflexivity).
  all: cbn [time_loop]; pose proof (time_step_summary s2) as Hsum2.
  all: destruct (fsi_loop C parameters _) as [s3|s3|e s3];
    [ | |cbn [outcome_state]; rewrite Hsum2, Htr, Hts, Ht, Hr1, Hr2; reflexivity].
  all: destruct Hsum2 as (_ & _ & ke2 & Hts2); rewrite ke2, Hae.
  all: destruct (finish_time_steps (commit C s3)) as [_ Hfs].
  all: rewrite Hfs, Hts2, Htr, Hts, Ht, Hr1, Hr2; reflexivity.
Qed.

End Termination.

(** Two steps of length 1 reach the end time 2. *)
Lemma X15_witness :
  (forall s',
     solve_primal (Doubles.scripted (Doubles.steady 1) 3 2 1 (1 # 2))
                  (Doubles.primal_parameters 5) 3 0%nat 1 <> OutOfFuel s')
  /\ (length (time_steps
                (trace (outcome_state
                          (solve_primal (Doubles.scripted (Doubles.steady 1) 3 2 1 (1 # 2))
                                        (Doubles.primal_parameters 5) 3 0%nat 1))))
      <= 2 + 1)%nat.
Proof.
  apply (X15_uniform_time_stepping_terminates
           (Doubles.scripted (Doubles.steady 1) 3 2 1 (1 # 2))
           (Doubles.primal_parameters 5) 0%nat 1 2%nat 3%nat).
  - reflexivity.
  - reflexivity.
  - reflexivity.
  - lia.
  - vm_compute. discriminate.
  - lia.
Defined.

(** An initial time step of 3 for the end time 2: the first step
    converges, and a second step of length -1 follows. *)
Lemma X16_witness :
  time_steps
    (trace (outcome_state
              (solve_primal (Doubles.scripted (Doubles.steady 1) 3 2 3 (1 # 2))
                            (Doubles.primal_parameters 5) 2 0%nat 1)))
  = [mkTimeStepRecord 0 3 3 false; mkTimeStepRecord 3 2 (2 - 3) true].
Proof.
  apply (X16_first_time_step_may_overshoot
           (Doubles.scripted (Doubles.steady 1) 3 2 3 (1 # 2))
           (Doubles.primal_parameters 5) 0%nat 1 0%nat).
  - reflexivity.
  - reflexivity.
  - reflexivity.
  - vm_compute. discriminate.
Defined.

End PrimalSolverRuns.

(** ** Repeated Mesh -> Fluid transfers *)

Module MeshTransferRuns.

Import Subproblems SubproblemsObservations SubproblemsProps.

(** Arrays of the same shape with the same cells are equal. *)
Lemma shaped_ext (N d : nat) (x y : Coordinates) :
  shaped N d x -> shaped N d y ->
  (forall i j, (i < N)%nat -> (j < d)%nat -> get2 x i j = get2 y i j) ->
  x = y.
Proof.
  intros [Hx Hxr] [Hy Hyr] Hcells. apply list_eq. intros i.
  destruct (decide (i < N)%nat) as [Hi|Hi].
  - destruct (lookup_lt_is_Some_2 x i ltac:(lia)) as [rx Hrx].
    destruct (lookup_lt_is_Some_2 y i ltac:(lia)) as [ry Hry].
    rewrite Hrx, Hry. f_equal. apply list_eq. intros j.
    rewrite Forall_lookup in Hxr, Hyr.
    pose proof (Hxr i rx Hrx) as Lx. pose proof (Hyr i ry Hry) as Ly.
    destruct (decide (j < d)%nat) as [Hj|Hj].
    + specialize (Hcells i j Hi Hj). unfold get2 in Hcells.
      rewrite Hrx, Hry in Hcells. exact Hcells.
    + rewrite !lookup_ge_None_2 by lia. reflexivity.
  - rewrite !lookup_ge_None_2 by lia. reflexivity.
Qed.

(** Vectors with one entry per vertex and dimension and the same
    entries are equal. *)
Lemma cell_index_surj (N d k : nat) :
  (k < d * N)%nat -> exists i j, (i < N)%nat /\ (j < d)%nat /\ k = (j * N + i)%nat.
Proof.
  intros Hk. assert (HN : (0 < N)%nat) by nia.
  exists (k mod N)%nat, (k / N)%nat.
  pose proof (Nat.mod_upper_bound k N ltac:(lia)) as Hm.
  pose proof (Nat.div_mod_eq k N) as Hd.
  split; [exact Hm|]. split; [|lia].
  apply Nat.Div0.div_lt_upper_bound. lia.
Qed.

Lemma vector_ext (N d : nat) (u v : list Q) :
  length u = (d * N)%nat -> length v = (d * N)%nat ->
  (forall i j, (i < N)%nat -> (j < d)%nat -> u !! (j * N + i)%nat = v !! (j * N + i)%nat) ->
  u = v.
Proof.
  intros Hu Hv Hcells. apply list_eq. intros k.
  destruct (decide (k < d * N)%nat) as [Hk|Hk].
  - destruct (cell_index_surj N d k Hk) as (i & j & Hi & Hj & ->). apply Hcells; assumption.
  - rewrite !lookup_ge_None_2 by lia. reflexivity.
Qed.

(** A loop with a pass that fails whatever it is given fails. *)
Lemma for_range_fails {A : Type} (body : nat -> A -> option A) (its : list nat) (i : nat) :
  In i its -> (forall a, body i a = None) ->
  forall a, for_range its body a = None.
Proof.
  intros Hin Hfail. induction its as [|k its IH]; intros a; [destruct Hin|].
  cbn [for_range]. destruct Hin as [->|Hin]; [rewrite Hfail; reflexivity|].
  destruct (body k a) as [a'|]; cbn; [apply IH; exact Hin|reflexivity].
Qed.

Section Transfers.

Variable smooth : Z -> Coordinates -> Coordinates.
Hypothesis smooth_keeps_shape : keeps_shape smooth.

(** What one transfer leaves behind on a well-formed fluid problem. *)
Lemma update_mesh_displacement_spec
  (dofs : list Q) (dt : Q) (num_smoothings : Z) (fp : FluidProblem) :
  well_formed fp ->
  (dim fp * length (omega_F1 fp) <= length dofs)%nat ->
  exists deformed wx,
    update_mesh_displacement smooth dofs dt num_smoothings fp
    = Some (mkFluidProblem (Omega_F fp) (omega_F0 fp) (smooth num_smoothings deformed)
              (dim fp) wx
              (calls fp ++ [MeshSmooth num_smoothings; SolverReassemble]))
    /\ shaped (length (omega_F1 fp)) (dim fp) deformed
    /\ (forall i j, (i < length (omega_F1 fp))%nat -> (j < dim fp)%nat ->
          get2 deformed i j = displaced (Omega_F fp) dofs (length (omega_F1 fp)) i j)
    /\ length wx = (dim fp * length (omega_F1 fp))%nat
    /\ (forall i j, (i < length (omega_F1 fp))%nat -> (j < dim fp)%nat ->
          wx !! (j * length (omega_F1 fp) + i)%nat
          = velocity (omega_F0 fp) (smooth num_smoothings deformed) dt i j).
Proof.
  intros (HX & Hx0 & Hx1 & Hw) Hdofs.
  destruct (deform_spec (Omega_F fp) dofs _ _ (omega_F1 fp) HX Hx1 Hdofs)
    as (deformed & Hdeform & Hshape & Hcells).
  destruct (mesh_velocity_values_spec (omega_F0 fp) (smooth num_smoothings deformed)
              dt _ _ (w fp) Hx0 (smooth_keeps_shape _ _ _ _ Hshape) ltac:(lia))
    as (wx & Hvel & Hlen & Hvels).
  exists deformed, wx. split.
  { unfold update_mesh_displacement. rewrite Hdeform. cbn. rewrite Hvel. reflexivity. }
  split; [exact Hshape|]. split; [exact Hcells|]. split; [congruence|exact Hvels].
Qed.

(** X12.  The mesh displacement does not accumulate: every transfer
    displaces the reference coordinates, so an earlier transfer (as in an
    earlier pass of the coupling iteration) leaves no mark on the mesh
    and the mesh velocity that a later transfer produces, and the fluid
    problem stays well formed. *)
Theorem X12_mesh_displacement_does_not_accumulate
  (dofs0 dofs : list Q) (dt0 dt : Q) (n0 n : Z) (fp : FluidProblem) :
  well_formed fp ->
  (dim fp * length (omega_F1 fp) <= length dofs0)%nat ->
  (dim fp * length (omega_F1 fp) <= length dofs)%nat ->
  0 < dt0 -> 0 < dt ->
  exists fp0 fp1 fp2,
    update_mesh_displacement smooth dofs0 dt0 n0 fp = Some fp0
    /\ update_mesh_displacement smooth dofs dt n fp0 = Some fp2
    /\ update_mesh_displacement smooth dofs dt n fp = Some fp1
    /\ omega_F1 fp2 = omega_F1 fp1
    /\ w fp2 = w fp1
    /\ well_formed fp2.
Proof.
  intros Hwf Hdofs0 Hdofs _ _.
  pose proof Hwf as (HX & Hx0 & Hx1 & Hw).
  destruct (update_mesh_displacement_spec dofs0 dt0 n0 fp Hwf Hdofs0)
    as (deformed0 & wx0 & Hrun0 & Hshape0 & _ & Hlen0 & _).
  destruct (update_mesh_displacement_spec dofs dt n fp Hwf Hdofs)
    as (deformed1 & wx1 & Hrun1 & Hshape1 & Hcells1 & Hlen1 & Hvels1).
  set (N := length (omega_F1 fp)) in *. set (d := dim fp) in *.
  set (fp0 := mkFluidProblem (Omega_F fp) (omega_F0 fp) (smooth n0 deformed0) d wx0
                (calls fp ++ [MeshSmooth n0; SolverReassemble])) in *.
  assert (HN0 : length (omega_F1 fp0) = N)
    by (apply (smooth_keeps_shape n0 N d deformed0 Hshape0)).
  assert (Hwf0 : well_formed fp0).
  { unfold well_formed. rewrite HN0. cbn [Omega_F omega_F0 omega_F1 dim w fp0].
    split; [exact HX|]. split; [exact Hx0|].
    split; [exact (smooth_keeps_shape n0 N d deformed0 Hshape0)|exact Hlen0]. }
  destruct (update_mesh_displacement_spec dofs dt n fp0 Hwf0)
    as (deformed2 & wx2 & Hrun2 & Hshape2 & Hcells2 & Hlen2 & Hvels2).
  { rewrite HN0. exact Hdofs. }
  rewrite HN0 in Hshape2, Hcells2, Hlen2, Hvels2.
  cbn [Omega_F omega_F0 omega_F1 dim w calls fp0] in Hrun2, Hshape2, Hcells2, Hlen2, Hvels2.
  assert (Hsame : deformed2 = deformed1).
  { apply (shaped_ext N d); [exact Hshape2|exact Hshape1|].
    intros i j Hi Hj. rewrite Hcells2, Hcells1 by assumption. reflexivity. }
  subst deformed2.
  assert (Hwsame : wx2 = wx1).
  { apply (vector_ext N d); [exact Hlen2|exact Hlen1|].
    intros i j Hi Hj. rewrite Hvels2, Hvels1 by assumption. reflexivity. }
  subst wx2.
  eexists _, _, _. split; [exact Hrun0|]. split; [exact Hrun2|]. split; [exact Hrun1|].
  cbn [omega_F1 w]. split; [reflexivity|]. split; [reflexivity|].
  unfold well_formed. cbn [Omega_F omega_F0 omega_F1 dim w].
  pose proof (smooth_keeps_shape n N d deformed1 Hshape1) as Hs.
  replace (length (smooth n deformed1)) with N by (symmetry; apply Hs).
  split; [exact HX|]. split; [exact Hx0|]. split; [exact Hs|exact Hlen1].
Qed.

(** X13.  A mesh that does not move has no velocity: when the transfer
    is repeated with the same displacement after the step has been
    committed with [update_extra], the mesh stays where it is and every
    entry of the mesh velocity is zero. *)
Theorem X13_unchanged_displacement_gives_zero_mesh_velocity
  (dofs : list Q) (dt0 dt : Q) (n : Z) (fp : FluidProblem) :
  well_formed fp ->
  (dim fp * length (omega_F1 fp) <= length dofs)%nat ->
  0 < dt0 -> 0 < dt ->
  exists fp1 fp2,
    update_mesh_displacement smooth dofs dt0 n fp = Some fp1
    /\ update_mesh_displacement smooth dofs dt n (update_extra fp1) = Some fp2
    /\ omega_F1 fp2 = omega_F1 fp1
    /\ length (w fp2) = (dim fp * length (omega_F1 fp))%nat
    /\ Forall (fun v => v == 0) (w fp2).
Proof.
  intros Hwf Hdofs _ _.
  pose proof Hwf as (HX & Hx0 & Hx1 & Hw).
  destruct (update_mesh_displacement_spec dofs dt0 n fp Hwf Hdofs)
    as (deformed1 & wx1 & Hrun1 & Hshape1 & Hcells1 & Hlen1 & _).
  set (N := length (omega_F1 fp)) in *. set (d := dim fp) in *.
  pose proof (smooth_keeps_shape n N d deformed1 Hshape1) as Hs1.
  set (fp1 := mkFluidProblem (Omega_F fp) (omega_F0 fp) (smooth n deformed1) d wx1
                (calls fp ++ [MeshSmooth n; SolverReassemble])) in *.
  assert (HN1 : length (omega_F1 (update_extra fp1)) = N) by (apply Hs1).
  assert (Hwf1 : well_formed (update_extra fp1)).
  { unfold well_formed. rewrite HN1.
    cbn [update_extra Omega_F omega_F0 omega_F1 dim w fp1].
    split; [exact HX|]. split; [exact Hs1|]. split; [exact Hs1|exact Hlen1]. }
  destruct (update_mesh_displacement_spec dofs dt n (update_extra fp1) Hwf1)
    as (deformed2 & wx2 & Hrun2 & Hshape2 & Hcells2 & Hlen2 & Hvels2).
  { rewrite HN1. exact Hdofs. }
  rewrite HN1 in Hshape2, Hcells2, Hlen2, Hvels2.
  cbn [update_extra Omega_F omega_F0 omega_F1 dim w calls fp1]
    in Hrun2, Hshape2, Hcells2, Hlen2, Hvels2.
  assert (Hsame : deformed2 = deformed1).
  { apply (shaped_ext N d); [exact Hshape2|exact Hshape1|].
    intros i j Hi Hj. rewrite Hcells2, Hcells1 by assumption. reflexivity. }
  subst deformed2.
  eexists _, _. split; [exact Hrun1|]. split; [exact Hrun2|].
  cbn [omega_F1 w]. split; [reflexivity|]. split; [exact Hlen2|].
  apply Forall_lookup. intros k v Hk.
  assert (Hlt : (k < d * N)%nat) by (rewrite <- Hlen2; exact (lookup_lt_Some _ _ _ Hk)).
  destruct (cell_index_surj N d k Hlt) as (i & j & Hi & Hj & ->).
  rewrite (Hvels2 i j Hi Hj) in Hk. unfold velocity in Hk.
  destruct (get2 (smooth n deformed1) i j) as [a|]; cbn in Hk; [|discriminate].
  injection Hk as <-. unfold Qdiv. ring.
Qed.

(** X14.  A displacement vector with fewer entries than vertices times
    dimensions makes the transfer fail with an [IndexError] in the first
    loop, before the mesh is smoothed and the mesh velocity touched. *)
Theorem X14_short_displacement_vector_raises
  (dofs : list Q) (dt : Q) (n : Z) (fp : FluidProblem) :
  (length dofs < dim fp * length (omega_F1 fp))%nat ->
  deform (Omega_F fp) dofs (length (omega_F1 fp)) (dim fp) (omega_F1 fp) = None
  /\ update_mesh_displacement smooth dofs dt n fp = None.
Proof.
  intros Hshort.
  assert (Hdeform : deform (Omega_F fp) dofs (length (omega_F1 fp)) (dim fp) (omega_F1 fp)
                    = None).
  { unfold deform.
    apply (for_range_fails _ _ (length (omega_F1 fp) - 1)); [apply in_seq; nia|].
    intros a. apply (for_range_fails _ _ (dim fp - 1)); [apply in_seq; nia|].
    intros b. destruct (get2 (Omega_F fp) _ _); cbn; [|reflexivity].
    rewrite lookup_ge_None_2 by nia. reflexivity. }
  split; [exact Hdeform|].
  unfold update_mesh_displacement. rewrite Hdeform. reflexivity.
Qed.

End Transfers.

Lemma no_smoothing_keeps_shape : keeps_shape Doubles.no_smoothing.
Proof. intros n N d x Hx. exact Hx. Qed.

Lemma two_vertices_well_formed : well_formed Doubles.two_vertices.
Proof.
  unfold well_formed. cbn.
  assert (H : shaped 2 2 [[0; 0]; [1; 0]]) by (split; [reflexivity|repeat constructor]).
  repeat split; try apply H.
Qed.

Lemma X12_witness :
  exists fp0 fp1 fp2,
    update_mesh_displacement Doubles.no_smoothing [5; 5; 5; 5] 1 2 Doubles.two_vertices
    = Some fp0
    /\ update_mesh_displacement Doubles.no_smoothing [1; 2; 3; 4] (1 # 2) 3 fp0 = Some fp2
    /\ update_mesh_displacement Doubles.no_smoothing [1; 2; 3; 4] (1 # 2) 3
         Doubles.two_vertices = Some fp1
    /\ omega_F1 fp2 = omega_F1 fp1
    /\ w fp2 = w fp1
    /\ well_formed fp2.
Proof.
  apply (X12_mesh_displacement_does_not_accumulate Doubles.no_smoothing
           no_smoothing_keeps_shape [5; 5; 5; 5] [1; 2; 3; 4] 1 (1 # 2) 2 3
           Doubles.two_vertices two_vertices_well_formed).
  - cbn. lia.
  - cbn. lia.
  - reflexivity.
  - reflexivity.
Defined.

Lemma X13_witness :
  exists fp1 fp2,
    update_mesh_displacement Doubles.no_smoothing [1; 2; 3; 4] 1 3 Doubles.two_vertices
    = Some fp1
    /\ update_mesh_displacement Doubles.no_smoothing [1; 2; 3; 4] (1 # 2) 3
         (update_extra fp1) = Some fp2
    /\ omega_F1 fp2 = omega_F1 fp1
    /\ length (w fp2) = 4%nat
    /\ Forall (fun v => v == 0) (w fp2).
Proof.
  apply (X13_unchanged_displacement_gives_zero_mesh_velocity Doubles.no_smoothing
           no_smoothing_keeps_shape [1; 2; 3; 4] 1 (1 # 2) 3
           Doubles.two_vertices two_vertices_well_formed).
  - cbn. lia.
  - reflexivity.
  - reflexivity.
Defined.

Lemma X14_witness :
  deform (Omega_F Doubles.two_vertices) [1; 2; 3] 2 2 (omega_F1 Doubles.two_vertices) = None
  /\ update_mesh_displacement Doubles.no_smoothing [1; 2; 3] (1 # 2) 3 Doubles.two_vertices
     = None.
Proof.
  apply (X14_short_displacement_vector_raises Doubles.no_smoothing [1; 2; 3] (1 # 2) 3
           Doubles.two_vertices).
  cbn. lia.
Defined.

End MeshTransferRuns.
